(** * monitoreoplus_dap: document index, ingestion pipeline, context assembly
      and intent routing

    A shallow embedding of [preprocesar_diarios.py] and of the index, context
    and routing helpers of [backend_dap.py], together with the endpoints built
    on them, with the properties of the document index state machine proved
    over it.

    Conventions of the embedding:
    - a Python [str] is a list of Unicode code points ([pystr]); literals of the
      source are written as Rocq strings and decoded from UTF-8 by [u];
    - a cell of a [pandas] frame read by [pd.read_csv] is text or [NaN]
      (an empty field of the CSV file), see [cell];
    - a row is a finite map from column names to cells;
    - code that can raise returns in the [res] monad; [try/except Exception]
      is a match on the raised case;
    - the file system, the PDF reader and the language model are parameters
      of the sections that use them. *)

From stdpp Require Import base numbers option list gmap strings fin_maps sorting.

Local Open Scope N_scope.

(** ** Python strings *)

Module Py.

Definition pystr := list N.

(** UTF-8 decoding of the bytes of a literal into code points. *)
Fixpoint utf8_decode (bs : list N) : list N :=
  match bs with
  | [] => []
  | b :: r =>
    if b <? 128 then b :: utf8_decode r
    else if b <? 224 then
      match r with
      | c :: r' => N.lor (N.shiftl (N.land b 31) 6) (N.land c 63) :: utf8_decode r'
      | [] => [b]
      end
    else if b <? 240 then
      match r with
      | c :: d :: r' =>
        N.lor (N.shiftl (N.land b 15) 12)
              (N.lor (N.shiftl (N.land c 63) 6) (N.land d 63)) :: utf8_decode r'
      | _ => [b]
      end
    else
      match r with
      | c :: d :: e :: r' =>
        N.lor (N.shiftl (N.land b 7) 18)
              (N.lor (N.shiftl (N.land c 63) 12)
                     (N.lor (N.shiftl (N.land d 63) 6) (N.land e 63))) :: utf8_decode r'
      | _ => [b]
      end
  end.

Definition u (s : string) : pystr :=
  utf8_decode (map Ascii.N_of_ascii (String.list_ascii_of_string s)).

(** [str.isspace] on one code point: the Unicode white-space characters. *)
Definition isspace (c : N) : bool :=
  ((9 <=? c) && (c <=? 13)) || ((28 <=? c) && (c <=? 32))
  || (c =? 133) || (c =? 160) || (c =? 5760)
  || ((8192 <=? c) && (c <=? 8202))
  || (c =? 8232) || (c =? 8233) || (c =? 8239) || (c =? 8287) || (c =? 12288).

Fixpoint lstrip (s : pystr) : pystr :=
  match s with
  | c :: r => if isspace c then lstrip r else s
  | [] => []
  end.

Definition rstrip (s : pystr) : pystr := reverse (lstrip (reverse s)).

(** [s.strip()] *)
Definition strip (s : pystr) : pystr := rstrip (lstrip s).

(** [s.lower()] and [s.upper()], character by character, on the ASCII and
    Latin-1 letters (the letters of the keyword tables of the source); other
    code points are left as they are. *)
Definition lower_char (c : N) : N :=
  if ((65 <=? c) && (c <=? 90))
     || ((192 <=? c) && (c <=? 222) && negb (c =? 215))
  then c + 32 else c.

Definition upper_char (c : N) : N :=
  if ((97 <=? c) && (c <=? 122))
     || ((224 <=? c) && (c <=? 254) && negb (c =? 247))
  then c - 32 else c.

Definition lower (s : pystr) : pystr := map lower_char s.
Definition upper (s : pystr) : pystr := map upper_char s.

(** [bool(s)] *)
Definition truthy (s : pystr) : bool :=
  match s with [] => false | _ => true end.

(** [a == b] on strings *)
Definition eqb (a b : pystr) : bool := bool_decide (a = b).

(** [s.startswith(w)] *)
Fixpoint startswith (w s : pystr) : bool :=
  match w, s with
  | [], _ => true
  | a :: w', b :: s' => (a =? b) && startswith w' s'
  | _ :: _, [] => false
  end.

(** [w in s]: [w] occurs in [s] as a substring. *)
Fixpoint contains (w s : pystr) : bool :=
  startswith w s ||
  match s with
  | [] => false
  | _ :: s' => contains w s'
  end.

(** [sep.join(parts)] *)
Fixpoint join (sep : pystr) (parts : list pystr) : pystr :=
  match parts with
  | [] => []
  | [p] => p
  | p :: rest => p ++ sep ++ join sep rest
  end.

(** [s[:n]] for an integer [n]: a negative bound counts from the end. *)
Definition slice_to (s : pystr) (n : Z) : pystr :=
  if (0 <=? n)%Z then take (Z.to_nat n) s
  else take (length s - Z.to_nat (- n))%nat s.

(** String order of Python: lexicographic on code points. *)
Fixpoint ltb (a b : pystr) : bool :=
  match a, b with
  | _, [] => false
  | [], _ :: _ => true
  | x :: a', y :: b' => (x <? y) || ((x =? y) && ltb a' b')
  end.

Definition leb (a b : pystr) : bool := negb (ltb b a).

(** [str(Path(a) / b)] of [pathlib] on a POSIX system: an absolute right
    operand replaces the left one and an empty operand adds nothing. The
    collapsing of repeated separators and of dot components done by [pathlib]
    is not modelled. *)
Definition path_div (a b : pystr) : pystr :=
  if startswith [47] b then b
  else match a, b with
       | [], _ => b
       | _, [] => a
       | _, _ => a ++ [47] ++ b
       end.

(** The separator of [texto_paginas] and of the summaries: two line feeds. *)
Definition nlnl : pystr := [10; 10].

End Py.

Import Py.

(** ** Cells, rows and frames *)

(** A value of a frame read from a CSV file whose columns hold text: an empty
    field is read as the float [NaN], any other field as its text. *)
Inductive cell :=
  | NaN
  | Str (s : pystr).

#[global] Instance cell_eq_dec : EqDecision cell.
Proof. solve_decision. Defined.

(** [str(v)] *)
Definition py_str (v : cell) : pystr :=
  match v with
  | NaN => u "nan"
  | Str s => s
  end.

(** [isinstance(v, str)] for a value returned by [row.get(col)]
    ([None] when the column is absent). *)
Definition isinstance_str (v : option cell) : bool :=
  match v with
  | Some (Str _) => true
  | _ => false
  end.

Abbreviation Fila := (gmap string cell).

Record DataFrame := mkDataFrame {
  columns : list string;
  filas : list Fila;
}.

(** [row.get(col, dflt)] *)
Definition row_get (row : Fila) (col : string) (dflt : cell) : cell :=
  default dflt (row !! col).

(** [row[col]] on a frame that has the column. *)
Definition row_item (row : Fila) (col : string) : cell :=
  default NaN (row !! col).

(** [df.at[idx, col] = v] seen from the row at [idx]. *)
Definition row_set (row : Fila) (col : string) (v : pystr) : Fila :=
  <[col := Str v]> row.

(** ** Exceptions *)

(** What a [ValueError] of the source says. *)
Inductive mensaje :=
  | FaltaColumna (col : string)
  | FechaMalFormada
  | OtroMensaje.

Inductive exn :=
  | FileNotFoundError
  | ValueError (m : mensaje)
  | OSError
  | OtherException.


Inductive res (A : Type) :=
  | Ok (a : A)
  | Raise (e : exn).
Arguments Ok {A} a.
Arguments Raise {A} e.

#[global] Instance mensaje_eq_dec : EqDecision mensaje.
Proof. solve_decision. Defined.

#[global] Instance exn_eq_dec : EqDecision exn.
Proof. solve_decision. Defined.

#[global] Instance res_eq_dec {A} `{EqDecision A} : EqDecision (res A).
Proof. solve_decision. Defined.

#[global] Instance DataFrame_eq_dec : EqDecision DataFrame.
Proof. solve_decision. Defined.

#[global] Instance res_ret : MRet res := fun A a => Ok a.

#[global] Instance res_bind : MBind res := fun A B k m =>
  match m with
  | Ok a => k a
  | Raise e => Raise e
  end.

(** [try: body except Exception: handler] *)
Definition try_except {A} (body : res A) (handler : exn -> res A) : res A :=
  match body with
  | Ok a => Ok a
  | Raise e => handler e
  end.

(** The first expected column that the frame lacks, as the loop
    [for col in columnas_esperadas: if col not in df.columns: raise] finds it. *)
Definition columna_faltante (esperadas : list string) (df : DataFrame) : option string :=
  List.find (fun col => negb (bool_decide (col ∈ columns df))) esperadas.

(** ** The collaborators of the core *)

(** [os.path], [open], [Path.mkdir] and [PyPDF2]. [PdfReader_pages] gives for
    each page of a readable PDF what [page.extract_text()] does: it raises, or
    returns [None] or a text. *)
Class SistemaArchivos := {
  os_path_exists : pystr -> bool;
  os_path_normpath : pystr -> pystr;
  os_path_join : pystr -> pystr -> pystr;
  os_path_isabs : pystr -> bool;
  os_path_splitext_0 : pystr -> pystr;
  PdfReader_pages : pystr -> res (list (res (option pystr)));
  mkdir : pystr -> res unit;
  write_text : pystr -> pystr -> res unit;
  read_text : pystr -> res pystr;
}.

(** The chat completion behind each prompt, as a function of the values that
    the prompt is built from. *)
Class ModeloLenguaje := {
  (* jurisdiccion, fecha, doc_id, texto_recortado *)
  chat_resumen_documento : pystr -> pystr -> pystr -> pystr -> res pystr;
  (* jurisdiccion, fecha_str, contexto *)
  chat_resumen_diario : pystr -> pystr -> pystr -> res pystr;
}.

(** The values read from the environment. *)
Class Config := {
  TEXT_BASE_DIR : pystr;
  SUMMARY_BASE_DIR : pystr;
  BASE_DIR : pystr;
  DO_MAX_CHARS : Z;
  DO_MAX_CHARS_RESUMENES : Z;
}.

Definition config_por_defecto : Config := {|
  TEXT_BASE_DIR := u "do_textos";
  SUMMARY_BASE_DIR := u "do_resumenes";
  BASE_DIR := u "/srv/dap";
  DO_MAX_CHARS := 20000;
  DO_MAX_CHARS_RESUMENES := 24000;
|}.

(** ** preprocesar_diarios.py *)

Section Preprocesar.
Context {FS : SistemaArchivos} {LLM : ModeloLenguaje} {CFG : Config}.

Definition extraer_texto_pdf (ruta_pdf : pystr) : res pystr :=
  let ruta_pdf := os_path_normpath ruta_pdf in
  if negb (os_path_exists ruta_pdf) then Raise FileNotFoundError
  else
    pages ← PdfReader_pages ruta_pdf;
    let texto_paginas :=
      omap (fun page =>
              match page with
              | Ok txt => Some (default [] txt)
              | Raise _ => None
              end) pages in
    mret (join nlnl texto_paginas).

Definition resumir_texto_normativo
    (texto jurisdiccion fecha doc_id : pystr) : res pystr :=
  let texto_recortado := slice_to texto DO_MAX_CHARS in
  content ← chat_resumen_documento jurisdiccion fecha doc_id texto_recortado;
  mret (strip content).

Definition asegurar_directorio_para_archivo
    (base_dir jurisdiccion : pystr) : res pystr :=
  let dir_jur := path_div base_dir jurisdiccion in
  _ ← mkdir dir_jur;
  mret dir_jur.

Definition columnas_esperadas : list string :=
  ["id"; "fecha"; "jurisdiccion"; "pdf_path";
   "text_path"; "summary_path"; "status"; "created_at"]%string.

(** The guard of the loop: the row is already processed. *)
Definition ya_procesado (row : Fila) : bool :=
  let status := lower (strip (py_str (row_get row "status" (Str [])))) in
  let summary_path := row !! "summary_path"%string in
  eqb status (u "summary_ready")
  && isinstance_str summary_path
  && truthy (strip (py_str (default (Str []) summary_path))).

(** One iteration of the loop of [procesar_diarios]. [Ok row] with the row
    unchanged is a [continue]; [Raise] is an exception that no [try] of the
    loop body catches. *)
Definition procesar_fila (row : Fila) : res Fila :=
  if ya_procesado row then Ok row
  else
    let doc_id := py_str (row_item row "id") in
    let fecha_str := py_str (row_item row "fecha") in
    let jurisdiccion := py_str (row_item row "jurisdiccion") in
    let pdf_dir := py_str (row_item row "pdf_path") in
    let ruta_pdf := os_path_normpath (os_path_join pdf_dir doc_id) in
    match extraer_texto_pdf ruta_pdf with
    | Raise _ => Ok row
    | Ok texto =>
      if negb (truthy (strip texto)) then Ok row
      else
        dir_textos ← asegurar_directorio_para_archivo TEXT_BASE_DIR jurisdiccion;
        let base_name := os_path_splitext_0 doc_id in
        let archivo_texto := path_div dir_textos (base_name ++ u ".txt") in
        match write_text archivo_texto texto with
        | Raise _ => Ok row
        | Ok _ =>
          match resumir_texto_normativo texto jurisdiccion fecha_str doc_id with
          | Raise _ => Ok row
          | Ok resumen =>
            dir_resumenes ←
              asegurar_directorio_para_archivo SUMMARY_BASE_DIR jurisdiccion;
            let archivo_resumen :=
              path_div dir_resumenes (base_name ++ u "_resumen.txt") in
            match write_text archivo_resumen resumen with
            | Raise _ => Ok row
            | Ok _ =>
              Ok (row_set
                    (row_set (row_set row "text_path" archivo_texto)
                             "summary_path" archivo_resumen)
                    "status" (u "summary_ready"))
            end
          end
        end
    end.

(** [procesar_diarios] on the content of [DO_INDEX_CSV] ([None]: the file does
    not exist). The result is the frame handed to [df.to_csv]. *)
Definition procesar_diarios (csv : option DataFrame) : res DataFrame :=
  match csv with
  | None => Raise FileNotFoundError
  | Some df =>
    match columna_faltante columnas_esperadas df with
    | Some col => Raise (ValueError (FaltaColumna col))
    | None =>
      filas' ← mapM procesar_fila (filas df);
      mret (mkDataFrame (columns df) filas')
    end
  end.

(** The content of [DO_INDEX_CSV] after a run: the file is written only by
    the last statement of [procesar_diarios]. *)
Definition indice_tras_ejecutar (csv : option DataFrame) : option DataFrame :=
  match procesar_diarios csv with
  | Ok df' => Some df'
  | Raise _ => csv
  end.

(** The files that a row is written to, and the row after its update. *)
Definition ruta_texto (row : Fila) : pystr :=
  path_div (path_div TEXT_BASE_DIR (py_str (row_item row "jurisdiccion")))
           (os_path_splitext_0 (py_str (row_item row "id")) ++ u ".txt").

Definition ruta_resumen (row : Fila) : pystr :=
  path_div (path_div SUMMARY_BASE_DIR (py_str (row_item row "jurisdiccion")))
           (os_path_splitext_0 (py_str (row_item row "id")) ++ u "_resumen.txt").

Definition fila_procesada (row : Fila) : Fila :=
  row_set (row_set (row_set row "text_path" (ruta_texto row))
                   "summary_path" (ruta_resumen row))
          "status" (u "summary_ready").

(** The status of a row as the guard and the loader read it. *)
Definition estado (row : Fila) : pystr :=
  lower (strip (py_str (row_get row "status" (Str [])))).

(** The steps that the loop body wraps in [try]: extraction, writing the
    text, summarization, writing the summary. *)
Definition pasos_protegidos_exitosos (row : Fila) : Prop :=
  let doc_id := py_str (row_item row "id") in
  let fecha_str := py_str (row_item row "fecha") in
  let jurisdiccion := py_str (row_item row "jurisdiccion") in
  let pdf_dir := py_str (row_item row "pdf_path") in
  exists texto resumen,
    extraer_texto_pdf (os_path_normpath (os_path_join pdf_dir doc_id)) = Ok texto
    /\ truthy (strip texto) = true
    /\ write_text (ruta_texto row) texto = Ok tt
    /\ resumir_texto_normativo texto jurisdiccion fecha_str doc_id = Ok resumen
    /\ write_text (ruta_resumen row) resumen = Ok tt.

(** The two calls of [asegurar_directorio_para_archivo], which no [try]
    wraps. *)
Definition directorios_creados (row : Fila) : Prop :=
  let jurisdiccion := py_str (row_item row "jurisdiccion") in
  mkdir (path_div TEXT_BASE_DIR jurisdiccion) = Ok tt
  /\ mkdir (path_div SUMMARY_BASE_DIR jurisdiccion) = Ok tt.


End Preprocesar.

(** ** Dates *)

Record fecha := mkFecha { anio : N; mes : N; dia : N }.

#[global] Instance fecha_eq_dec : EqDecision fecha.
Proof. solve_decision. Defined.

(** Order of [datetime.date]. *)
Definition fecha_leb (a b : fecha) : bool :=
  (anio a <? anio b)
  || ((anio a =? anio b)
      && ((mes a <? mes b) || ((mes a =? mes b) && (dia a <=? dia b)))).

(** The date functions of [pandas] and [datetime] used by the backend, per
    stored value: [to_datetime dayfirst v] is the date of
    [pd.to_datetime(..., errors="coerce", dayfirst=dayfirst).dt.date] at a cell
    holding [v] ([None] is [NaT]); [strptime_ymd s] is
    [datetime.strptime(s, "%Y-%m-%d").date()] ([None] is its [ValueError]);
    [strftime_ymd d] is [d.strftime("%Y-%m-%d")]. *)
Class Calendario := {
  to_datetime : bool -> cell -> option fecha;
  strptime_ymd : pystr -> option fecha;
  strftime_ymd : fecha -> pystr;
}.

Module Fechas.

Definition isdigit (c : N) : bool := (48 <=? c) && (c <=? 57).

Fixpoint int_acc (acc : N) (s : pystr) : option N :=
  match s with
  | [] => Some acc
  | c :: r => if isdigit c then int_acc (10 * acc + (c - 48)) r else None
  end.

(** [int(s)] on a non-empty run of decimal digits. *)
Definition int_of (s : pystr) : option N :=
  match s with
  | [] => None
  | _ => int_acc 0 s
  end.

(** [s.split(sep)] for a one-character separator. *)
Fixpoint split (sep : N) (s : pystr) : list pystr :=
  match s with
  | [] => [[]]
  | c :: r =>
    if c =? sep then [] :: split sep r
    else match split sep r with
         | p :: ps => (c :: p) :: ps
         | [] => [[c]]
         end
  end.

Definition bisiesto (y : N) : bool :=
  ((y mod 4 =? 0) && negb (y mod 100 =? 0)) || (y mod 400 =? 0).

Definition dias_del_mes (y m : N) : N :=
  if m =? 2 then (if bisiesto y then 29 else 28)
  else if (m =? 4) || (m =? 6) || (m =? 9) || (m =? 11) then 30
  else 31.

Definition fecha_valida (y m d : N) : option fecha :=
  if (1 <=? y) && (y <=? 9999) && (1 <=? m) && (m <=? 12)
     && (1 <=? d) && (d <=? dias_del_mes y m)
  then Some (mkFecha y m d) else None.

(** Model of [pd.to_datetime] for the two shapes of stored dates that this
    development evaluates: [A/B/YYYY], read month first unless [dayfirst] (the
    other reading is the fallback when the preferred one is not a date), and
    the ISO shape [YYYY-MM-DD], which [dayfirst] does not affect. An empty cell
    and a text that is no date give [NaT]; texts of other shapes are outside
    this model and are given [NaT] too. *)
Definition pandas_to_datetime (dayfirst : bool) (v : cell) : option fecha :=
  match v with
  | NaN => None
  | Str s =>
    match split 47 s with
    | [a; b; y] =>
      match int_of a, int_of b, int_of y with
      | Some a, Some b, Some y =>
        let '(d, m) := if dayfirst then (a, b) else (b, a) in
        match fecha_valida y m d with
        | Some f => Some f
        | None => fecha_valida y d m
        end
      | _, _, _ => None
      end
    | _ =>
      match split 45 s with
      | [y; m; d] =>
        match int_of y, int_of m, int_of d with
        | Some y, Some m, Some d =>
          if (length (A:=N) s =? 10)%nat then fecha_valida y m d else None
        | _, _, _ => None
        end
      | _ => None
      end
    end
  end.

(** Model of [datetime.strptime(s, "%Y-%m-%d")]: four digits, then one or
    two digits twice, separated by hyphens, naming a date of the calendar. *)
Definition datetime_strptime_ymd (s : pystr) : option fecha :=
  match split 45 s with
  | [y; m; d] =>
    if (length y =? 4)%nat && (length m <=? 2)%nat && (length d <=? 2)%nat
    then
      match int_of y, int_of m, int_of d with
      | Some y, Some m, Some d => fecha_valida y m d
      | _, _, _ => None
      end
    else None
  | _ => None
  end.

Definition dos_digitos (n : N) : pystr := [48 + n / 10 mod 10; 48 + n mod 10].

(** Model of [d.strftime("%Y-%m-%d")] for a year of four digits. *)
Definition date_strftime_ymd (d : fecha) : pystr :=
  dos_digitos (anio d / 100) ++ dos_digitos (anio d) ++ [45]
  ++ dos_digitos (mes d) ++ [45] ++ dos_digitos (dia d).

Definition calendario_pandas : Calendario := {|
  to_datetime := pandas_to_datetime;
  strptime_ymd := datetime_strptime_ymd;
  strftime_ymd := date_strftime_ymd;
|}.

End Fechas.

(** ** backend_dap.py *)

(** [Series.unique()]: the distinct values in order of first appearance. *)
Definition unique {A} `{EqDecision A} (l : list A) : list A :=
  reverse (remove_dups (reverse l)).

(** [sorted(l)] for the order decided by [le]. *)
Definition sorted {A} (le : A -> A -> bool) (l : list A) : list A :=
  @merge_sort A (fun a b => le a b = true) (fun a b => decide (le a b = true)) l.

(** [d.get(k)] on a dict kept as the list of its items in insertion order. *)
Definition dict_get {V} (d : list (pystr * V)) (k : pystr) : option V :=
  snd <$> List.find (fun kv => eqb (fst kv) k) d.

Definition dict_keys {V} (d : list (pystr * V)) : list pystr := map fst d.

Definition ORDEN_JURISDICCIONES : list pystr :=
  [u "DOF"; u "SONORA"; u "VERACRUZ"; u "CDMX"].

Record respuesta := mkRespuesta {
  r_fecha : pystr;
  r_resumen : pystr;
  r_error : option pystr;
}.

Record intencion := mkIntencion {
  tipo : pystr;
  jurisdiccion : option pystr;
  termino : option pystr;
}.

#[global] Instance intencion_eq_dec : EqDecision intencion.
Proof. solve_decision. Defined.

#[global] Instance respuesta_eq_dec : EqDecision respuesta.
Proof. solve_decision. Defined.

(** What a date-listing endpoint answers: an error status, or status 200 with
    the list of dates. *)
Inductive respuesta_fechas :=
  | ErrorHTTP (codigo : N)
  | Fechas (fechas : list pystr).

#[global] Instance respuesta_fechas_eq_dec : EqDecision respuesta_fechas.
Proof. solve_decision. Defined.

Section Backend.
Context {FS : SistemaArchivos} {LLM : ModeloLenguaje} {CFG : Config} {CAL : Calendario}.

Definition columnas_noticias : list string :=
  ["fecha"; "titular"; "termino"; "enlace"; "medio"]%string.

Definition cargar_noticias_dap_por_fecha
    (csv : option DataFrame) (fecha_str : pystr) : res (list Fila) :=
  match csv with
  | None => Raise FileNotFoundError
  | Some df =>
    match columna_faltante columnas_noticias df with
    | Some col => Raise (ValueError (FaltaColumna col))
    | None =>
      let fecha_parsed row := to_datetime false (row_item row "fecha") in
      match strptime_ymd fecha_str with
      | None => Raise (ValueError FechaMalFormada)
      | Some fecha_obj =>
        Ok (List.filter (fun row => bool_decide (fecha_parsed row = Some fecha_obj))
                        (filas df))
      end
    end
  end.

Definition tiene_resumen (row : Fila) : bool :=
  let status := lower (strip (py_str (row_get row "status" (Str [])))) in
  let summary_path := strip (py_str (row_get row "summary_path" (Str []))) in
  truthy summary_path && (eqb status (u "summary_ready") || eqb status []).

Definition cargar_diarios_por_fecha
    (csv : option DataFrame) (fecha_str : pystr) : res (list Fila) :=
  match csv with
  | None => Raise FileNotFoundError
  | Some df =>
    match columna_faltante columnas_esperadas df with
    | Some col => Raise (ValueError (FaltaColumna col))
    | None =>
      let fecha_parsed row := to_datetime false (row_item row "fecha") in
      match strptime_ymd fecha_str with
      | None => Raise (ValueError FechaMalFormada)
      | Some fecha_obj =>
        let df_dia :=
          List.filter (fun row => bool_decide (fecha_parsed row = Some fecha_obj))
                      (filas df) in
        Ok (match df_dia with
            | [] => df_dia
            | _ => List.filter tiene_resumen df_dia
            end)
      end
    end
  end.

(** [df_dia.groupby("jurisdiccion")] after [astype(str)]: the groups in the
    sorted order of their keys, each with its rows in frame order. *)
Definition groupby_jurisdiccion (df_dia : list Fila) : list (pystr * list Fila) :=
  let clave row := py_str (row_item row "jurisdiccion") in
  map (fun k => (k, List.filter (fun row => eqb (clave row) k) df_dia))
      (sorted leb (unique (map clave df_dia))).

(** The body of the inner loop over the rows of a group: the text that the
    row appends to [textos], if any. *)
Definition texto_de_fila (row : Fila) : res (option pystr) :=
  let ruta_rel := strip (py_str (row_get row "summary_path" (Str []))) in
  if negb (truthy ruta_rel) then mret None
  else
    let ruta_resumen := os_path_normpath ruta_rel in
    let ruta_resumen :=
      if negb (os_path_isabs ruta_resumen)
      then os_path_join BASE_DIR ruta_resumen else ruta_resumen in
    if negb (os_path_exists ruta_resumen) then mret None
    else
      try_except
        (contenido ← read_text ruta_resumen;
         let txt := strip contenido in
         mret (if truthy txt then Some txt else None))
        (fun _ => mret None).

(** The body of the outer loop: the entry that a group adds to the dict. *)
Definition contexto_de_grupo (grupo : pystr * list Fila) : res (option (pystr * pystr)) :=
  textos ← mapM texto_de_fila (snd grupo);
  let textos := omap id textos in
  match textos with
  | [] => mret None
  | _ =>
    let texto_concatenado := join nlnl textos in
    let texto_concatenado := slice_to texto_concatenado DO_MAX_CHARS_RESUMENES in
    mret (Some (fst grupo, texto_concatenado))
  end.

Definition construir_contexto_diarios_por_jurisdiccion
    (df_dia : list Fila) : res (list (pystr * pystr)) :=
  match df_dia with
  | [] => mret []
  | _ =>
    entradas ← mapM contexto_de_grupo (groupby_jurisdiccion df_dia);
    mret (omap id entradas)
  end.

(** The two loops that fill [jurisdicciones_a_procesar] when no filter is
    given; the state is the list and the set [ya_agregadas]. *)
Definition agregar_preferida (contexto_por_jur : list (pystr * pystr))
    (st : list pystr * gset pystr) (j : pystr) : list pystr * gset pystr :=
  if bool_decide (j ∈ dict_keys contexto_por_jur) && bool_decide (j ∉ st.2)
  then (st.1 ++ [j], st.2 ∪ {[j]})
  else st.

Definition agregar_extra
    (st : list pystr * gset pystr) (j : pystr) : list pystr * gset pystr :=
  let j_up := upper j in
  if bool_decide (j_up ∉ st.2)
  then (st.1 ++ [j_up], st.2 ∪ {[j_up]})
  else st.

Definition ordenar_jurisdicciones (contexto_por_jur : list (pystr * pystr)) : list pystr :=
  let st := fold_left (agregar_preferida contexto_por_jur) ORDEN_JURISDICCIONES ([], ∅) in
  let st := fold_left agregar_extra (dict_keys contexto_por_jur) st in
  st.1.

(** The loop over [jurisdicciones_a_procesar]: the lines appended to
    [resumen_final_lineas]. *)
Fixpoint resumir_jurisdicciones (contexto_por_jur : list (pystr * pystr))
    (fecha_str : pystr) (jurisdicciones_a_procesar : list pystr) : res (list pystr) :=
  match jurisdicciones_a_procesar with
  | [] => mret []
  | jurisdiccion :: resto =>
    match dict_get contexto_por_jur jurisdiccion with
    | None => resumir_jurisdicciones contexto_por_jur fecha_str resto
    | Some contexto =>
      if negb (truthy contexto)
      then resumir_jurisdicciones contexto_por_jur fecha_str resto
      else
        content ← chat_resumen_diario jurisdiccion fecha_str contexto;
        let resumen_jur := strip content in
        if negb (truthy resumen_jur)
        then resumir_jurisdicciones contexto_por_jur fecha_str resto
        else
          lineas ← resumir_jurisdicciones contexto_por_jur fecha_str resto;
          mret ([upper jurisdiccion; resumen_jur; []] ++ lineas)
    end
  end.

Definition generar_resumen_diarios (csv : option DataFrame) (fecha_str : pystr)
    (jurisdiccion_filtro : option pystr) : res respuesta :=
  df_dia ← cargar_diarios_por_fecha csv fecha_str;
  match df_dia with
  | [] =>
    mret (mkRespuesta fecha_str []
            (Some (u "No hay diarios oficiales para esa fecha")))
  | _ =>
    contexto_por_jur ← construir_contexto_diarios_por_jurisdiccion df_dia;
    match contexto_por_jur with
    | [] =>
      mret (mkRespuesta fecha_str []
              (Some (u "No hay resúmenes normativos disponibles para esa fecha")))
    | _ =>
      let jurisdiccion_filtro_norm :=
        match jurisdiccion_filtro with
        | Some f => if truthy f then Some (upper (strip f)) else None
        | None => None
        end in
      let seleccion :=
        match jurisdiccion_filtro_norm with
        | Some f =>
          if truthy f
          then if bool_decide (f ∈ dict_keys contexto_por_jur)
               then inr [f] else inl f
          else inr (ordenar_jurisdicciones contexto_por_jur)
        | None => inr (ordenar_jurisdicciones contexto_por_jur)
        end in
      match seleccion with
      | inl f =>
        mret (mkRespuesta fecha_str []
                (Some (u "No hay diarios para la jurisdicción '" ++ f
                       ++ u "' en esa fecha")))
      | inr jurisdicciones_a_procesar =>
        resumen_final_lineas ←
          resumir_jurisdicciones contexto_por_jur fecha_str jurisdicciones_a_procesar;
        let resumen_texto := strip (join [10] resumen_final_lineas) in
        if negb (truthy resumen_texto)
        then mret (mkRespuesta fecha_str []
                     (Some (u "No se generó contenido normativo relevante para esa fecha")))
        else mret (mkRespuesta fecha_str resumen_texto None)
      end
    end
  end.

Definition palabras_normativo : list pystr :=
  [u "dof"; u "diario oficial"; u "gaceta"; u "congreso";
   u "parlamentaria"; u "ley"; u "reforma"].

Definition patrones_temas : list (pystr * list pystr) :=
  [(u "industria_alimentaria", [u "industria alimentaria"; u "alimentos"; u "alimentaria"]);
   (u "cemento", [u "cemento"]);
   (u "gas", [u "gas"]);
   (u "impuesto", [u "impuesto"; u "impuestos"; u "tributario"; u "fiscal"]);
   (u "casinos", [u "casino"; u "casinos"; u "juegos de azar"]);
   (u "movilidad", [u "movilidad"; u "transporte público"; u "tráfico";
                    u "transito"; u "tránsito"]);
   (u "seguridad", [u "seguridad"; u "violencia"; u "delincuencia"]);
   (u "agenda nacional", [u "agenda nacional"; u "noticias nacionales"])].

Definition detectar_intencion_pregunta (pregunta : option pystr) : intencion :=
  let p := lower (default [] pregunta) in
  let jurisdiccion :=
    if contains (u "dof") p || contains (u "diario oficial de la federación") p
    then Some (u "DOF")
    else if contains (u "sonora") p then Some (u "SONORA")
    else if contains (u "veracruz") p then Some (u "VERACRUZ")
    else if contains (u "cdmx") p || contains (u "ciudad de méxico") p
    then Some (u "CDMX")
    else None in
  let es_normativo :=
    existsb (fun w => contains w p) palabras_normativo
    || bool_decide (jurisdiccion ≠ None) in
  let termino :=
    fst <$> List.find (fun tp => existsb (fun pat => contains pat p) (snd tp))
                      patrones_temas in
  let tipo := if es_normativo then u "normativo" else u "noticias" in
  mkIntencion tipo jurisdiccion termino.

Definition fechas_noticias (csv : option DataFrame) : respuesta_fechas :=
  match csv with
  | None => ErrorHTTP 500
  | Some df =>
    if negb (bool_decide ("fecha"%string ∈ columns df)) then ErrorHTTP 500
    else
      let fecha_parsed row := to_datetime true (row_item row "fecha") in
      let fechas_unicas := unique (omap fecha_parsed (filas df)) in
      match fechas_unicas with
      | [] => Fechas []
      | _ =>
        let fechas_ordenadas := reverse (sorted fecha_leb fechas_unicas) in
        Fechas (map strftime_ymd fechas_ordenadas)
      end
  end.

(** The file that the inner loop opens for a row. *)
Definition ruta_de_resumen (row : Fila) : pystr :=
  let ruta_resumen :=
    os_path_normpath (strip (py_str (row_get row "summary_path" (Str [])))) in
  if negb (os_path_isabs ruta_resumen)
  then os_path_join BASE_DIR ruta_resumen else ruta_resumen.

Definition resumen_ausente (row : Fila) : bool :=
  negb (os_path_exists (ruta_de_resumen row)).

Definition resumen_ilegible (row : Fila) : bool :=
  match read_text (ruta_de_resumen row) with
  | Raise _ => true
  | Ok _ => false
  end.

(** The summary text that a row contributes: the stripped content of its
    summary file, when the row names a file, the file exists, can be read and
    is not blank. *)
Definition texto_legible (row : Fila) : option pystr :=
  if negb (truthy (strip (py_str (row_get row "summary_path" (Str []))))) then None
  else if resumen_ausente row then None
  else match read_text (ruta_de_resumen row) with
       | Raise _ => None
       | Ok contenido =>
         if truthy (strip contenido) then Some (strip contenido) else None
       end.

(** The summary texts of the records of a jurisdiction, in row order. *)
Definition textos_de_jurisdiccion (df_dia : list Fila) (j : pystr) : list pystr :=
  omap texto_legible
       (List.filter (fun row => eqb (py_str (row_item row "jurisdiccion")) j) df_dia).

(** The context expected for a jurisdiction: none without texts, else the
    texts joined by a blank line and cut to the budget. *)
Definition contexto_esperado (df_dia : list Fila) (j : pystr) : option pystr :=
  match textos_de_jurisdiccion df_dia j with
  | [] => None
  | textos => Some (slice_to (join nlnl textos) DO_MAX_CHARS_RESUMENES)
  end.

(** The entry of the dict for a key. *)
Definition entrada_de_clave (df_dia : list Fila) (k : pystr) : option (pystr * pystr) :=
  (fun c => (k, c)) <$> contexto_esperado df_dia k.

End Backend.

(** ** The ordering and the classifier of the specification *)

(** [orderJurisdictions] in the words of the specification: the preferred
    jurisdictions that are available, in the preferred order, then the
    available ones that are not preferred. *)
Definition orderJurisdictions (available preferredOrder : list pystr) : list pystr :=
  filter (fun j => j ∈ available) preferredOrder
  ++ filter (fun j => j ∉ preferredOrder) available.

(** The jurisdiction keywords of the [if]/[elif] chain as a table. *)
Definition tabla_jurisdicciones : list (pystr * list pystr) :=
  [(u "DOF", [u "dof"; u "diario oficial de la federación"]);
   (u "SONORA", [u "sonora"]);
   (u "VERACRUZ", [u "veracruz"]);
   (u "CDMX", [u "cdmx"; u "ciudad de méxico"])].

(** An entry of a keyword table matches when one of its keywords occurs. *)
Definition coincide (p : pystr) (entrada : pystr * list pystr) : bool :=
  existsb (fun kw => contains kw p) (snd entrada).

(** First match in table order. *)
Definition primera_coincidencia (tabla : list (pystr * list pystr)) (p : pystr)
    : option pystr :=
  fst <$> List.find (coincide p) tabla.

(** [classify] in the words of the specification: jurisdiction by first
    match, regulatory scope when a regulatory keyword matches or a
    jurisdiction was detected, topic by first match. *)
Definition classify (question : option pystr) : intencion :=
  let p := lower (default [] question) in
  let jurisdiction := primera_coincidencia tabla_jurisdicciones p in
  let regulatory :=
    existsb (fun w => contains w p) palabras_normativo
    || bool_decide (is_Some jurisdiction) in
  mkIntencion (if regulatory then u "normativo" else u "noticias")
              jurisdiction
              (primera_coincidencia patrones_temas p).

(** ** The usable record of the specification *)

(** The text of a stored field: an empty field holds no text. *)
Definition texto_de_celda (v : cell) : pystr :=
  match v with
  | NaN => []
  | Str s => s
  end.

(** A record is usable when its summary path is non-empty and its status is
    [summary_ready] or is empty or unset. This definition follows the words
    of the specification; [tiene_resumen] is the test of the source. *)
Definition usable (row : Fila) : bool :=
  let status := lower (strip (texto_de_celda (row_get row "status" (Str [])))) in
  let summary_path := strip (texto_de_celda (row_get row "summary_path" (Str []))) in
  truthy summary_path && (eqb status (u "summary_ready") || eqb status []).

(** ** Example worlds *)

Module Ejemplos.

Definition fila (id fecha jur pdf_path : string) (text_path summary_path status : cell) : Fila :=
  {[ "id"%string := Str (u id);
     "fecha"%string := Str (u fecha);
     "jurisdiccion"%string := Str (u jur);
     "pdf_path"%string := Str (u pdf_path);
     "text_path"%string := text_path;
     "summary_path"%string := summary_path;
     "status"%string := status;
     "created_at"%string := Str (u "2026-01-30T08:00:00") ]}.

Definition fila_raw (id fecha jur : string) : Fila :=
  fila id fecha jur "pdfs" NaN NaN (Str (u "raw")).

(** A file system in which every PDF has one page of text, except those
    that [pdf_ilegible] names, and every directory can be created, except
    those that [dir_bloqueado] names. *)
Definition fs (pdf_ilegible dir_bloqueado : pystr -> bool)
    (contenido : pystr -> res pystr) : SistemaArchivos := {|
  os_path_exists := fun _ => true;
  os_path_normpath := fun p => p;
  os_path_join := fun a b => a ++ [47] ++ b;
  os_path_isabs := fun p => startswith [47] p;
  os_path_splitext_0 := fun p => take (length p - 4)%nat p;
  PdfReader_pages := fun p =>
    if pdf_ilegible p then Raise OtherException
    else Ok [Ok (Some (u "DECRETO por el que se reforma"))];
  mkdir := fun d => if dir_bloqueado d then Raise OSError else Ok tt;
  write_text := fun _ _ => Ok tt;
  read_text := contenido;
|}.

Definition llm : ModeloLenguaje := {|
  chat_resumen_documento := fun _ _ _ _ => Ok (u "- Se reforma el decreto.");
  chat_resumen_diario := fun _ _ _ => Ok (u "- Se publica una reforma.");
|}.

Definition columnas_indice : list string :=
  ["id"; "fecha"; "jurisdiccion"; "pdf_path";
   "text_path"; "summary_path"; "status"; "created_at"]%string.

(** Three raw records. *)
Definition indice_3 : DataFrame :=
  mkDataFrame columnas_indice
    [fila_raw "a.pdf" "2026-01-30" "DOF";
     fila_raw "b.pdf" "2026-01-30" "SONORA";
     fila_raw "c.pdf" "2026-01-30" "CDMX"].

(** Extraction fails for the second record. *)
Definition fs_extraccion_falla : SistemaArchivos :=
  fs (fun p => eqb p (u "pdfs/b.pdf")) (fun _ => false) (fun _ => Ok []).

(** The directory of the texts of the second record cannot be created. *)
Definition fs_mkdir_falla : SistemaArchivos :=
  fs (fun _ => false) (fun d => eqb d (u "do_textos/SONORA")) (fun _ => Ok []).

(** The index after a run in which extraction fails for the second record. *)
Definition indice_3_procesado : DataFrame :=
  mkDataFrame columnas_indice
    [fila "a.pdf" "2026-01-30" "DOF" "pdfs"
          (Str (u "do_textos/DOF/a.txt"))
          (Str (u "do_resumenes/DOF/a_resumen.txt")) (Str (u "summary_ready"));
     fila_raw "b.pdf" "2026-01-30" "SONORA";
     fila "c.pdf" "2026-01-30" "CDMX" "pdfs"
          (Str (u "do_textos/CDMX/c.txt"))
          (Str (u "do_resumenes/CDMX/c_resumen.txt")) (Str (u "summary_ready"))].

(** Every summary file holds 14 characters, and the budget is 24. *)
Definition fs_resumenes_cortos : SistemaArchivos :=
  fs (fun _ => false) (fun _ => false) (fun _ => Ok (u "- Se reforma X")).

Definition config_presupuesto_24 : Config := {|
  TEXT_BASE_DIR := u "do_textos";
  SUMMARY_BASE_DIR := u "do_resumenes";
  BASE_DIR := u "/srv/dap";
  DO_MAX_CHARS := 20000;
  DO_MAX_CHARS_RESUMENES := 24;
|}.

(** The summary file of [a.pdf] cannot be read; every other one holds a
    bullet. *)
Definition fs_un_resumen_ilegible : SistemaArchivos :=
  fs (fun _ => false) (fun _ => false)
     (fun p => if eqb p (u "/srv/dap/do_resumenes/DOF/a_resumen.txt")
               then Raise OSError else Ok (u "- Se reforma el decreto.")).

(** Contexts of four jurisdictions, in the order of [groupby], and of two
    jurisdictions of which one is not in upper case. *)
Definition contexto_4 : list (pystr * pystr) :=
  [(u "CDMX", u "- a"); (u "DOF", u "- b");
   (u "VERACRUZ", u "- c"); (u "ZACATECAS", u "- d")].

Definition contexto_minusculas : list (pystr * pystr) :=
  [(u "X", u "- a"); (u "dof", u "- b")].

(** A news file with one headline whose stored date is [s]. *)
Definition noticias_con_fecha (s : pystr) : DataFrame :=
  mkDataFrame ["fecha"; "titular"; "termino"; "enlace"; "medio"]%string
    [ {[ "fecha"%string := Str s;
         "titular"%string := Str (u "Suben los impuestos al gas");
         "termino"%string := Str (u "impuesto");
         "enlace"%string := Str (u "https://ejemplo.mx/nota");
         "medio"%string := Str (u "El Diario") ]} ].

(** The text [DD/MM/2026]. *)
Definition fecha_dia_mes (d m : N) : pystr :=
  Fechas.dos_digitos d ++ [47] ++ Fechas.dos_digitos m ++ u "/2026".

Definition meses : list N := [1; 2; 3; 4; 5; 6; 7; 8; 9; 10; 11; 12].

(** The listing names the day [d] of the month [m] of 2026 for the stored
    text [DD/MM/2026], and the loader has no row for that date. *)
Definition fecha_listada_sin_filas (d m : N) : bool :=
  let csv := Some (noticias_con_fecha (fecha_dia_mes d m)) in
  let f := Fechas.date_strftime_ymd (mkFecha 2026 m d) in
  bool_decide (fechas_noticias (CAL := Fechas.calendario_pandas) csv = Fechas [f])
  && bool_decide (cargar_noticias_dap_por_fecha (CAL := Fechas.calendario_pandas) csv f
                  = Ok []).

(** Two records with a summary each, of the jurisdictions [dof] and [X]. *)
Definition diarios_minusculas : list Fila :=
  [fila "a.pdf" "2026-01-30" "dof" "pdfs"
        (Str (u "do_textos/dof/a.txt")) (Str (u "do_resumenes/dof/a_resumen.txt"))
        (Str (u "summary_ready"));
   fila "b.pdf" "2026-01-30" "X" "pdfs"
        (Str (u "do_textos/X/b.txt")) (Str (u "do_resumenes/X/b_resumen.txt"))
        (Str (u "summary_ready"))].

(** Two records of the same jurisdiction with a summary each. *)
Definition diarios_dof : list Fila :=
  [fila "a.pdf" "2026-01-30" "DOF" "pdfs"
        (Str (u "do_textos/DOF/a.txt")) (Str (u "do_resumenes/DOF/a_resumen.txt"))
        (Str (u "summary_ready"));
   fila "b.pdf" "2026-01-30" "DOF" "pdfs"
        (Str (u "do_textos/DOF/b.txt")) (Str (u "do_resumenes/DOF/b_resumen.txt"))
        (Str (u "summary_ready"))].

(** An index with empty fields: [a.pdf] is [summary_ready] without a
    summary path, [b.pdf] is a legacy row without a status, [c.pdf] is a
    complete row, [d.pdf] is raw and the stored date of [e.pdf] is no date. *)
Definition fila_a : Fila :=
  fila "a.pdf" "2026-01-30" "DOF" "pdfs" NaN NaN (Str (u "summary_ready")).
Definition fila_b : Fila :=
  fila "b.pdf" "2026-01-30" "DOF" "pdfs"
       (Str (u "do_textos/DOF/b.txt")) (Str (u "do_resumenes/DOF/b_resumen.txt")) NaN.
Definition fila_c : Fila :=
  fila "c.pdf" "2026-01-30" "DOF" "pdfs"
       (Str (u "do_textos/DOF/c.txt")) (Str (u "do_resumenes/DOF/c_resumen.txt"))
       (Str (u "summary_ready")).
Definition fila_d : Fila := fila_raw "d.pdf" "2026-01-30" "DOF".
Definition fila_e : Fila :=
  fila "e.pdf" "treinta de enero" "DOF" "pdfs"
       (Str (u "do_textos/DOF/e.txt")) (Str (u "do_resumenes/DOF/e_resumen.txt"))
       (Str (u "summary_ready")).

Definition indice_celdas_vacias : DataFrame :=
  mkDataFrame columnas_indice [fila_a; fila_b; fila_c; fila_d; fila_e].

End Ejemplos.

(** ** backend_dap.py: topics, latest dates and the context of a question *)

Definition ORDEN_TEMATICO : list pystr :=
  [u "industria_alimentaria"; u "cemento"; u "gas"; u "impuesto";
   u "casinos"; u "movilidad"; u "seguridad"; u "agenda nacional"].

(** [df.head(n)]: the first [n] rows, or all but the last [-n] ones. *)
Definition df_head {A} (l : list A) (n : Z) : list A :=
  if (0 <=? n)%Z then take (Z.to_nat n) l
  else take (length l - Z.to_nat (- n))%nat l.

(** [s.replace(" ", "_")] *)
Definition replace_espacios (s : pystr) : pystr :=
  map (fun c => if c =? 32 then 95 else c) s.

(** The values read from the environment by the helpers of [/pregunta]. *)
Class ConfigPregunta := {
  MAX_NOTICIAS_PREGUNTA : Z;
  MAX_DIARIOS_PREGUNTA : Z;
}.

Definition config_pregunta_por_defecto : ConfigPregunta := {|
  MAX_NOTICIAS_PREGUNTA := 40;
  MAX_DIARIOS_PREGUNTA := 10;
|}.

(** The two loops that fill [temas_ordenados]; the state is the list and the
    set [ya_agregados]. *)
Definition agregar_tema_preferido (temas_presentes : list pystr)
    (st : list pystr * gset pystr) (t : pystr) : list pystr * gset pystr :=
  if bool_decide (t ∈ temas_presentes) && bool_decide (t ∉ st.2)
  then (st.1 ++ [t], st.2 ∪ {[t]})
  else st.

Definition agregar_tema_extra
    (st : list pystr * gset pystr) (t : pystr) : list pystr * gset pystr :=
  if bool_decide (t ∉ st.2)
  then (st.1 ++ [t], st.2 ∪ {[t]})
  else st.

Definition ordenar_temas (temas_presentes : list pystr) : list pystr :=
  let st := fold_left (agregar_tema_preferido temas_presentes) ORDEN_TEMATICO ([], ∅) in
  let st := fold_left agregar_tema_extra temas_presentes st in
  st.1.

(** [list(noticias_dia["termino"].unique())] after [astype(str)]. *)
Definition temas_presentes (noticias_dia : list Fila) : list pystr :=
  unique (map (fun row => py_str (row_item row "termino")) noticias_dia).

(** The lines that the loop over [temas_ordenados] appends for one topic. *)
Definition lineas_de_tema (noticias_dia : list Fila) (tema : pystr) : list pystr :=
  let subset :=
    df_head (List.filter (fun row => eqb (py_str (row_item row "termino")) tema)
                         noticias_dia) 10 in
  let tema_norm := lower (replace_espacios tema) in
  omap (fun row =>
          let titulo := strip (py_str (row_item row "titular")) in
          if truthy titulo then Some (tema_norm ++ u " :: " ++ titulo) else None)
       subset.

(** The list [lineas] at the end of [construir_contexto_por_tema]. *)
Definition lineas_por_tema (noticias_dia : list Fila) : list pystr :=
  concat (map (lineas_de_tema noticias_dia)
              (ordenar_temas (temas_presentes noticias_dia))).

Definition construir_contexto_por_tema (noticias_dia : list Fila) : pystr :=
  match noticias_dia with
  | [] => []
  | _ => join [10] (lineas_por_tema noticias_dia)
  end.

(** [max(fechas)] of a non-empty list: the first greatest element. *)
Definition max_fecha (primera : fecha) (resto : list fecha) : fecha :=
  fold_left (fun m d => if fecha_leb d m then m else d) resto primera.

(** A source of an answer about news and about official journals. *)
Record fuente_noticia := mkFuenteNoticia {
  fn_fecha : pystr;
  fn_termino : pystr;
  fn_titular : pystr;
  fn_medio : pystr;
  fn_enlace : pystr;
}.

Record fuente_diario := mkFuenteDiario {
  fd_fecha : pystr;
  fd_jurisdiccion : pystr;
  fd_id : pystr;
  fd_pdf_path : pystr;
}.

(** The body of an answer of an endpoint that wraps a generator. *)
Inductive cuerpo_http :=
  | CuerpoFaltaFecha
  | CuerpoExcepcion (e : exn)
  | CuerpoErrorInterno
  | CuerpoResumen (fecha resumen : pystr) (error : option pystr)
  | CuerpoJurisdicciones (fecha : pystr) (jurisdicciones : list pystr).

Section BackendPregunta.
Context {FS : SistemaArchivos} {LLM : ModeloLenguaje} {CFG : Config}
        {CAL : Calendario} {CFGP : ConfigPregunta}.

Definition obtener_ultima_fecha_noticias (csv : option DataFrame) : option pystr :=
  match csv with
  | None => None
  | Some df =>
    if negb (bool_decide ("fecha"%string ∈ columns df)) then None
    else
      let fecha_parsed row := to_datetime false (row_item row "fecha") in
      let fechas := unique (omap fecha_parsed (filas df)) in
      match fechas with
      | [] => None
      | primera :: resto => Some (strftime_ymd (max_fecha primera resto))
      end
  end.

(** [noticias_dia["termino"] == termino_filtro] at one row. *)
Definition termino_es (termino_filtro : pystr) (row : Fila) : bool :=
  match row_item row "termino" with
  | Str s => eqb s termino_filtro
  | NaN => false
  end.

Definition preparar_contexto_y_fuentes_noticias (csv : option DataFrame)
    (fecha_str : pystr) (termino_filtro : option pystr)
    : pystr * list fuente_noticia :=
  match cargar_noticias_dap_por_fecha csv fecha_str with
  | Raise _ => ([], [])
  | Ok noticias_dia =>
    let noticias_dia :=
      match termino_filtro with
      | Some t => if truthy t then List.filter (termino_es t) noticias_dia
                  else noticias_dia
      | None => noticias_dia
      end in
    match noticias_dia with
    | [] => ([], [])
    | _ =>
      let noticias_trunc := df_head noticias_dia MAX_NOTICIAS_PREGUNTA in
      let tema row := py_str (row_item row "termino") in
      let titular row := py_str (row_item row "titular") in
      let medio row := py_str (row_get row "medio" (Str [])) in
      let enlace row := py_str (row_get row "enlace" (Str [])) in
      let lineas :=
        map (fun row => u "[" ++ tema row ++ u "] " ++ titular row
                        ++ u " (medio: " ++ medio row ++ u ")") noticias_trunc in
      let fuentes :=
        map (fun row => mkFuenteNoticia fecha_str (tema row) (titular row)
                                        (medio row) (enlace row)) noticias_trunc in
      (join [10] lineas, fuentes)
    end
  end.

(** [df_dia["jurisdiccion"].astype(str).str.upper() == jurisdiccion.upper()]
    at one row. *)
Definition jurisdiccion_es (jurisdiccion : pystr) (row : Fila) : bool :=
  eqb (upper (py_str (row_item row "jurisdiccion"))) (upper jurisdiccion).

Definition preparar_contexto_y_fuentes_diarios (csv : option DataFrame)
    (fecha_str : pystr) (jurisdiccion : option pystr)
    : res (pystr * list fuente_diario) :=
  match cargar_diarios_por_fecha csv fecha_str with
  | Raise _ => mret ([], [])
  | Ok [] => mret ([], [])
  | Ok df_dia =>
    let filtro := match jurisdiccion with
                  | Some j => if truthy j then Some j else None
                  | None => None
                  end in
    let df_dia := match filtro with
                  | Some j => List.filter (jurisdiccion_es j) df_dia
                  | None => df_dia
                  end in
    match df_dia with
    | [] => mret ([], [])
    | _ =>
      contexto_por_jur ← construir_contexto_diarios_por_jurisdiccion df_dia;
      let '(textos, df_relevante) :=
        match filtro with
        | Some j =>
          match dict_get contexto_por_jur j with
          | Some txt => ([j ++ u ":" ++ [10] ++ txt],
                         List.filter (jurisdiccion_es j) df_dia)
          | None => (map (fun kv => fst kv ++ u ":" ++ [10] ++ snd kv) contexto_por_jur,
                     df_dia)
          end
        | None => (map (fun kv => fst kv ++ u ":" ++ [10] ++ snd kv) contexto_por_jur,
                   df_dia)
        end in
      let fuentes :=
        map (fun row =>
               mkFuenteDiario (py_str (row_get row "fecha" (Str fecha_str)))
                              (py_str (row_get row "jurisdiccion" (Str [])))
                              (py_str (row_get row "id" (Str [])))
                              (py_str (row_get row "pdf_path" (Str []))))
            (df_head df_relevante MAX_DIARIOS_PREGUNTA) in
      mret (join nlnl textos, fuentes)
    end
  end.

(** The endpoint [/jurisdicciones_disponibles]; [fecha] is the query
    argument, [None] when it is absent. *)
Definition jurisdicciones_disponibles (csv : option DataFrame)
    (fecha : option pystr) : cuerpo_http * N :=
  match fecha with
  | None => (CuerpoFaltaFecha, 400)
  | Some fecha_str =>
    if negb (truthy fecha_str) then (CuerpoFaltaFecha, 400)
    else
      match cargar_diarios_por_fecha csv fecha_str with
      | Raise FileNotFoundError => (CuerpoExcepcion FileNotFoundError, 500)
      | Raise (ValueError m) => (CuerpoExcepcion (ValueError m), 400)
      | Raise _ => (CuerpoErrorInterno, 500)
      | Ok [] => (CuerpoJurisdicciones fecha_str [], 404)
      | Ok df_dia =>
        let jurisdicciones :=
          sorted leb
            (unique (map (fun row => upper (py_str (row_item row "jurisdiccion")))
                         df_dia)) in
        (CuerpoJurisdicciones fecha_str jurisdicciones, 200)
      end
  end.

(** The endpoint [/resumen_diarios]; the arguments are those of the query,
    [None] when absent. *)
Definition resumen_diarios (csv : option DataFrame)
    (fecha jurisdiccion : option pystr) : cuerpo_http * N :=
  match fecha with
  | None => (CuerpoFaltaFecha, 400)
  | Some fecha_str =>
    if negb (truthy fecha_str) then (CuerpoFaltaFecha, 400)
    else
      let jurisdiccion :=
        match jurisdiccion with
        | Some j => if truthy j then Some (upper (strip j)) else Some j
        | None => None
        end in
      match generar_resumen_diarios csv fecha_str jurisdiccion with
      | Raise FileNotFoundError => (CuerpoExcepcion FileNotFoundError, 500)
      | Raise (ValueError m) => (CuerpoExcepcion (ValueError m), 400)
      | Raise _ => (CuerpoErrorInterno, 500)
      | Ok resultado =>
        if truthy (default [] (r_error resultado))
        then (CuerpoResumen (r_fecha resultado) (r_resumen resultado)
                            (r_error resultado), 404)
        else (CuerpoResumen (r_fecha resultado) (r_resumen resultado) None, 200)
      end
  end.

End BackendPregunta.

(** ** backend_dap.py: the summary of the news and the documents of a date *)

(** The chat completion behind the summary of the news, as a function of the
    date and the context that its prompt is built from. *)
Class ModeloNoticias := {
  (* fecha_str, contexto *)
  chat_resumen_noticias : pystr -> pystr -> res pystr;
}.

(** An entry of the list [documentos] of [/do_pdfs]. *)
Record documento := mkDocumento {
  d_id : pystr;
  d_nombre : pystr;
  d_jurisdiccion : pystr;
  d_url : pystr;
}.

#[global] Instance documento_eq_dec : EqDecision documento.
Proof. solve_decision. Defined.

(** The body of an answer of [/resumen_do] and of [/do_pdfs]. *)
Inductive cuerpo_do :=
  | DoFaltaFecha
  | DoFaltaJurisdiccion
  | DoExcepcion (e : exn)
  | DoErrorInterno
  | DoResumen (fecha jurisdiccion resumen : pystr) (error : option pystr)
  | DoDocumentos (fecha jurisdiccion : pystr) (documentos : list documento).

#[global] Instance cuerpo_do_eq_dec : EqDecision cuerpo_do.
Proof. solve_decision. Defined.

#[global] Instance cuerpo_http_eq_dec : EqDecision cuerpo_http.
Proof. solve_decision. Defined.

Section BackendEndpoints.
Context {FS : SistemaArchivos} {LLM : ModeloLenguaje} {CFG : Config}
        {CAL : Calendario} {LLMN : ModeloNoticias}.

(** The answer is the dict of the source without [titulares_por_tema], which
    is the empty dict in the answer without news and is absent from the other
    one: the loop that fills it has no effect on what is returned. *)
Definition generar_resumen_noticias_dap (csv : option DataFrame)
    (fecha_str : pystr) : res respuesta :=
  noticias_dia ← cargar_noticias_dap_por_fecha csv fecha_str;
  match noticias_dia with
  | [] => mret (mkRespuesta fecha_str [] (Some (u "No hay noticias para esa fecha")))
  | _ =>
    let contexto := construir_contexto_por_tema noticias_dia in
    content ← chat_resumen_noticias fecha_str contexto;
    let resumen_texto := strip content in
    mret (mkRespuesta fecha_str resumen_texto None)
  end.

(** The endpoint [/resumen_noticias]. *)
Definition resumen_noticias (csv : option DataFrame)
    (fecha : option pystr) : cuerpo_http * N :=
  match fecha with
  | None => (CuerpoFaltaFecha, 400)
  | Some fecha_str =>
    if negb (truthy fecha_str) then (CuerpoFaltaFecha, 400)
    else
      match generar_resumen_noticias_dap csv fecha_str with
      | Raise FileNotFoundError => (CuerpoExcepcion FileNotFoundError, 500)
      | Raise (ValueError m) => (CuerpoExcepcion (ValueError m), 400)
      | Raise _ => (CuerpoErrorInterno, 500)
      | Ok resultado =>
        if bool_decide (r_error resultado = Some (u "No hay noticias para esa fecha"))
        then (CuerpoResumen (r_fecha resultado) (r_resumen resultado)
                            (r_error resultado), 404)
        else (CuerpoResumen (r_fecha resultado) (r_resumen resultado)
                            (r_error resultado), 200)
      end
  end.

(** The entry of [docs] that a row of [df_jur] gives, if any. *)
Definition documento_de_fila (jurisdiccion : pystr) (row : Fila) : option documento :=
  let doc_id := strip (py_str (row_get row "id" (Str []))) in
  if negb (truthy doc_id) then None
  else Some (mkDocumento doc_id doc_id jurisdiccion (u "/descargar_pdf?id=" ++ doc_id)).

(** The endpoint [/do_pdfs]. *)
Definition do_pdfs (csv : option DataFrame)
    (fecha jurisdiccion : option pystr) : cuerpo_do * N :=
  match fecha with
  | None => (DoFaltaFecha, 400)
  | Some fecha_str =>
    if negb (truthy fecha_str) then (DoFaltaFecha, 400)
    else
      match jurisdiccion with
      | None => (DoFaltaJurisdiccion, 400)
      | Some j =>
        if negb (truthy j) then (DoFaltaJurisdiccion, 400)
        else
          let jurisdiccion := upper (strip j) in
          match cargar_diarios_por_fecha csv fecha_str with
          | Raise FileNotFoundError => (DoExcepcion FileNotFoundError, 500)
          | Raise (ValueError m) => (DoExcepcion (ValueError m), 400)
          | Raise _ => (DoErrorInterno, 500)
          | Ok [] => (DoDocumentos fecha_str jurisdiccion [], 200)
          | Ok df_dia =>
            let df_jur :=
              List.filter
                (fun row => eqb (upper (py_str (row_item row "jurisdiccion")))
                                jurisdiccion) df_dia in
            match df_jur with
            | [] => (DoDocumentos fecha_str jurisdiccion [], 200)
            | _ =>
              let docs := omap (documento_de_fila jurisdiccion) df_jur in
              (DoDocumentos fecha_str jurisdiccion docs, 200)
            end
          end
      end
  end.

(** The endpoint [/resumen_do]; the arguments are the fields of the JSON
    body, [None] when absent. *)
Definition resumen_do (csv : option DataFrame)
    (fecha jurisdiccion : option pystr) : cuerpo_do * N :=
  match fecha with
  | None => (DoFaltaFecha, 400)
  | Some fecha_str =>
    if negb (truthy fecha_str) then (DoFaltaFecha, 400)
    else
      match jurisdiccion with
      | None => (DoFaltaJurisdiccion, 400)
      | Some j =>
        if negb (truthy j) then (DoFaltaJurisdiccion, 400)
        else
          let jurisdiccion := upper (strip j) in
          match generar_resumen_diarios csv fecha_str (Some jurisdiccion) with
          | Raise FileNotFoundError => (DoExcepcion FileNotFoundError, 500)
          | Raise (ValueError m) => (DoExcepcion (ValueError m), 400)
          | Raise _ => (DoErrorInterno, 500)
          | Ok resultado =>
            if truthy (default [] (r_error resultado))
            then (DoResumen (r_fecha resultado) jurisdiccion (r_resumen resultado)
                            (r_error resultado), 404)
            else (DoResumen (r_fecha resultado) jurisdiccion (r_resumen resultado)
                            None, 200)
          end
      end
  end.

End BackendEndpoints.

(** ** More example worlds *)

Module EjemplosExtra.
Import Ejemplos.

(** An index whose jurisdictions are stored in lower case. *)
Definition indice_minusculas : DataFrame :=
  mkDataFrame columnas_indice
    [fila "a.pdf" "2026-01-30" "dof" "pdfs"
          (Str (u "do_textos/dof/a.txt")) (Str (u "do_resumenes/dof/a_resumen.txt"))
          (Str (u "summary_ready"));
     fila "b.pdf" "2026-01-30" "veracruz" "pdfs"
          (Str (u "do_textos/veracruz/b.txt"))
          (Str (u "do_resumenes/veracruz/b_resumen.txt"))
          (Str (u "summary_ready"))].

(** A news file with headlines of two dates and two topics. *)
Definition noticia (fecha titular termino medio : string) : Fila :=
  {[ "fecha"%string := Str (u fecha);
     "titular"%string := Str (u titular);
     "termino"%string := Str (u termino);
     "enlace"%string := Str (u "https://ejemplo.mx/nota");
     "medio"%string := Str (u medio) ]}.

Definition noticias_dos_fechas : DataFrame :=
  mkDataFrame ["fecha"; "titular"; "termino"; "enlace"; "medio"]%string
    [noticia "2026-01-30" "Suben los impuestos al gas" "impuesto" "El Diario";
     noticia "2026-02-01" "Nueva planta de cemento" "cemento" "La Voz";
     noticia "2026-02-01" "Baja el precio del gas" "gas" "El Diario"].

(** The answer of the daily summary for the two processed records of
    [indice_3_procesado]. *)
Definition resumen_de_indice_3 : pystr :=
  u "DOF" ++ [10] ++ u "- Se publica una reforma." ++ [10; 10]
  ++ u "CDMX" ++ [10] ++ u "- Se publica una reforma.".

(** A file system in which every PDF is a scan: one page fails, one has no
    text layer and one holds white space only. *)
Definition fs_pdf_escaneado : SistemaArchivos := {|
  os_path_exists := fun _ => true;
  os_path_normpath := fun p => p;
  os_path_join := fun a b => a ++ [47] ++ b;
  os_path_isabs := fun p => startswith [47] p;
  os_path_splitext_0 := fun p => take (length p - 4)%nat p;
  PdfReader_pages := fun _ => Ok [Raise OtherException; Ok None; Ok (Some [32; 10])];
  mkdir := fun _ => Ok tt;
  write_text := fun _ _ => Ok tt;
  read_text := fun _ => Ok [];
|}.

End EjemplosExtra.

(** * Properties *)

(** ** Python strings *)

Section PyLemmas.

Lemma truthy_true (s : pystr) : truthy s = true <-> s <> [].
Proof. destruct s; simpl; split; congruence. Qed.

Lemma truthy_false (s : pystr) : truthy s = false <-> s = [].
Proof. destruct s; simpl; split; congruence. Qed.

Lemma lstrip_nil (s : pystr) :
  lstrip s = [] <-> Forall (fun c => isspace c = true) s.
Proof.
  induction s as [|c r IH]; simpl.
  - split; [constructor | reflexivity].
  - destruct (isspace c) eqn:Hc.
    + rewrite IH. split; [by constructor | by inversion 1].
    + split; [discriminate | inversion 1; congruence].
Qed.

Lemma lstrip_blancos (s : pystr) :
  Forall (fun c => isspace c = true) (lstrip s) -> lstrip s = [].
Proof.
  induction s as [|c r IH]; simpl; [done|].
  destruct (isspace c) eqn:Hc; [exact IH|].
  inversion 1; congruence.
Qed.

(** [s.strip()] is empty exactly when [s] holds white space only. *)
Lemma strip_nil (s : pystr) :
  strip s = [] <-> Forall (fun c => isspace c = true) s.
Proof.
  unfold strip, rstrip. split.
  - intros Hs. apply lstrip_nil.
    apply (f_equal reverse) in Hs. rewrite reverse_involutive in Hs.
    change (reverse []) with (@nil N) in Hs.
    apply lstrip_nil in Hs.
    apply lstrip_blancos.
    rewrite <- (reverse_involutive (lstrip s)).
    apply Forall_reverse. exact Hs.
  - intros Hs. apply lstrip_nil in Hs. rewrite Hs. reflexivity.
Qed.



Lemma startswith_spec (w s : pystr) :
  startswith w s = true <-> exists b, s = w ++ b.
Proof.
  revert s. induction w as [|a w IH]; intros s; simpl.
  - split; [intros _; by exists s | done].
  - destruct s as [|c s].
    + split; [done | intros [b Hb]; discriminate].
    + rewrite andb_true_iff, N.eqb_eq, IH. split.
      * intros [-> [b ->]]. by exists b.
      * intros [b Hb]. injection Hb as -> ->. eauto.
Qed.

(** [w in s] holds exactly when [s] is some text, then [w], then some text. *)
Lemma contains_spec (w s : pystr) :
  contains w s = true <-> exists a b, s = a ++ w ++ b.
Proof.
  induction s as [|c s IH]; simpl.
  - rewrite orb_false_r, startswith_spec. split.
    + intros [b Hb]. by exists [], b.
    + intros [a [b Hab]]. destruct a; [by exists b|discriminate].
  - rewrite orb_true_iff, startswith_spec, IH. split.
    + intros [[b Hb]|[a [b Hab]]].
      * by exists [], b.
      * exists (c :: a), b. by rewrite Hab.
    + intros [a [b Hab]]. destruct a as [|c' a].
      * left. by exists b.
      * right. injection Hab as -> ->. eauto.
Qed.

Lemma contains_app (w a b : pystr) :
  contains w (a ++ w ++ b) = true.
Proof. apply contains_spec. eauto. Qed.

Lemma contains_trans (v w s : pystr) :
  contains v w = true -> contains w s = true -> contains v s = true.
Proof.
  rewrite !contains_spec. intros [a [b ->]] [c [d ->]].
  exists (c ++ a), (b ++ d). by rewrite <- !app_assoc.
Qed.

Lemma lower_app (a b : pystr) : lower (a ++ b) = lower a ++ lower b.
Proof. apply map_app. Qed.

Lemma contains_lower (w s : pystr) :
  contains w s = true -> contains (lower w) (lower s) = true.
Proof.
  rewrite !contains_spec. intros [a [b ->]].
  exists (lower a), (lower b). by rewrite !lower_app.
Qed.

Lemma slice_to_take (s : pystr) (n : Z) :
  (0 <= n)%Z -> slice_to s n = take (Z.to_nat n) s.
Proof. intros Hn. unfold slice_to. destruct (Z.leb_spec 0 n); [done | lia]. Qed.

End PyLemmas.

(** ** The result monad *)

Section ResLemmas.
Context {A B : Type}.

Lemma mapM_cons (f : A -> res B) (a : A) (l : list A) :
  mapM f (a :: l) =
  match f a with
  | Ok b => match mapM f l with
            | Ok bs => Ok (b :: bs)
            | Raise e => Raise e
            end
  | Raise e => Raise e
  end.
Proof.
  simpl. unfold mbind, res_bind, mret, res_ret.
  destruct (f a); [|done]. by destruct (mapM f l).
Qed.

Lemma mapM_Ok (f : A -> res B) (l : list A) (l' : list B) :
  mapM f l = Ok l' <-> Forall2 (fun a b => f a = Ok b) l l'.
Proof.
  revert l'. induction l as [|a l IH]; intros l'.
  - simpl. split.
    + intros Hl. injection Hl as <-. constructor.
    + by inversion 1.
  - rewrite mapM_cons. split.
    + destruct (f a) as [b|e] eqn:Hfa; [|done].
      destruct (mapM f l) as [bs|e] eqn:Hm; [|done].
      intros Hl. injection Hl as <-. constructor; [done|]. by apply IH.
    + inversion 1 as [|? b ? bs Hfa Hrest]; subst.
      rewrite Hfa. apply IH in Hrest. by rewrite Hrest.
Qed.

Lemma mapM_total (f : A -> res B) (g : A -> B) (l : list A) :
  (forall a, f a = Ok (g a)) -> mapM f l = Ok (map g l).
Proof.
  intros Hfg. apply mapM_Ok.
  induction l; constructor; auto.
Qed.

Lemma mapM_Raise (f : A -> res B) (l : list A) (e : exn) :
  mapM f l = Raise e -> exists a, a ∈ l /\ f a = Raise e.
Proof.
  induction l as [|a l IH]; [done|].
  rewrite mapM_cons.
  destruct (f a) as [b|e'] eqn:Hfa.
  - destruct (mapM f l) as [bs|e'] eqn:Hm; [done|].
    intros He. injection He as ->.
    destruct IH as [a' [Hin Ha']]; [done|].
    exists a'. split; [by right | done].
  - intros He. injection He as ->. exists a. split; [by left | done].
Qed.

End ResLemmas.

(** ** The ingestion pipeline *)

Section PreprocesarLemmas.
Context {FS : SistemaArchivos} {LLM : ModeloLenguaje} {CFG : Config}.






Lemma ya_procesado_estado (row : Fila) :
  ya_procesado row = true -> estado row = u "summary_ready".
Proof.
  unfold ya_procesado, estado, eqb.
  rewrite !andb_true_iff, bool_decide_eq_true. tauto.
Qed.


Ltac desplegar_fila :=
  unfold procesar_fila, asegurar_directorio_para_archivo,
         mbind, res_bind, mret, res_ret.

(** What an iteration that ends normally has done: nothing, or the update of
    the three columns after every step succeeded. *)
Lemma procesar_fila_Ok_inv (row r' : Fila) :
  procesar_fila row = Ok r' ->
  r' = row \/
  (ya_procesado row = false /\ pasos_protegidos_exitosos row
   /\ directorios_creados row /\ r' = fila_procesada row).
Proof.
  desplegar_fila.
  destruct (ya_procesado row) eqn:Hg; [intros [= <-]; by left|].
  destruct (extraer_texto_pdf _) as [texto|e] eqn:Hx; [|intros [= <-]; by left].
  destruct (truthy (strip texto)) eqn:Ht; simpl; [|intros [= <-]; by left].
  destruct (mkdir (path_div TEXT_BASE_DIR _)) as [[]|e] eqn:Hm1; [|done].
  destruct (write_text _ texto) as [[]|e] eqn:Hw1; [|intros [= <-]; by left].
  destruct (resumir_texto_normativo _ _ _ _) as [resumen|e] eqn:Hr;
    [|intros [= <-]; by left].
  destruct (mkdir (path_div SUMMARY_BASE_DIR _)) as [[]|e] eqn:Hm2; [|done].
  destruct (write_text _ resumen) as [[]|e] eqn:Hw2; [|intros [= <-]; by left].
  intros [= <-]. right. split; [done|]. split; [|split; [by split|done]].
  exists texto, resumen. by repeat split.
Qed.

(** An iteration raises only out of a directory creation. *)
Lemma procesar_fila_Raise_inv (row : Fila) (e : exn) :
  procesar_fila row = Raise e ->
  ya_procesado row = false /\
  (mkdir (path_div TEXT_BASE_DIR (py_str (row_item row "jurisdiccion"))) = Raise e
   \/ mkdir (path_div SUMMARY_BASE_DIR (py_str (row_item row "jurisdiccion"))) = Raise e).
Proof.
  desplegar_fila.
  destruct (ya_procesado row) eqn:Hg; [done|].
  destruct (extraer_texto_pdf _) as [texto|e'] eqn:Hx; [|done].
  destruct (truthy (strip texto)) eqn:Ht; simpl; [|done].
  destruct (mkdir (path_div TEXT_BASE_DIR _)) as [[]|e'] eqn:Hm1;
    [|intros [= ->]; by auto].
  destruct (write_text _ texto) as [[]|e'] eqn:Hw1; [|done].
  destruct (resumir_texto_normativo _ _ _ _) as [resumen|e'] eqn:Hr; [|done].
  destruct (mkdir (path_div SUMMARY_BASE_DIR _)) as [[]|e'] eqn:Hm2;
    [|intros [= ->]; by auto].
  by destruct (write_text _ resumen) as [[]|e'] eqn:Hw2.
Qed.

Lemma procesar_fila_omitida (row : Fila) :
  ya_procesado row = true -> procesar_fila row = Ok row.
Proof. intros Hg. unfold procesar_fila. by rewrite Hg. Qed.

Lemma procesar_fila_exito (row : Fila) :
  ya_procesado row = false -> pasos_protegidos_exitosos row ->
  directorios_creados row ->
  procesar_fila row = Ok (fila_procesada row).
Proof.
  intros Hg (texto & resumen & Hx & Ht & Hw1 & Hr & Hw2) [Hm1 Hm2].
  desplegar_fila. rewrite Hg, Hx, Ht. simpl.
  rewrite Hm1. fold (ruta_texto row). rewrite Hw1, Hr, Hm2.
  fold (ruta_resumen row). by rewrite Hw2.
Qed.

(** When a step inside a [try] fails, the iteration leaves the row as it
    was, provided the directories could be created. *)
Lemma procesar_fila_fallo_protegido (row : Fila) :
  directorios_creados row -> ~ pasos_protegidos_exitosos row ->
  procesar_fila row = Ok row.
Proof.
  intros [Hm1 Hm2] Hno.
  destruct (procesar_fila row) as [r'|e] eqn:Hp.
  - apply procesar_fila_Ok_inv in Hp as [->|(_ & Hsi & _)]; [done|].
    by destruct Hno.
  - apply procesar_fila_Raise_inv in Hp as [_ [Hr|Hr]]; congruence.
Qed.



Lemma procesar_diarios_eq (df : DataFrame) :
  columna_faltante columnas_esperadas df = None ->
  procesar_diarios (Some df) =
  match mapM procesar_fila (filas df) with
  | Ok rows' => Ok (mkDataFrame (columns df) rows')
  | Raise e => Raise e
  end.
Proof.
  intros Hc. unfold procesar_diarios. rewrite Hc.
  by destruct (mapM procesar_fila (filas df)).
Qed.



End PreprocesarLemmas.

Section PreprocesarTeoremas.
Context {FS : SistemaArchivos} {LLM : ModeloLenguaje} {CFG : Config}.


(** The tolerance of the steps that a [try] wraps: when every directory of
    the batch can be created, the run ends normally, each row whose steps all
    succeed is updated and every other row is left as it was. *)
Lemma procesar_diarios_tolera_fallos_protegidos (df : DataFrame) :
  columna_faltante columnas_esperadas df = None ->
  Forall directorios_creados (filas df) ->
  exists df', procesar_diarios (Some df) = Ok df'
    /\ columns df' = columns df
    /\ Forall2 (fun r r' =>
                  (ya_procesado r = false -> pasos_protegidos_exitosos r ->
                   r' = fila_procesada r)
                  /\ (~ pasos_protegidos_exitosos r -> r' = r)
                  /\ (ya_procesado r = true -> r' = r))
               (filas df) (filas df').
Proof.
  intros Hc Hd.
  assert (exists rows', mapM procesar_fila (filas df) = Ok rows'
            /\ Forall2 (fun r r' =>
                  (ya_procesado r = false -> pasos_protegidos_exitosos r ->
                   r' = fila_procesada r)
                  /\ (~ pasos_protegidos_exitosos r -> r' = r)
                  /\ (ya_procesado r = true -> r' = r))
               (filas df) rows') as (rows' & Hm & HF).
  { induction Hd as [|r rs Hr _ IH].
    - exists []. split; [done | constructor].
    - destruct IH as (rows' & Hm & HF).
      destruct (procesar_fila r) as [r'|e] eqn:Hp.
      + exists (r' :: rows'). split.
        * rewrite mapM_cons, Hp, Hm. done.
        * constructor; [|done]. repeat split.
          -- intros Hg Hs. rewrite (procesar_fila_exito r Hg Hs Hr) in Hp.
             congruence.
          -- intros Hno. rewrite (procesar_fila_fallo_protegido r Hr Hno) in Hp.
             congruence.
          -- intros Hg. rewrite (procesar_fila_omitida r Hg) in Hp. congruence.
      + apply procesar_fila_Raise_inv in Hp as [_ [Hp|Hp]];
          destruct Hr as [Hr1 Hr2]; congruence. }
  exists (mkDataFrame (columns df) rows'). split; [|by split].
  by rewrite (procesar_diarios_eq df Hc), Hm.
Qed.



End PreprocesarTeoremas.

Section PreprocesarEjemplos.
Import Ejemplos.





(** The example of the partial-failure property: of three raw records, the
    second one fails at extraction; after the run the first and the third are
    [summary_ready] and the second is still [raw]. *)
Lemma procesar_diarios_extraccion_falla :
  exists df',
    indice_tras_ejecutar (FS := fs_extraccion_falla) (LLM := llm)
      (CFG := config_por_defecto) (Some indice_3) = Some df'
    /\ map estado (filas df') = [u "summary_ready"; u "raw"; u "summary_ready"]
    /\ filas df' !! 1%nat = filas indice_3 !! 1%nat.
Proof. exists indice_3_procesado. repeat split; compute_done. Qed.

(** C3, the failing case: of three raw records, the directory of the texts of
    the second one cannot be created. The exception of [mkdir] leaves the loop:
    the run raises, the index file is not written, and the first and the third
    record are still [raw], although every step succeeds for them. *)
Theorem procesar_diarios_aborta_por_mkdir :
  procesar_diarios (FS := fs_mkdir_falla) (LLM := llm) (CFG := config_por_defecto)
    (Some indice_3) = Raise OSError
  /\ indice_tras_ejecutar (FS := fs_mkdir_falla) (LLM := llm)
       (CFG := config_por_defecto) (Some indice_3) = Some indice_3
  /\ map estado (filas indice_3) = [u "raw"; u "raw"; u "raw"]
  /\ procesar_fila (FS := fs_mkdir_falla) (LLM := llm) (CFG := config_por_defecto)
       (fila_raw "a.pdf" "2026-01-30" "DOF")
     = Ok (fila_procesada (CFG := config_por_defecto) (FS := fs_mkdir_falla)
             (fila_raw "a.pdf" "2026-01-30" "DOF"))
  /\ procesar_fila (FS := fs_mkdir_falla) (LLM := llm) (CFG := config_por_defecto)
       (fila_raw "c.pdf" "2026-01-30" "CDMX")
     = Ok (fila_procesada (CFG := config_por_defecto) (FS := fs_mkdir_falla)
             (fila_raw "c.pdf" "2026-01-30" "CDMX")).
Proof. repeat split; compute_done. Qed.

End PreprocesarEjemplos.

(** ** The document index: loading by date *)

Section CargarLemmas.
Context {CAL : Calendario}.

Lemma columna_faltante_None (esperadas : list string) (df : DataFrame) :
  columna_faltante esperadas df = None <->
  forall col, col ∈ esperadas -> col ∈ columns df.
Proof.
  unfold columna_faltante. split.
  - intros Hf col Hin. apply list_elem_of_In in Hin.
    pose proof (List.find_none _ _ Hf col Hin) as Hn. simpl in Hn.
    apply negb_false_iff, bool_decide_eq_true in Hn. exact Hn.
  - intros Hall.
    destruct (List.find _ esperadas) as [col|] eqn:Hf; [|done].
    apply List.find_some in Hf as [Hin Hn].
    apply negb_true_iff, bool_decide_eq_false in Hn.
    destruct Hn. apply Hall. by apply list_elem_of_In.
Qed.

Lemma columna_faltante_Some (esperadas : list string) (df : DataFrame) (col : string) :
  columna_faltante esperadas df = Some col ->
  col ∈ esperadas /\ col ∉ columns df.
Proof.
  unfold columna_faltante. intros Hf.
  apply List.find_some in Hf as [Hin Hn].
  apply negb_true_iff, bool_decide_eq_false in Hn.
  split; [by apply list_elem_of_In | done].
Qed.

(** The rows that a load returns: those of the date that pass the test
    [tiene_resumen], in the order of the index. *)
Lemma cargar_diarios_por_fecha_Ok (df : DataFrame) (fecha_str : pystr) (D : fecha) :
  (forall col, col ∈ columnas_esperadas -> col ∈ columns df) ->
  strptime_ymd fecha_str = Some D ->
  cargar_diarios_por_fecha (Some df) fecha_str =
  Ok (List.filter
        (fun row => bool_decide (to_datetime false (row_item row "fecha") = Some D)
                    && tiene_resumen row)
        (filas df)).
Proof.
  intros Hcols HD. unfold cargar_diarios_por_fecha.
  rewrite (proj2 (columna_faltante_None _ _) Hcols), HD. f_equal.
  induction (filas df) as [|row rows IH]; [done|]. simpl.
  destruct (bool_decide _) eqn:Hd; simpl.
  - destruct (tiene_resumen row) eqn:Ht; simpl.
    + f_equal. revert IH. by destruct (List.filter _ rows).
    + revert IH. by destruct (List.filter _ rows).
  - exact IH.
Qed.

(** A row whose status is [raw] never passes the test of the loader. *)
Lemma tiene_resumen_raw (row : Fila) :
  estado row = u "raw" -> tiene_resumen row = false.
Proof.
  unfold estado, tiene_resumen. intros ->.
  by rewrite andb_false_r.
Qed.

(** On a row whose status and summary path hold text, the test of the source
    is the usable record of the specification. *)
Lemma tiene_resumen_usable (row : Fila) (st sp : pystr) :
  row !! "status"%string = Some (Str st) ->
  row !! "summary_path"%string = Some (Str sp) ->
  tiene_resumen row = usable row.
Proof.
  intros Hst Hsp. unfold tiene_resumen, usable, row_get.
  by rewrite Hst, Hsp.
Qed.

End CargarLemmas.

Section CargarTeoremas.
Context {CAL : Calendario}.

(** C8: the errors of a load. The load raises [FileNotFoundError] when the
    index file does not exist; when one of the eight expected columns is
    missing it raises the [ValueError] that names the first missing one,
    whatever the query date; and when the columns are there and the query
    date is well formed it returns normally, a row whose stored date is
    unparseable (NaT) being in no result. *)
Theorem cargar_diarios_por_fecha_errores :
  (forall fecha_str, cargar_diarios_por_fecha None fecha_str = Raise FileNotFoundError)
  /\ length columnas_esperadas = 8%nat
  /\ (forall (df : DataFrame) (fecha_str : pystr) (col : string),
        col ∈ columnas_esperadas -> col ∉ columns df ->
        exists c, c ∈ columnas_esperadas /\ (c ∉ columns df)
          /\ cargar_diarios_por_fecha (Some df) fecha_str
             = Raise (ValueError (FaltaColumna c)))
  /\ (forall (df : DataFrame) (fecha_str : pystr) (D : fecha),
        (forall col, col ∈ columnas_esperadas -> col ∈ columns df) ->
        strptime_ymd fecha_str = Some D ->
        exists rows, cargar_diarios_por_fecha (Some df) fecha_str = Ok rows
          /\ forall row, row ∈ filas df ->
               to_datetime false (row_item row "fecha") = None ->
               row ∉ rows).
Proof.
  split; [done|]. split; [done|]. split.
  - intros df fecha_str col Hin Hout.
    destruct (columna_faltante columnas_esperadas df) as [c|] eqn:Hc.
    + exists c. destruct (columna_faltante_Some _ _ _ Hc) as [Hc1 Hc2].
      split; [done|]. split; [done|].
      unfold cargar_diarios_por_fecha. by rewrite Hc.
    + destruct Hout. by apply (proj1 (columna_faltante_None _ _) Hc).
  - intros df fecha_str D Hcols HD. eexists. split.
    + by apply cargar_diarios_por_fecha_Ok.
    + intros row _ Hnat Hin.
      apply list_elem_of_In, List.filter_In in Hin as [_ Hin].
      rewrite Hnat in Hin. done.
Qed.

End CargarTeoremas.

Section CargarEjemplos.
Import Ejemplos Fechas.

Example estado_fila_b : estado fila_b = u "nan".
Proof. reflexivity. Qed.

Example fecha_no_interpretable :
  pandas_to_datetime false (Str (u "treinta de enero")) = None
  /\ pandas_to_datetime false (Str (u "31/31/2026")) = None
  /\ pandas_to_datetime false NaN = None.
Proof. by vm_compute. Qed.

Lemma cargar_diarios_por_fecha_errores_witness :
  exists rows,
    cargar_diarios_por_fecha (CAL := calendario_pandas)
      (Some indice_celdas_vacias) (u "2026-01-30") = Ok rows
    /\ fila_e ∉ rows.
Proof.
  destruct (proj2 (proj2 (proj2 (cargar_diarios_por_fecha_errores
                                   (CAL := calendario_pandas))))
              indice_celdas_vacias (u "2026-01-30") (mkFecha 2026 1 30))
    as (rows & Hrows & Hno).
  - intros col Hin. vm_compute in Hin. vm_compute.
    repeat (apply elem_of_cons in Hin as [->|Hin]; [set_solver|]).
    by apply elem_of_nil in Hin.
  - reflexivity.
  - exists rows. split; [exact Hrows|].
    apply Hno; [|reflexivity].
    unfold indice_celdas_vacias; simpl.
    do 4 (apply elem_of_cons; right). apply elem_of_cons. by left.
Defined.

(** C1, the failing case: an index whose fields are empty where a row has no
    value. The load of 2026-01-30 returns [a.pdf], which is [summary_ready]
    and has an empty summary path, and leaves out [b.pdf], a legacy row with a
    summary path and an empty status; the usable rows of that date, in the
    words of the specification, are [b.pdf] and [c.pdf]. The source reads an
    empty field through [str], which gives the text [nan]. *)
Theorem cargar_diarios_por_fecha_celdas_vacias :
  cargar_diarios_por_fecha (CAL := calendario_pandas)
    (Some indice_celdas_vacias) (u "2026-01-30") = Ok [fila_a; fila_c]
  /\ List.filter
       (fun row => bool_decide (pandas_to_datetime false (row_item row "fecha")
                                = Some (mkFecha 2026 1 30)) && usable row)
       (filas indice_celdas_vacias) = [fila_b; fila_c]
  /\ fila_a !! "summary_path"%string = Some NaN
  /\ fila_b !! "status"%string = Some NaN
  /\ tiene_resumen fila_a = true /\ usable fila_a = false
  /\ tiene_resumen fila_b = false /\ usable fila_b = true.
Proof. repeat split; compute_done. Qed.

End CargarEjemplos.

(** ** Context assembly *)

Section ContextoLemmas.
Context {FS : SistemaArchivos} {CFG : Config}.

Lemma unique_NoDup {A} `{EqDecision A} (l : list A) : NoDup (unique l).
Proof. unfold unique. rewrite reverse_Permutation. apply NoDup_remove_dups. Qed.

Lemma elem_of_unique {A} `{EqDecision A} (l : list A) (x : A) :
  x ∈ unique l <-> x ∈ l.
Proof.
  unfold unique. by rewrite elem_of_reverse, elem_of_remove_dups, elem_of_reverse.
Qed.

Lemma sorted_Permutation {A} (le : A -> A -> bool) (l : list A) :
  sorted le l ≡ₚ l.
Proof. unfold sorted. apply merge_sort_Permutation. Qed.

Lemma elem_of_sorted {A} (le : A -> A -> bool) (l : list A) (x : A) :
  x ∈ sorted le l <-> x ∈ l.
Proof. by rewrite (sorted_Permutation le l). Qed.

(** The keys of the groups: each jurisdiction of the frame, once. *)
Lemma groupby_jurisdiccion_keys (df_dia : list Fila) :
  NoDup (map fst (groupby_jurisdiccion df_dia))
  /\ forall j, j ∈ map fst (groupby_jurisdiccion df_dia) <->
               exists row, row ∈ df_dia /\ py_str (row_item row "jurisdiccion") = j.
Proof.
  unfold groupby_jurisdiccion. rewrite map_map. simpl. rewrite map_id. split.
  - rewrite (sorted_Permutation leb). apply unique_NoDup.
  - intros j. rewrite elem_of_sorted, elem_of_unique.
    change (map ?f df_dia) with (f <$> df_dia). rewrite list_elem_of_fmap.
    split; intros (row & Ha & Hb); exists row; by split.
Qed.

(** The inner loop never raises: a failed read is caught. *)
Lemma texto_de_fila_Ok (row : Fila) :
  texto_de_fila row = Ok (texto_legible row).
Proof.
  unfold texto_de_fila, texto_legible, resumen_ausente.
  destruct (truthy (strip (py_str _))); simpl; [|done].
  fold (ruta_de_resumen row).
  destruct (os_path_exists (ruta_de_resumen row)); simpl; [|done].
  unfold try_except, mbind, res_bind, mret, res_ret.
  by destruct (read_text (ruta_de_resumen row)).
Qed.

Lemma texto_legible_ausente (row : Fila) :
  resumen_ausente row = true -> texto_legible row = None.
Proof.
  intros Ha. unfold texto_legible. rewrite Ha.
  by destruct (negb _).
Qed.

Lemma texto_legible_ilegible (row : Fila) :
  resumen_ilegible row = true -> texto_legible row = None.
Proof.
  unfold resumen_ilegible, texto_legible.
  destruct (read_text _); [done|]. intros _.
  destruct (negb _); [done|]. by destruct (resumen_ausente row).
Qed.

Lemma texto_legible_Some (row : Fila) (txt : pystr) :
  texto_legible row = Some txt <->
  truthy (strip (py_str (row_get row "summary_path" (Str [])))) = true
  /\ os_path_exists (ruta_de_resumen row) = true
  /\ exists contenido, read_text (ruta_de_resumen row) = Ok contenido
        /\ txt = strip contenido /\ txt <> [].
Proof.
  unfold texto_legible, resumen_ausente.
  destruct (truthy (strip (py_str _))); simpl; [|split; [done|intros [? _]; done]].
  destruct (os_path_exists _); simpl; [|split; [done|intros (_ & ? & _); done]].
  destruct (read_text _) as [c|e].
  - destruct (truthy (strip c)) eqn:Ht; split.
    + intros [= <-]. repeat split; try done. exists c.
      repeat split; try done. by apply truthy_true.
    + intros (_ & _ & c' & [= <-] & -> & _). done.
    + done.
    + intros (_ & _ & c' & [= <-] & -> & Hne).
      apply truthy_false in Ht. done.
  - split; [done|]. intros (_ & _ & c' & ? & _). done.
Qed.

Lemma omap_cons {A B} (f : A -> option B) (a : A) (l : list A) :
  omap f (a :: l) = match f a with Some y => y :: omap f l | None => omap f l end.
Proof. reflexivity. Qed.

Lemma omap_map {A B C} (g : A -> B) (f : B -> option C) (l : list A) :
  omap f (map g l) = omap (fun a => f (g a)) l.
Proof.
  induction l as [|a l IH]; [done|].
  change (map g (a :: l)) with (g a :: map g l).
  by rewrite !omap_cons, IH.
Qed.

Lemma omap_id_map {A B} (f : A -> option B) (l : list A) :
  omap id (map f l) = omap f l.
Proof. apply (omap_map f id). Qed.

Lemma contexto_de_grupo_Ok (k : pystr) (grupo : list Fila) :
  contexto_de_grupo (k, grupo) =
  Ok (match omap texto_legible grupo with
      | [] => None
      | textos => Some (k, slice_to (join nlnl textos) DO_MAX_CHARS_RESUMENES)
      end).
Proof.
  unfold contexto_de_grupo. simpl.
  rewrite (mapM_total texto_de_fila texto_legible grupo texto_de_fila_Ok).
  unfold mbind, res_bind, mret, res_ret. rewrite omap_id_map.
  by destruct (omap texto_legible grupo).
Qed.

Lemma construir_contexto_Ok (df_dia : list Fila) :
  construir_contexto_diarios_por_jurisdiccion df_dia =
  Ok (omap (entrada_de_clave df_dia) (map fst (groupby_jurisdiccion df_dia))).
Proof.
  assert (mapM contexto_de_grupo (groupby_jurisdiccion df_dia)
          = Ok (map (fun g => entrada_de_clave df_dia (fst g))
                    (groupby_jurisdiccion df_dia))) as Hm.
  { apply mapM_Ok. unfold groupby_jurisdiccion.
    induction (sorted leb _) as [|k ks IH]; simpl; constructor; [|exact IH].
    rewrite contexto_de_grupo_Ok.
    unfold entrada_de_clave, contexto_esperado, textos_de_jurisdiccion.
    by destruct (omap texto_legible _). }
  unfold construir_contexto_diarios_por_jurisdiccion.
  destruct df_dia as [|row rows] eqn:Hdf; [done|]. rewrite <- Hdf in *.
  rewrite Hm. unfold mbind, res_bind, mret, res_ret. f_equal.
  rewrite omap_id_map. symmetry. apply omap_map.
Qed.

Lemma dict_get_omap {V} (f : pystr -> option V) (ks : list pystr) (j : pystr) :
  dict_get (omap (fun k => (fun v => (k, v)) <$> f k) ks) j =
  if bool_decide (j ∈ ks) then f j else None.
Proof.
  induction ks as [|k ks IH]; [done|].
  rewrite omap_cons.
  destruct (decide (k = j)) as [->|Hne].
  - rewrite bool_decide_eq_true_2 by left.
    destruct (f j) as [v|] eqn:Hf; simpl.
    + unfold dict_get. simpl. unfold eqb. by rewrite bool_decide_eq_true_2.
    + rewrite IH. destruct (bool_decide _); by rewrite ?Hf.
  - assert (bool_decide (j ∈ k :: ks) = bool_decide (j ∈ ks)) as ->.
    { apply bool_decide_ext. rewrite elem_of_cons.
      split; [intros [Heq|Hin]; [congruence | done] | by right]. }
    destruct (f k) as [v|]; simpl; [|exact IH].
    rewrite <- IH. unfold dict_get. simpl. unfold eqb.
    by rewrite bool_decide_eq_false_2.
Qed.

Lemma dict_keys_omap {V} (f : pystr -> option V) (ks : list pystr) :
  dict_keys (omap (fun k => (fun v => (k, v)) <$> f k) ks)
  = List.filter (fun k => bool_decide (is_Some (f k))) ks.
Proof.
  unfold dict_keys. induction ks as [|k ks IH]; [done|].
  rewrite omap_cons. simpl.
  destruct (f k) as [v|]; simpl; by rewrite ?IH.
Qed.

(** The mapping built for a frame: the function never raises, no key is
    repeated, and each jurisdiction is mapped to its expected context. *)
Lemma construir_contexto_spec (df_dia : list Fila) :
  exists ctx,
    construir_contexto_diarios_por_jurisdiccion df_dia = Ok ctx
    /\ NoDup (dict_keys ctx)
    /\ forall j, dict_get ctx j = contexto_esperado df_dia j.
Proof.
  eexists. split; [apply construir_contexto_Ok|].
  destruct (groupby_jurisdiccion_keys df_dia) as [Hnd Hks].
  unfold entrada_de_clave. split.
  - rewrite dict_keys_omap.
    apply (sublist_NoDup _ (map fst (groupby_jurisdiccion df_dia))); [exact Hnd|].
    clear. induction (map fst _) as [|k ks IH]; simpl; [done|].
    destruct (bool_decide _); by constructor.
  - intros j. rewrite dict_get_omap.
    destruct (bool_decide (j ∈ _)) eqn:Hj; [done|].
    apply bool_decide_eq_false in Hj.
    unfold contexto_esperado, textos_de_jurisdiccion.
    replace (List.filter _ df_dia) with (@nil Fila); [done|].
    symmetry.
    assert (Forall (fun row => py_str (row_item row "jurisdiccion") <> j) df_dia)
      as Hno.
    { apply Forall_forall. intros row Hin Heq. apply Hj, Hks. by exists row. }
    clear Hnd Hks Hj. induction Hno as [|row rows Hrow _ IH]; simpl; [done|].
    unfold eqb. by rewrite bool_decide_eq_false_2.
Qed.

End ContextoLemmas.

Section ContextoTeoremas.
Context {FS : SistemaArchivos} {LLM : ModeloLenguaje} {CFG : Config} {CAL : Calendario}.

(** C5: the context of a jurisdiction is the concatenation of the non-empty
    summary texts of its records, in row order and separated by a blank line,
    cut to the budget after concatenation. For every frame and jurisdiction
    whose concatenation is longer than the budget, the context is the first
    budget-many characters of the concatenation: its length is the budget and
    it is a prefix of the concatenation. *)
Theorem contexto_truncado_al_presupuesto (df_dia : list Fila) (j : pystr) :
  let completo := join nlnl (textos_de_jurisdiccion df_dia j) in
  (0 <= DO_MAX_CHARS_RESUMENES)%Z ->
  (Z.to_nat DO_MAX_CHARS_RESUMENES < length completo)%nat ->
  exists ctx contexto,
    construir_contexto_diarios_por_jurisdiccion df_dia = Ok ctx
    /\ dict_get ctx j = Some contexto
    /\ contexto = take (Z.to_nat DO_MAX_CHARS_RESUMENES) completo
    /\ length contexto = Z.to_nat DO_MAX_CHARS_RESUMENES
    /\ contexto `prefix_of` completo.
Proof.
  intros completo Hpos Hlen.
  destruct (construir_contexto_spec df_dia) as (ctx & Hctx & _ & Hget).
  exists ctx, (take (Z.to_nat DO_MAX_CHARS_RESUMENES) completo).
  split; [done|]. split; [|split; [done|split]].
  - rewrite Hget. unfold contexto_esperado. subst completo.
    destruct (textos_de_jurisdiccion df_dia j) as [|t ts] eqn:Hts.
    + simpl in Hlen. lia.
    + by rewrite slice_to_take.
  - rewrite length_take_le; lia.
  - apply prefix_take.
Qed.

(** C7: context assembly is robust to missing data. For every frame the
    function returns a mapping, whatever the file system does; a record whose
    summary file is absent or cannot be read contributes nothing and the
    context of a jurisdiction is built from the texts of its other records;
    the mapping is empty for an empty frame and when no record contributes a
    text; and the caller answers both cases with an error entry in its
    result, not with an exception. *)
Theorem construir_contexto_robusto :
  (forall df_dia, exists ctx,
      construir_contexto_diarios_por_jurisdiccion df_dia = Ok ctx
      /\ forall j, dict_get ctx j = contexto_esperado df_dia j)
  /\ (forall row, resumen_ausente row = true \/ resumen_ilegible row = true ->
        texto_legible row = None)
  /\ (forall df_dia j,
        textos_de_jurisdiccion df_dia j =
        textos_de_jurisdiccion
          (List.filter (fun row => negb (resumen_ausente row || resumen_ilegible row))
                       df_dia) j)
  /\ construir_contexto_diarios_por_jurisdiccion [] = Ok []
  /\ (forall df_dia, Forall (fun row => texto_legible row = None) df_dia ->
        construir_contexto_diarios_por_jurisdiccion df_dia = Ok [])
  /\ (forall csv fecha_str filtro,
        cargar_diarios_por_fecha csv fecha_str = Ok [] ->
        generar_resumen_diarios csv fecha_str filtro =
        Ok (mkRespuesta fecha_str []
              (Some (u "No hay diarios oficiales para esa fecha"))))
  /\ (forall csv fecha_str filtro df_dia,
        cargar_diarios_por_fecha csv fecha_str = Ok df_dia -> df_dia <> [] ->
        construir_contexto_diarios_por_jurisdiccion df_dia = Ok [] ->
        generar_resumen_diarios csv fecha_str filtro =
        Ok (mkRespuesta fecha_str []
              (Some (u "No hay resúmenes normativos disponibles para esa fecha")))).
Proof.
  split; [|split; [|split; [|split; [|split; [|split]]]]].
  - intros df_dia. destruct (construir_contexto_spec df_dia) as (ctx & ? & _ & ?).
    by exists ctx.
  - intros row [Ha|Hi].
    + by apply texto_legible_ausente.
    + by apply texto_legible_ilegible.
  - intros df_dia j. unfold textos_de_jurisdiccion.
    induction df_dia as [|row rows IH]; simpl; [done|].
    destruct (resumen_ausente row || resumen_ilegible row) eqn:Hf; simpl.
    + destruct (eqb _ j); simpl; [|exact IH].
      apply orb_true_iff in Hf.
      assert (texto_legible row = None) as ->; [|exact IH].
      destruct Hf; [by apply texto_legible_ausente | by apply texto_legible_ilegible].
    + destruct (eqb _ j); simpl; [|exact IH].
      destruct (texto_legible row); [f_equal|]; exact IH.
  - done.
  - intros df_dia Hnone. rewrite construir_contexto_Ok. f_equal.
    assert (forall k, entrada_de_clave df_dia k = None) as Hk.
    { intros k. unfold entrada_de_clave, contexto_esperado, textos_de_jurisdiccion.
      replace (omap texto_legible _) with (@nil pystr); [done|].
      symmetry. induction Hnone as [|row rows Hrow _ IH]; simpl; [done|].
      destruct (eqb _ k); simpl; [|exact IH]. rewrite Hrow. exact IH. }
    induction (map fst _) as [|k ks IH]; simpl; [done|]. by rewrite Hk.
  - intros csv fecha_str filtro Hc. unfold generar_resumen_diarios.
    by rewrite Hc.
  - intros csv fecha_str filtro df_dia Hc Hne Hctx.
    unfold generar_resumen_diarios. rewrite Hc.
    unfold mbind at 1, res_bind.
    destruct df_dia as [|row rows]; [destruct Hne; reflexivity|].
    rewrite Hctx. reflexivity.
Qed.

End ContextoTeoremas.

Section ContextoEjemplos.
Import Ejemplos.

Lemma contexto_truncado_al_presupuesto_witness :
  exists ctx contexto,
    construir_contexto_diarios_por_jurisdiccion
      (FS := fs_resumenes_cortos) (CFG := config_presupuesto_24) diarios_dof = Ok ctx
    /\ dict_get ctx (u "DOF") = Some contexto
    /\ length contexto = 24%nat
    /\ length (join nlnl
                 (textos_de_jurisdiccion (FS := fs_resumenes_cortos)
                    (CFG := config_presupuesto_24) diarios_dof (u "DOF")))
       = 30%nat.
Proof.
  destruct (contexto_truncado_al_presupuesto
              (FS := fs_resumenes_cortos) (CFG := config_presupuesto_24)
              diarios_dof (u "DOF"))
    as (ctx & contexto & Hctx & Hget & _ & Hlen & _).
  - vm_compute. discriminate.
  - vm_compute. lia.
  - exists ctx, contexto. split; [exact Hctx|]. split; [exact Hget|].
    split; [exact Hlen | reflexivity].
Defined.

Lemma construir_contexto_robusto_witness :
  resumen_ilegible (FS := fs_un_resumen_ilegible) (CFG := config_por_defecto)
    (fila "a.pdf" "2026-01-30" "DOF" "pdfs"
          (Str (u "do_textos/DOF/a.txt")) (Str (u "do_resumenes/DOF/a_resumen.txt"))
          (Str (u "summary_ready"))) = true
  /\ texto_legible (FS := fs_un_resumen_ilegible) (CFG := config_por_defecto)
       (fila "a.pdf" "2026-01-30" "DOF" "pdfs"
             (Str (u "do_textos/DOF/a.txt")) (Str (u "do_resumenes/DOF/a_resumen.txt"))
             (Str (u "summary_ready"))) = None
  /\ construir_contexto_diarios_por_jurisdiccion
       (FS := fs_un_resumen_ilegible) (CFG := config_por_defecto) diarios_dof
     = Ok [(u "DOF", u "- Se reforma el decreto.")].
Proof.
  assert (resumen_ilegible (FS := fs_un_resumen_ilegible) (CFG := config_por_defecto)
            (fila "a.pdf" "2026-01-30" "DOF" "pdfs"
               (Str (u "do_textos/DOF/a.txt"))
               (Str (u "do_resumenes/DOF/a_resumen.txt"))
               (Str (u "summary_ready"))) = true) as Hi
    by (vm_compute; reflexivity).
  split; [exact Hi|]. split.
  - exact (proj1 (proj2 (construir_contexto_robusto
                           (FS := fs_un_resumen_ilegible) (LLM := llm)
                           (CFG := config_por_defecto) (CAL := Fechas.calendario_pandas)))
                 _ (or_intror Hi)).
  - vm_compute. reflexivity.
Defined.

End ContextoEjemplos.

(** ** The order of the jurisdictions *)

Section OrdenLemmas.

Lemma filter_ext_elem (P Q : pystr -> Prop)
    `{forall x, Decision (P x)} `{forall x, Decision (Q x)} (l : list pystr) :
  (forall x, x ∈ l -> (P x <-> Q x)) -> filter P l = filter Q l.
Proof.
  induction l as [|x l IH]; intros HPQ; [done|].
  rewrite !filter_cons.
  assert (filter P l = filter Q l) as ->.
  { apply IH. intros y Hy. apply HPQ. by right. }
  destruct (decide (P x)) as [HP|HP], (decide (Q x)) as [HQ|HQ]; try done.
  - destruct HQ. apply HPQ; [left | done].
  - destruct HP. apply HPQ; [left | done].
Qed.

(** The first loop appends the preferred jurisdictions that are keys. *)
Lemma fase_preferidas (ctx : list (pystr * pystr)) (L acc : list pystr)
    (S : gset pystr) :
  (forall x, x ∈ S <-> x ∈ acc) -> NoDup L -> (forall x, x ∈ L -> x ∉ acc) ->
  (fold_left (agregar_preferida ctx) L (acc, S)).1
  = acc ++ filter (fun j => j ∈ dict_keys ctx) L
  /\ forall x, x ∈ (fold_left (agregar_preferida ctx) L (acc, S)).2
               <-> x ∈ (fold_left (agregar_preferida ctx) L (acc, S)).1.
Proof.
  revert acc S. induction L as [|j L IH]; intros acc S HS Hnd Hfresh; simpl.
  - by rewrite app_nil_r.
  - apply NoDup_cons in Hnd as [HjL Hnd].
    assert (j ∉ S) as HjS.
    { rewrite HS. apply Hfresh. left. }
    unfold agregar_preferida at 2 4 6. simpl.
    rewrite (bool_decide_eq_true_2 (j ∉ S)) by done. rewrite andb_true_r.
    rewrite filter_cons.
    destruct (decide (j ∈ dict_keys ctx)) as [Hk|Hk].
    + rewrite bool_decide_eq_true_2 by done.
      destruct (IH (acc ++ [j]) (S ∪ {[j]})) as [IH1 IH2].
      * intros x. rewrite elem_of_union, elem_of_singleton, elem_of_app,
          list_elem_of_singleton, HS. done.
      * done.
      * intros x Hx. rewrite elem_of_app, list_elem_of_singleton.
        intros [Hxa| ->]; [|done]. apply (Hfresh x); [by right | done].
      * split; [|done]. rewrite IH1. by rewrite <- app_assoc.
    + rewrite bool_decide_eq_false_2 by done.
      apply IH; [done | done |]. intros x Hx. apply Hfresh. by right.
Qed.

(** The second loop, on keys that are in upper case and distinct, appends
    the keys that the first loop has not appended. *)
Lemma fase_extras (K acc : list pystr) (S : gset pystr) :
  (forall x, x ∈ S <-> x ∈ acc) -> Forall (fun k => upper k = k) K -> NoDup K ->
  (fold_left agregar_extra K (acc, S)).1 = acc ++ filter (fun k => k ∉ acc) K.
Proof.
  revert acc S. induction K as [|k K IH]; intros acc S HS Hup Hnd; simpl.
  - by rewrite app_nil_r.
  - apply NoDup_cons in Hnd as [HkK Hnd].
    inversion Hup as [|? ? Hk HupK]; subst.
    unfold agregar_extra at 2. rewrite Hk. simpl.
    rewrite filter_cons.
    destruct (decide (k ∉ acc)) as [Hka|Hka].
    + rewrite bool_decide_eq_true_2 by (by rewrite HS).
      rewrite (IH (acc ++ [k]) (S ∪ {[k]})); [|  | done | done].
      * rewrite <- app_assoc. simpl. do 2 f_equal.
        apply filter_ext_elem. intros x Hx.
        rewrite elem_of_app, list_elem_of_singleton.
        split; [tauto|]. intros Hxa [?| ->]; done.
      * intros x. rewrite elem_of_union, elem_of_singleton, elem_of_app,
          list_elem_of_singleton, HS. done.
    + rewrite bool_decide_eq_false_2 by (by rewrite HS).
      by apply IH.
Qed.

Lemma ORDEN_JURISDICCIONES_NoDup : NoDup ORDEN_JURISDICCIONES.
Proof. compute_done. Qed.

Lemma ordenar_jurisdicciones_eq (ctx : list (pystr * pystr)) :
  NoDup (dict_keys ctx) -> Forall (fun k => upper k = k) (dict_keys ctx) ->
  ordenar_jurisdicciones ctx
  = orderJurisdictions (dict_keys ctx) ORDEN_JURISDICCIONES.
Proof.
  intros Hnd Hup. unfold ordenar_jurisdicciones, orderJurisdictions.
  destruct (fase_preferidas ctx ORDEN_JURISDICCIONES [] ∅) as [H1 H2].
  { intros x. rewrite elem_of_nil. set_solver. }
  { apply ORDEN_JURISDICCIONES_NoDup. }
  { intros x _. apply not_elem_of_nil. }
  destruct (fold_left (agregar_preferida ctx) ORDEN_JURISDICCIONES ([], ∅))
    as [acc S] eqn:Hfold.
  simpl in H1, H2. rewrite (fase_extras _ acc S); [|done|done|done].
  rewrite H1. simpl. f_equal.
  apply filter_ext_elem. intros x Hx.
  rewrite list_elem_of_filter. tauto.
Qed.

End OrdenLemmas.

(** The order on names in upper case: for every mapping whose jurisdiction
    names are in upper case, the consolidated path processes the preferred
    jurisdictions that are available, in the order DOF, SONORA, VERACRUZ,
    CDMX, and then the available jurisdictions that are not preferred, in the
    order of the mapping; each available jurisdiction is processed exactly
    once. For the available jurisdictions VERACRUZ, CDMX and DOF the order is
    DOF, VERACRUZ, CDMX. *)
Theorem ordenar_jurisdicciones_normalizadas (ctx : list (pystr * pystr)) :
  NoDup (dict_keys ctx) -> Forall (fun k => upper k = k) (dict_keys ctx) ->
  ordenar_jurisdicciones ctx
  = filter (fun j => j ∈ dict_keys ctx) ORDEN_JURISDICCIONES
    ++ filter (fun j => j ∉ ORDEN_JURISDICCIONES) (dict_keys ctx)
  /\ ordenar_jurisdicciones ctx
     = orderJurisdictions (dict_keys ctx) ORDEN_JURISDICCIONES
  /\ NoDup (ordenar_jurisdicciones ctx)
  /\ ordenar_jurisdicciones ctx ≡ₚ dict_keys ctx
  /\ (dict_keys ctx ≡ₚ [u "VERACRUZ"; u "CDMX"; u "DOF"] ->
      ordenar_jurisdicciones ctx = [u "DOF"; u "VERACRUZ"; u "CDMX"]).
Proof.
  intros Hnd Hup.
  pose proof (ordenar_jurisdicciones_eq ctx Hnd Hup) as Heq.
  assert (NoDup (ordenar_jurisdicciones ctx)) as Hnd'.
  { rewrite Heq. unfold orderJurisdictions. apply NoDup_app. repeat split.
    - apply NoDup_filter, ORDEN_JURISDICCIONES_NoDup.
    - intros x. rewrite !list_elem_of_filter. tauto.
    - by apply NoDup_filter. }
  split; [exact Heq|]. split; [exact Heq|]. split; [exact Hnd'|]. split.
  - apply NoDup_Permutation; [done|done|].
    intros x. rewrite Heq. unfold orderJurisdictions.
    rewrite elem_of_app, !list_elem_of_filter.
    destruct (decide (x ∈ ORDEN_JURISDICCIONES)); tauto.
  - intros Hperm. rewrite Heq. unfold orderJurisdictions.
    assert (filter (fun j => j ∉ ORDEN_JURISDICCIONES) (dict_keys ctx) = []) as ->.
    { apply Permutation_nil_r.
      rewrite Hperm. compute_done. }
    rewrite app_nil_r.
    rewrite (filter_ext_elem _ (fun j => j ∈ [u "VERACRUZ"; u "CDMX"; u "DOF"])).
    + compute_done.
    + intros x _. by rewrite Hperm.
Qed.

Section OrdenEjemplos.
Import Ejemplos.

Lemma ordenar_jurisdicciones_normalizadas_witness :
  ordenar_jurisdicciones contexto_4
  = [u "DOF"; u "VERACRUZ"; u "CDMX"; u "ZACATECAS"]
  /\ ordenar_jurisdicciones contexto_4 ≡ₚ dict_keys contexto_4.
Proof.
  destruct (ordenar_jurisdicciones_normalizadas contexto_4)
    as (H1 & _ & _ & H4 & _).
  - compute_done.
  - compute_done.
  - split; [|exact H4]. rewrite H1. compute_done.
Defined.

(** The order on a name that is not in upper case: with the available
    jurisdictions [X] and [dof], the keys of the context of a frame with these
    two jurisdictions, the order is [X], [DOF]. The second name is not an
    available one, it is in the preferred list and it comes after a name that
    is not. *)
Lemma ordenar_jurisdicciones_contraejemplo :
  (exists ctx,
     construir_contexto_diarios_por_jurisdiccion
       (FS := fs_resumenes_cortos) (CFG := config_por_defecto) diarios_minusculas
     = Ok ctx
     /\ dict_keys ctx = dict_keys contexto_minusculas)
  /\ NoDup (dict_keys contexto_minusculas)
  /\ ordenar_jurisdicciones contexto_minusculas = [u "X"; u "DOF"]
  /\ orderJurisdictions (dict_keys contexto_minusculas) ORDEN_JURISDICCIONES
     = [u "X"; u "dof"]
  /\ ~ (forall ctx : list (pystr * pystr),
          NoDup (dict_keys ctx) ->
          ordenar_jurisdicciones ctx
          = orderJurisdictions (dict_keys ctx) ORDEN_JURISDICCIONES).
Proof.
  assert (NoDup (dict_keys contexto_minusculas)) as Hnd by compute_done.
  split.
  { exists [(u "X", u "- Se reforma X"); (u "dof", u "- Se reforma X")].
    split; compute_done. }
  split; [exact Hnd|]. split; [compute_done|]. split; [compute_done|].
  intros Hall. specialize (Hall contexto_minusculas Hnd).
  vm_compute in Hall. discriminate Hall.
Qed.

(** C4, the failing case: an index with two processed records of one date,
    of the jurisdictions [X] and [dof], each with a summary on disk. Both
    jurisdictions are available: the loader returns both records and the
    context has an entry for each. The claimed order is [X], [dof], each
    jurisdiction once. The second loop of the source appends the upper-case
    form of each key: the order is [X], [DOF], where [DOF] is no key of the
    context, is a name of the preferred list and comes after a name that is
    not; the lookup of [DOF] finds nothing, so the jurisdiction [dof] is never
    processed and the consolidated summary holds the block of [X] alone. *)
Theorem generar_resumen_diarios_omite_jurisdiccion :
  cargar_diarios_por_fecha (CAL := Fechas.calendario_pandas)
    (Some (mkDataFrame columnas_indice diarios_minusculas)) (u "2026-01-30")
  = Ok diarios_minusculas
  /\ construir_contexto_diarios_por_jurisdiccion
       (FS := fs_resumenes_cortos) (CFG := config_por_defecto) diarios_minusculas
     = Ok [(u "X", u "- Se reforma X"); (u "dof", u "- Se reforma X")]
  /\ orderJurisdictions [u "X"; u "dof"] ORDEN_JURISDICCIONES = [u "X"; u "dof"]
  /\ ordenar_jurisdicciones [(u "X", u "- Se reforma X"); (u "dof", u "- Se reforma X")]
     = [u "X"; u "DOF"]
  /\ dict_get [(u "X", u "- Se reforma X"); (u "dof", u "- Se reforma X")] (u "DOF")
     = None
  /\ generar_resumen_diarios
       (FS := fs_resumenes_cortos) (LLM := llm) (CFG := config_por_defecto)
       (CAL := Fechas.calendario_pandas)
       (Some (mkDataFrame columnas_indice diarios_minusculas)) (u "2026-01-30") None
     = Ok (mkRespuesta (u "2026-01-30")
             (u "X" ++ [10] ++ u "- Se publica una reforma.") None).
Proof. repeat split; compute_done. Qed.

End OrdenEjemplos.

(** ** Intent classification *)

Section IntencionLemmas.

Lemma primera_coincidencia_Some (tabla : list (pystr * list pystr)) (p t : pystr) :
  primera_coincidencia tabla p = Some t <->
  exists pre e post,
    tabla = pre ++ e :: post /\ fst e = t /\ coincide p e = true
    /\ Forall (fun e' => coincide p e' = false) pre.
Proof.
  unfold primera_coincidencia. induction tabla as [|e0 tabla IH]; simpl.
  - split; [done|]. intros (pre & e & post & Hl & _). by destruct pre.
  - destruct (coincide p e0) eqn:He0; simpl.
    + split.
      * intros [= <-]. exists [], e0, tabla. by repeat split.
      * intros (pre & e & post & Hl & <- & He & Hpre).
        destruct pre as [|e1 pre]; simpl in Hl.
        -- by injection Hl as -> ->.
        -- injection Hl as -> ->. inversion Hpre; congruence.
    + rewrite IH. split.
      * intros (pre & e & post & -> & <- & He & Hpre).
        exists (e0 :: pre), e, post. repeat split; try done. by constructor.
      * intros (pre & e & post & Hl & <- & He & Hpre).
        destruct pre as [|e1 pre]; simpl in Hl.
        -- injection Hl as -> ->. congruence.
        -- injection Hl as -> ->. inversion Hpre; subst.
           exists pre, e, post. by repeat split.
Qed.

Lemma primera_coincidencia_None (tabla : list (pystr * list pystr)) (p : pystr) :
  primera_coincidencia tabla p = None <->
  Forall (fun e => coincide p e = false) tabla.
Proof.
  unfold primera_coincidencia. induction tabla as [|e0 tabla IH]; simpl.
  - split; [constructor | done].
  - destruct (coincide p e0) eqn:He0; simpl.
    + split; [done|]. inversion 1; congruence.
    + rewrite IH. split; [by constructor | by inversion 1].
Qed.

Lemma primera_coincidencia_is_Some (tabla : list (pystr * list pystr)) (p : pystr) :
  is_Some (primera_coincidencia tabla p) <->
  exists e kw, e ∈ tabla /\ kw ∈ snd e /\ contains kw p = true.
Proof.
  split.
  - intros [t Ht]. apply primera_coincidencia_Some in Ht
      as (pre & e & post & -> & _ & He & _).
    unfold coincide in He. apply existsb_exists in He as (kw & Hkw & Hc).
    exists e, kw. split; [|split; [by apply list_elem_of_In | done]].
    apply elem_of_app. right. left.
  - intros (e & kw & He & Hkw & Hc).
    destruct (primera_coincidencia tabla p) as [t|] eqn:Hp; [by exists t|].
    apply primera_coincidencia_None in Hp.
    rewrite Forall_forall in Hp. specialize (Hp e He).
    unfold coincide in Hp.
    assert (existsb (fun kw => contains kw p) (snd e) = true) as Hex.
    { apply existsb_exists. exists kw. split; [by apply list_elem_of_In | done]. }
    congruence.
Qed.

(** The [if]/[elif] chain of the source is the first match in the table. *)
Lemma cadena_jurisdiccion (p : pystr) :
  (if contains (u "dof") p || contains (u "diario oficial de la federación") p
   then Some (u "DOF")
   else if contains (u "sonora") p then Some (u "SONORA")
   else if contains (u "veracruz") p then Some (u "VERACRUZ")
   else if contains (u "cdmx") p || contains (u "ciudad de méxico") p
   then Some (u "CDMX")
   else None)
  = primera_coincidencia tabla_jurisdicciones p.
Proof.
  unfold primera_coincidencia, tabla_jurisdicciones.
  cbn [List.find existsb snd coincide].
  destruct (contains (u "dof") p),
           (contains (u "diario oficial de la federación") p),
           (contains (u "sonora") p), (contains (u "veracruz") p),
           (contains (u "cdmx") p), (contains (u "ciudad de méxico") p);
    reflexivity.
Qed.

(** The classifier of the source is the classifier of the specification. *)
Lemma detectar_intencion_pregunta_classify (pregunta : option pystr) :
  detectar_intencion_pregunta pregunta = classify pregunta.
Proof.
  unfold detectar_intencion_pregunta, classify. cbv zeta.
  rewrite !cadena_jurisdiccion.
  destruct (primera_coincidencia tabla_jurisdicciones _); reflexivity.
Qed.

Lemma tipo_classify (question : option pystr) :
  tipo (classify question) = u "normativo" <->
  (exists w, w ∈ palabras_normativo
             /\ contains w (lower (default [] question)) = true)
  \/ (exists e kw, e ∈ tabla_jurisdicciones /\ kw ∈ snd e
                   /\ contains kw (lower (default [] question)) = true).
Proof.
  unfold classify. cbv zeta. cbn [tipo].
  rewrite <- primera_coincidencia_is_Some.
  set (p := lower (default [] question)).
  destruct (existsb (fun w => contains w p) palabras_normativo) eqn:Hw.
  - split; [|done]. intros _. left.
    apply existsb_exists in Hw as (w & Hin & Hc).
    exists w. split; [by apply list_elem_of_In | done].
  - cbn [orb]. case_bool_decide as Hj.
    + split; [by right | done].
    + split; [done|]. intros [(w & Hin & Hc)|Hs]; [|done].
      assert (existsb (fun w => contains w p) palabras_normativo = true) as Hex.
      { apply existsb_exists. exists w. split; [by apply list_elem_of_In | done]. }
      congruence.
Qed.

End IntencionLemmas.

(** C6, as amended: the priority of intent classification. For every
    question the classifier of the source is the one of the specification:
    the jurisdiction and the topic are the first match in table order on the
    lowered question; the scope is [normativo] exactly when a regulatory
    keyword or a jurisdiction keyword occurs in the lowered question, and
    [noticias] otherwise. The two examples hold with the proviso that first
    match forces: a question that contains [gaceta de Veracruz] is
    [normativo], with jurisdiction VERACRUZ when no keyword of DOF or SONORA,
    which come first in the table, occurs in it; a question that contains
    [impuestos], no jurisdiction keyword and no regulatory keyword is
    [noticias], with topic [impuesto] when no pattern of the three earlier
    topics occurs in it. *)
Theorem detectar_intencion_pregunta_prioridad :
  (forall pregunta, detectar_intencion_pregunta pregunta = classify pregunta)
  /\ (forall pregunta,
        tipo (detectar_intencion_pregunta pregunta) = u "normativo" <->
        (exists w, w ∈ palabras_normativo
                   /\ contains w (lower (default [] pregunta)) = true)
        \/ (exists e kw, e ∈ tabla_jurisdicciones /\ kw ∈ snd e
                         /\ contains kw (lower (default [] pregunta)) = true))
  /\ (forall pregunta,
        tipo (detectar_intencion_pregunta pregunta) <> u "normativo" ->
        tipo (detectar_intencion_pregunta pregunta) = u "noticias")
  /\ (forall pregunta t,
        jurisdiccion (detectar_intencion_pregunta pregunta) = Some t <->
        exists pre e post,
          tabla_jurisdicciones = pre ++ e :: post /\ fst e = t
          /\ coincide (lower (default [] pregunta)) e = true
          /\ Forall (fun e' => coincide (lower (default [] pregunta)) e' = false) pre)
  /\ (forall pregunta t,
        termino (detectar_intencion_pregunta pregunta) = Some t <->
        exists pre e post,
          patrones_temas = pre ++ e :: post /\ fst e = t
          /\ coincide (lower (default [] pregunta)) e = true
          /\ Forall (fun e' => coincide (lower (default [] pregunta)) e' = false) pre)
  /\ (forall q,
        contains (u "gaceta de Veracruz") q = true ->
        tipo (detectar_intencion_pregunta (Some q)) = u "normativo"
        /\ (Forall (fun e => coincide (lower q) e = false)
                   (take 2 tabla_jurisdicciones) ->
            jurisdiccion (detectar_intencion_pregunta (Some q)) = Some (u "VERACRUZ")))
  /\ (forall q,
        contains (u "impuestos") q = true ->
        Forall (fun e => coincide (lower q) e = false) tabla_jurisdicciones ->
        Forall (fun w => contains w (lower q) = false) palabras_normativo ->
        tipo (detectar_intencion_pregunta (Some q)) = u "noticias"
        /\ jurisdiccion (detectar_intencion_pregunta (Some q)) = None
        /\ (Forall (fun e => coincide (lower q) e = false) (take 3 patrones_temas) ->
            termino (detectar_intencion_pregunta (Some q)) = Some (u "impuesto")))
  /\ detectar_intencion_pregunta (Some (u "gaceta de Veracruz"))
     = mkIntencion (u "normativo") (Some (u "VERACRUZ")) None
  /\ detectar_intencion_pregunta (Some (u "impuestos"))
     = mkIntencion (u "noticias") None (Some (u "impuesto"))
  /\ detectar_intencion_pregunta (Some (u "reforma de impuestos"))
     = mkIntencion (u "normativo") None (Some (u "impuesto")).
Proof.
  split; [exact detectar_intencion_pregunta_classify|].
  split; [intros pregunta; rewrite detectar_intencion_pregunta_classify;
          apply tipo_classify|].
  split.
  { intros pregunta. rewrite detectar_intencion_pregunta_classify.
    unfold classify. cbv zeta. cbn [tipo].
    by destruct (_ || _). }
  split.
  { intros pregunta t. rewrite detectar_intencion_pregunta_classify.
    apply primera_coincidencia_Some. }
  split.
  { intros pregunta t. rewrite detectar_intencion_pregunta_classify.
    apply primera_coincidencia_Some. }
  split.
  { intros q Hq. apply contains_lower in Hq.
    assert (contains (u "veracruz") (lower q) = true) as Hv.
    { eapply contains_trans; [|exact Hq]. compute_done. }
    assert (contains (u "gaceta") (lower q) = true) as Hg.
    { eapply contains_trans; [|exact Hq]. compute_done. }
    rewrite detectar_intencion_pregunta_classify. split.
    - apply tipo_classify. left. exists (u "gaceta").
      split; [|exact Hg]. unfold palabras_normativo. set_solver.
    - intros Hpre. unfold classify. cbv zeta. cbn [jurisdiccion].
      change (default [] (Some q)) with q.
      apply primera_coincidencia_Some.
      exists (take 2 tabla_jurisdicciones), (u "VERACRUZ", [u "veracruz"]),
             [(u "CDMX", [u "cdmx"; u "ciudad de méxico"])].
      split; [reflexivity|]. split; [reflexivity|]. split; [|exact Hpre].
      unfold coincide. cbn [existsb snd]. by rewrite Hv. }
  split.
  { intros q Hq Hjur Hreg. apply contains_lower in Hq.
    assert (contains (u "impuesto") (lower q) = true) as Hi.
    { eapply contains_trans; [|exact Hq]. compute_done. }
    rewrite detectar_intencion_pregunta_classify.
    assert (primera_coincidencia tabla_jurisdicciones (lower q) = None) as Hnone
      by (by apply primera_coincidencia_None).
    assert (existsb (fun w => contains w (lower q)) palabras_normativo = false) as Hex.
    { destruct (existsb _ _) eqn:Hex; [|done].
      apply existsb_exists in Hex as (w & Hin & Hc).
      rewrite Forall_forall in Hreg.
      rewrite (Hreg w) in Hc; [done | by apply list_elem_of_In]. }
    unfold classify. cbv zeta. cbn [tipo jurisdiccion termino].
    change (default [] (Some q)) with q.
    rewrite Hnone, Hex. split; [reflexivity|]. split; [reflexivity|].
    intros Hpre. apply primera_coincidencia_Some.
    exists (take 3 patrones_temas),
           (u "impuesto", [u "impuesto"; u "impuestos"; u "tributario"; u "fiscal"]),
           (drop 4 patrones_temas).
    split; [reflexivity|]. split; [reflexivity|]. split; [|exact Hpre].
    unfold coincide. cbn [existsb snd]. by rewrite Hi. }
  repeat split; compute_done.
Qed.

Lemma detectar_intencion_pregunta_prioridad_witness :
  contains (u "gaceta de Veracruz") (u "Resume la gaceta de Veracruz de hoy") = true
  /\ tipo (detectar_intencion_pregunta
             (Some (u "Resume la gaceta de Veracruz de hoy"))) = u "normativo"
  /\ jurisdiccion (detectar_intencion_pregunta
                     (Some (u "Resume la gaceta de Veracruz de hoy")))
     = Some (u "VERACRUZ").
Proof.
  assert (contains (u "gaceta de Veracruz")
            (u "Resume la gaceta de Veracruz de hoy") = true) as Hq by compute_done.
  destruct (proj1 (proj2 (proj2 (proj2 (proj2 (proj2
              detectar_intencion_pregunta_prioridad)))))
              (u "Resume la gaceta de Veracruz de hoy") Hq) as [Ht Hj].
  split; [exact Hq|]. split; [exact Ht|].
  apply Hj. compute_done.
Defined.

(** C6, the counterexample: the two examples of the claim, as stated for
    every question that contains the words, fail by first match. The question
    [gaceta de Veracruz y Sonora] contains [gaceta de Veracruz] and its
    jurisdiction is SONORA, which comes before VERACRUZ in the table; the
    question [impuestos al gas] contains [impuestos], no jurisdiction keyword
    and no regulatory keyword, and its topic is [gas], which comes before
    [impuesto] in the table. *)
Lemma detectar_intencion_pregunta_contraejemplo :
  (contains (u "gaceta de Veracruz") (u "gaceta de Veracruz y Sonora") = true
   /\ detectar_intencion_pregunta (Some (u "gaceta de Veracruz y Sonora"))
      = mkIntencion (u "normativo") (Some (u "SONORA")) None)
  /\ (contains (u "impuestos") (u "impuestos al gas") = true
      /\ Forall (fun e => coincide (lower (u "impuestos al gas")) e = false)
                tabla_jurisdicciones
      /\ Forall (fun w => contains w (lower (u "impuestos al gas")) = false)
                palabras_normativo
      /\ detectar_intencion_pregunta (Some (u "impuestos al gas"))
         = mkIntencion (u "noticias") None (Some (u "gas")))
  /\ ~ (forall q,
          contains (u "gaceta de Veracruz") q = true ->
          detectar_intencion_pregunta (Some q)
          = mkIntencion (u "normativo") (Some (u "VERACRUZ"))
                        (termino (detectar_intencion_pregunta (Some q))))
  /\ ~ (forall q,
          contains (u "impuestos") q = true ->
          Forall (fun e => coincide (lower q) e = false) tabla_jurisdicciones ->
          Forall (fun w => contains w (lower q) = false) palabras_normativo ->
          detectar_intencion_pregunta (Some q)
          = mkIntencion (u "noticias") None (Some (u "impuesto"))).
Proof.
  assert (Forall (fun e => coincide (lower (u "impuestos al gas")) e = false)
                 tabla_jurisdicciones) as Hjur
    by (repeat constructor; compute_done).
  assert (Forall (fun w => contains w (lower (u "impuestos al gas")) = false)
                 palabras_normativo) as Hreg
    by (repeat constructor; compute_done).
  split; [split; compute_done|].
  split; [split; [compute_done|]; split; [exact Hjur|];
          split; [exact Hreg | compute_done]|].
  split.
  - intros Hall.
    specialize (Hall (u "gaceta de Veracruz y Sonora") ltac:(compute_done)).
    vm_compute in Hall. discriminate Hall.
  - intros Hall.
    specialize (Hall (u "impuestos al gas") ltac:(compute_done) Hjur Hreg).
    vm_compute in Hall. discriminate Hall.
Qed.

(** ** The dates of the news *)

Section NoticiasLemmas.
Context {CAL : Calendario}.

(** A date read day first from a stored value is listed. *)
Lemma fechas_noticias_lista (df : DataFrame) (row : Fila) (d : fecha) :
  "fecha"%string ∈ columns df -> row ∈ filas df ->
  to_datetime true (row_item row "fecha") = Some d ->
  exists l, fechas_noticias (Some df) = Fechas l /\ strftime_ymd d ∈ l.
Proof.
  intros Hcol Hrow Hd. unfold fechas_noticias.
  rewrite bool_decide_eq_true_2 by done. cbn [negb].
  set (fs := unique (omap _ (filas df))).
  assert (d ∈ fs) as Hin.
  { apply elem_of_unique, list_elem_of_omap. by exists row. }
  destruct fs as [|f0 fs'] eqn:Hfs; [by apply elem_of_nil in Hin|].
  eexists. split; [reflexivity|].
  change (map strftime_ymd ?l) with (strftime_ymd <$> l).
  apply list_elem_of_fmap. exists d. split; [done|].
  by rewrite elem_of_reverse, elem_of_sorted.
Qed.

(** The loader returns no row for a date that no stored value gives when
    read month first. *)
Lemma cargar_noticias_sin_filas (df : DataFrame) (fecha_str : pystr) (d : fecha) :
  (forall col, col ∈ columnas_noticias -> col ∈ columns df) ->
  strptime_ymd fecha_str = Some d ->
  Forall (fun row => to_datetime false (row_item row "fecha") <> Some d) (filas df) ->
  cargar_noticias_dap_por_fecha (Some df) fecha_str = Ok [].
Proof.
  intros Hcols Hd Hno. unfold cargar_noticias_dap_por_fecha.
  rewrite (proj2 (columna_faltante_None _ _) Hcols), Hd. f_equal.
  induction Hno as [|row rows Hrow _ IH]; [done|].
  cbn [List.filter]. by rewrite bool_decide_eq_false_2.
Qed.

End NoticiasLemmas.

(** C10: the listing of the news dates and the loader of the news read an
    ambiguous stored date in opposite ways. For the news file whose only
    stored date is [03/04/2026], the listing, which reads day first, names
    2026-04-03, and the loader, which reads month first, has no row for
    2026-04-03; the same holds for every stored date [DD/MM/2026] with
    distinct day and month up to 12. *)
Theorem fechas_noticias_desacuerdo :
  Fechas.pandas_to_datetime true (Str (u "03/04/2026")) = Some (mkFecha 2026 4 3)
  /\ Fechas.pandas_to_datetime false (Str (u "03/04/2026")) = Some (mkFecha 2026 3 4)
  /\ (exists (csv : option DataFrame) (f : pystr) (l : list pystr),
        csv = Some (Ejemplos.noticias_con_fecha (u "03/04/2026"))
        /\ fechas_noticias (CAL := Fechas.calendario_pandas) csv = Fechas l
        /\ f ∈ l
        /\ cargar_noticias_dap_por_fecha (CAL := Fechas.calendario_pandas) csv f
           = Ok [])
  /\ forallb (fun d =>
               forallb (fun m => (d =? m) || Ejemplos.fecha_listada_sin_filas d m)
                       Ejemplos.meses)
             Ejemplos.meses = true.
Proof.
  split; [compute_done|]. split; [compute_done|]. split.
  - exists (Some (Ejemplos.noticias_con_fecha (u "03/04/2026"))),
           (u "2026-04-03"), [u "2026-04-03"].
    split; [reflexivity|]. split; [compute_done|].
    split; [compute_done | compute_done].
  - vm_compute. reflexivity.
Qed.

(** ** The context of the news by topic *)

Section TemasLemmas.

Lemma fase_temas_preferidos (presentes L acc : list pystr) (S : gset pystr) :
  (forall x, x ∈ S <-> x ∈ acc) -> NoDup L -> (forall x, x ∈ L -> x ∉ acc) ->
  (fold_left (agregar_tema_preferido presentes) L (acc, S)).1
  = acc ++ filter (fun t => t ∈ presentes) L
  /\ forall x, x ∈ (fold_left (agregar_tema_preferido presentes) L (acc, S)).2
               <-> x ∈ (fold_left (agregar_tema_preferido presentes) L (acc, S)).1.
Proof.
  revert acc S. induction L as [|t L IH]; intros acc S HS Hnd Hfresh; simpl.
  - by rewrite app_nil_r.
  - apply NoDup_cons in Hnd as [HtL Hnd].
    assert (t ∉ S) as HtS.
    { rewrite HS. apply Hfresh. left. }
    unfold agregar_tema_preferido at 2 4 6. simpl.
    rewrite (bool_decide_eq_true_2 (t ∉ S)) by done. rewrite andb_true_r.
    rewrite filter_cons.
    destruct (decide (t ∈ presentes)) as [Hk|Hk].
    + rewrite bool_decide_eq_true_2 by done.
      destruct (IH (acc ++ [t]) (S ∪ {[t]})) as [IH1 IH2].
      * intros x. rewrite elem_of_union, elem_of_singleton, elem_of_app,
          list_elem_of_singleton, HS. done.
      * done.
      * intros x Hx. rewrite elem_of_app, list_elem_of_singleton.
        intros [Hxa| ->]; [|done]. apply (Hfresh x); [by right | done].
      * split; [|done]. rewrite IH1. by rewrite <- app_assoc.
    + rewrite bool_decide_eq_false_2 by done.
      apply IH; [done | done |]. intros x Hx. apply Hfresh. by right.
Qed.

Lemma fase_temas_extras (K acc : list pystr) (S : gset pystr) :
  (forall x, x ∈ S <-> x ∈ acc) -> NoDup K ->
  (fold_left agregar_tema_extra K (acc, S)).1 = acc ++ filter (fun k => k ∉ acc) K.
Proof.
  revert acc S. induction K as [|k K IH]; intros acc S HS Hnd; simpl.
  - by rewrite app_nil_r.
  - apply NoDup_cons in Hnd as [HkK Hnd].
    unfold agregar_tema_extra at 2. simpl.
    rewrite filter_cons.
    destruct (decide (k ∉ acc)) as [Hka|Hka].
    + rewrite bool_decide_eq_true_2 by (by rewrite HS).
      rewrite (IH (acc ++ [k]) (S ∪ {[k]})); [| | done].
      * rewrite <- app_assoc. simpl. do 2 f_equal.
        apply filter_ext_elem. intros x Hx.
        rewrite elem_of_app, list_elem_of_singleton.
        split; [tauto|]. intros Hxa [?| ->]; done.
      * intros x. rewrite elem_of_union, elem_of_singleton, elem_of_app,
          list_elem_of_singleton, HS. done.
    + rewrite bool_decide_eq_false_2 by (by rewrite HS).
      by apply IH.
Qed.

Lemma ORDEN_TEMATICO_NoDup : NoDup ORDEN_TEMATICO.
Proof. compute_done. Qed.

Lemma ordenar_temas_eq (presentes : list pystr) :
  NoDup presentes ->
  ordenar_temas presentes
  = filter (fun t => t ∈ presentes) ORDEN_TEMATICO
    ++ filter (fun t => t ∉ ORDEN_TEMATICO) presentes.
Proof.
  intros Hnd. unfold ordenar_temas.
  destruct (fase_temas_preferidos presentes ORDEN_TEMATICO [] ∅) as [H1 H2].
  { intros x. rewrite elem_of_nil. set_solver. }
  { apply ORDEN_TEMATICO_NoDup. }
  { intros x _. apply not_elem_of_nil. }
  destruct (fold_left (agregar_tema_preferido presentes) ORDEN_TEMATICO ([], ∅))
    as [acc S] eqn:Hfold.
  simpl in H1, H2. rewrite (fase_temas_extras _ acc S); [|done|done].
  rewrite H1. simpl. f_equal.
  apply filter_ext_elem. intros x Hx.
  rewrite list_elem_of_filter. tauto.
Qed.

Lemma ordenar_temas_Permutation (presentes : list pystr) :
  NoDup presentes ->
  NoDup (ordenar_temas presentes) /\ ordenar_temas presentes ≡ₚ presentes.
Proof.
  intros Hnd. rewrite (ordenar_temas_eq _ Hnd).
  assert (NoDup (filter (fun t => t ∈ presentes) ORDEN_TEMATICO
                 ++ filter (fun t => t ∉ ORDEN_TEMATICO) presentes)) as Hnd'.
  { apply NoDup_app. repeat split.
    - apply NoDup_filter, ORDEN_TEMATICO_NoDup.
    - intros x. rewrite !list_elem_of_filter. tauto.
    - by apply NoDup_filter. }
  split; [exact Hnd'|].
  apply NoDup_Permutation; [done|done|].
  intros t. rewrite elem_of_app, !list_elem_of_filter.
  destruct (decide (t ∈ ORDEN_TEMATICO)); tauto.
Qed.

Lemma elem_of_temas_presentes (noticias_dia : list Fila) (t : pystr) :
  t ∈ temas_presentes noticias_dia <->
  exists row, row ∈ noticias_dia /\ py_str (row_item row "termino") = t.
Proof.
  unfold temas_presentes. rewrite elem_of_unique.
  change (map ?f noticias_dia) with (f <$> noticias_dia).
  rewrite list_elem_of_fmap.
  split; intros (row & Ha & Hb); exists row; by split.
Qed.

Lemma length_df_head {A} (l : list A) (n : Z) :
  (0 <= n)%Z -> (length (df_head l n) <= Z.to_nat n)%nat.
Proof.
  intros Hn. unfold df_head. destruct (Z.leb_spec 0 n); [|lia].
  rewrite length_take. lia.
Qed.

Lemma df_head_sublist {A} (l : list A) (n : Z) : df_head l n `sublist_of` l.
Proof. unfold df_head. destruct (0 <=? n)%Z; apply sublist_take. Qed.

Lemma length_omap_le {A B} (f : A -> option B) (l : list A) :
  (length (omap f l) <= length l)%nat.
Proof.
  induction l as [|a l IH]; [done|]. rewrite omap_cons.
  destruct (f a); simpl; lia.
Qed.

End TemasLemmas.

(** The topics of the context of the news: for every frame of headlines, the
    topics are taken in the order of [ORDEN_TEMATICO] for those that occur in
    the frame, then the other topics of the frame in order of first
    appearance; each topic of the frame is taken exactly once. *)
Theorem ordenar_temas_presentes (noticias_dia : list Fila) :
  ordenar_temas (temas_presentes noticias_dia)
  = filter (fun t => t ∈ temas_presentes noticias_dia) ORDEN_TEMATICO
    ++ filter (fun t => t ∉ ORDEN_TEMATICO) (temas_presentes noticias_dia)
  /\ NoDup (ordenar_temas (temas_presentes noticias_dia))
  /\ forall t, t ∈ ordenar_temas (temas_presentes noticias_dia) <->
               exists row, row ∈ noticias_dia /\ py_str (row_item row "termino") = t.
Proof.
  assert (NoDup (temas_presentes noticias_dia)) as Hnd by apply unique_NoDup.
  pose proof (ordenar_temas_eq _ Hnd) as Heq.
  destruct (ordenar_temas_Permutation _ Hnd) as [Hnd' Hperm].
  split; [exact Heq|]. split; [exact Hnd'|].
  intros t. by rewrite <- elem_of_temas_presentes, Hperm.
Qed.

(** The entries of the context of the news, the texts that the source
    appends to [lineas] and joins with line feeds: a topic gives at most ten
    entries, so there are at most ten entries per topic of the frame; each
    entry is the topic, lowered and with underscores for spaces, then [ :: ],
    then the stripped text of [str] of the headline of a row of that topic,
    which is not empty (an empty headline field reads as the text [nan], and
    a headline that holds a line feed gives an entry of more than one line);
    and the context of an empty frame is the empty text. *)
Theorem lineas_por_tema_acotadas (noticias_dia : list Fila) :
  (forall tema, (length (lineas_de_tema noticias_dia tema) <= 10)%nat)
  /\ (length (lineas_por_tema noticias_dia)
      <= 10 * length (temas_presentes noticias_dia))%nat
  /\ (forall linea, linea ∈ lineas_por_tema noticias_dia ->
        exists row,
          row ∈ noticias_dia
          /\ strip (py_str (row_item row "titular")) <> []
          /\ linea = lower (replace_espacios (py_str (row_item row "termino")))
                     ++ u " :: " ++ strip (py_str (row_item row "titular")))
  /\ construir_contexto_por_tema [] = [].
Proof.
  assert (forall tema, (length (lineas_de_tema noticias_dia tema) <= 10)%nat) as Hcap.
  { intros tema. unfold lineas_de_tema.
    etransitivity; [apply length_omap_le|].
    etransitivity; [apply length_df_head; lia|]. done. }
  split; [exact Hcap|]. split; [|split; [|done]].
  - unfold lineas_por_tema.
    assert (length (ordenar_temas (temas_presentes noticias_dia))
            = length (temas_presentes noticias_dia)) as <-.
    { apply Permutation_length, ordenar_temas_Permutation, unique_NoDup. }
    induction (ordenar_temas _) as [|t ts IH]; [simpl; lia|].
    change (concat (map (lineas_de_tema noticias_dia) (t :: ts)))
      with (lineas_de_tema noticias_dia t
            ++ concat (map (lineas_de_tema noticias_dia) ts)).
    rewrite length_app, length_cons. specialize (Hcap t). lia.
  - intros linea Hl. unfold lineas_por_tema in Hl.
    apply list_elem_of_In, in_concat in Hl as (ls & Hls & Hl).
    apply in_map_iff in Hls as (tema & <- & _).
    apply list_elem_of_In in Hl. unfold lineas_de_tema in Hl.
    apply list_elem_of_omap in Hl as (row & Hrow & Hsome).
    assert (row ∈ List.filter
              (fun row => eqb (py_str (row_item row "termino")) tema) noticias_dia)
      as Hrow'.
    { eapply elem_of_sublist; [exact Hrow | apply df_head_sublist]. }
    apply list_elem_of_In, List.filter_In in Hrow' as [Hin Heq].
    apply bool_decide_eq_true in Heq. exists row.
    destruct (truthy (strip (py_str (row_item row "titular")))) eqn:Ht; [|done].
    injection Hsome as <-. split; [by apply list_elem_of_In|].
    split; [by apply truthy_true | by rewrite Heq].
Qed.

(** ** The daily summary *)

Section GenerarLemmas.
Context {FS : SistemaArchivos} {LLM : ModeloLenguaje} {CFG : Config} {CAL : Calendario}.

Ltac casos_comparaciones :=
  repeat match goal with
         | |- context [?a <=? ?b] => destruct (N.leb_spec a b)
         | |- context [?a =? ?b] => destruct (N.eqb_spec a b)
         end.

Lemma upper_char_casos (c : N) :
  upper_char c = c
  \/ (upper_char c = c - 32 /\ (97 <= c <= 122 \/ 224 <= c <= 254)).
Proof. unfold upper_char. casos_comparaciones; simpl; lia. Qed.

Lemma upper_char_idem (c : N) : upper_char (upper_char c) = upper_char c.
Proof.
  destruct (upper_char_casos c) as [Hu|[Hu Hc]]; rewrite Hu; [exact Hu|].
  unfold upper_char. casos_comparaciones; simpl; lia.
Qed.

Lemma upper_idem (s : pystr) : upper (upper s) = upper s.
Proof.
  unfold upper. rewrite map_map. apply map_ext. intros c. apply upper_char_idem.
Qed.



Lemma dict_get_is_Some {V} (d : list (pystr * V)) (k : pystr) :
  is_Some (dict_get d k) <-> k ∈ dict_keys d.
Proof.
  unfold dict_get, dict_keys. induction d as [|[k0 v] d IH]; simpl.
  - split; [by intros [? ?] | by intros ?%elem_of_nil].
  - unfold eqb. simpl. case_bool_decide as Hk; simpl.
    + subst. split; [intros _; left | by eauto].
    + rewrite IH, elem_of_cons. split; [by right | intros [?|?]; congruence].
Qed.

Lemma dict_get_None {V} (d : list (pystr * V)) (k : pystr) :
  dict_get d k = None <-> k ∉ dict_keys d.
Proof.
  rewrite <- dict_get_is_Some. destruct (dict_get d k) as [v|].
  - split; [done|]. intros Hn. destruct Hn. by exists v.
  - split; [|done]. intros _ [v Hv]. done.
Qed.

Lemma fold_preferida_Forall (P : pystr -> Prop) (ctx : list (pystr * pystr))
    (L acc : list pystr) (S : gset pystr) :
  Forall P acc -> (forall j, j ∈ L -> j ∈ dict_keys ctx -> P j) ->
  Forall P (fold_left (agregar_preferida ctx) L (acc, S)).1.
Proof.
  revert acc S. induction L as [|j L IH]; intros acc S Hacc HL; simpl; [done|].
  unfold agregar_preferida at 2. simpl.
  destruct (bool_decide (j ∈ dict_keys ctx)) eqn:Hj; simpl.
  - destruct (bool_decide (j ∉ S)); simpl.
    + apply IH.
      * apply Forall_app. split; [done|]. constructor; [|done].
        apply HL; [left | by apply bool_decide_eq_true in Hj].
      * intros j' Hj'. apply HL. by right.
    + apply IH; [done|]. intros j' Hj'. apply HL. by right.
  - apply IH; [done|]. intros j' Hj'. apply HL. by right.
Qed.

Lemma fold_extra_Forall (P : pystr -> Prop) (K acc : list pystr) (S : gset pystr) :
  Forall P acc -> (forall k, k ∈ K -> P (upper k)) ->
  Forall P (fold_left agregar_extra K (acc, S)).1.
Proof.
  revert acc S. induction K as [|k K IH]; intros acc S Hacc HK; simpl; [done|].
  unfold agregar_extra at 2. simpl.
  destruct (bool_decide (upper k ∉ S)); simpl.
  - apply IH.
    + apply Forall_app. split; [done|]. constructor; [|done]. apply HK. left.
    + intros k' Hk'. apply HK. by right.
  - apply IH; [done|]. intros k' Hk'. apply HK. by right.
Qed.

(** A name in the order of processing is a preferred name that is a key, or
    the upper-case form of a key. *)
Lemma ordenar_jurisdicciones_elem (ctx : list (pystr * pystr)) :
  Forall (fun x => (x ∈ ORDEN_JURISDICCIONES /\ x ∈ dict_keys ctx)
                   \/ exists k, k ∈ dict_keys ctx /\ x = upper k)
         (ordenar_jurisdicciones ctx).
Proof.
  unfold ordenar_jurisdicciones.
  destruct (fold_left (agregar_preferida ctx) ORDEN_JURISDICCIONES ([], ∅))
    as [acc S] eqn:Hfold.
  apply fold_extra_Forall.
  - replace acc with (fold_left (agregar_preferida ctx) ORDEN_JURISDICCIONES ([], ∅)).1
      by (by rewrite Hfold).
    apply fold_preferida_Forall; [constructor|]. intros j Hj Hk. by left.
  - intros k Hk. right. by exists k.
Qed.

Lemma resumir_jurisdicciones_sin_contexto (ctx : list (pystr * pystr))
    (fecha_str : pystr) (js : list pystr) :
  Forall (fun j => dict_get ctx j = None) js ->
  resumir_jurisdicciones ctx fecha_str js = Ok [].
Proof.
  induction 1 as [|j js Hj _ IH]; simpl; [done|]. by rewrite Hj.
Qed.

End GenerarLemmas.

Section GenerarTeoremas.
Context {FS : SistemaArchivos} {LLM : ModeloLenguaje} {CFG : Config} {CAL : Calendario}.

(** The consolidated summary of jurisdictions stored in lower case: when the
    records of the date give a context and no jurisdiction of the context is
    its own upper-case form, no jurisdiction is summarised: the answer is the
    error "No se generó contenido normativo relevante para esa fecha" with an
    empty summary, whatever the language model would answer. *)
Theorem generar_resumen_diarios_sin_mayusculas
    (csv : option DataFrame) (fecha_str : pystr)
    (df_dia : list Fila) (ctx : list (pystr * pystr)) :
  cargar_diarios_por_fecha csv fecha_str = Ok df_dia -> df_dia <> [] ->
  construir_contexto_diarios_por_jurisdiccion df_dia = Ok ctx -> ctx <> [] ->
  Forall (fun k => upper k <> k) (dict_keys ctx) ->
  generar_resumen_diarios csv fecha_str None
  = Ok (mkRespuesta fecha_str []
          (Some (u "No se generó contenido normativo relevante para esa fecha"))).
Proof.
  intros Hcargar Hdf Hctx Hne Hlow.
  assert (resumir_jurisdicciones ctx fecha_str (ordenar_jurisdicciones ctx) = Ok [])
    as Hres.
  { apply resumir_jurisdicciones_sin_contexto.
    eapply Forall_impl; [apply ordenar_jurisdicciones_elem|].
    rewrite Forall_forall in Hlow.
    intros x [[Hx Hk]|(k & Hk & ->)]; apply dict_get_None.
    - intros _. apply (Hlow x Hk).
      clear -Hx. unfold ORDEN_JURISDICCIONES in Hx.
      repeat (apply elem_of_cons in Hx as [->|Hx]; [reflexivity|]).
      by apply elem_of_nil in Hx.
    - intros Hin. apply (Hlow _ Hin). apply upper_idem. }
  unfold generar_resumen_diarios. rewrite Hcargar.
  unfold mbind at 1, res_bind.
  destruct df_dia as [|row rows]; [destruct Hdf; reflexivity|]. rewrite Hctx.
  unfold mbind at 1, res_bind.
  destruct ctx as [|kv ctx']; [destruct Hne; reflexivity|].
  cbv zeta. rewrite Hres. reflexivity.
Qed.

Lemma generar_resumen_diarios_forma
    (csv : option DataFrame) (fecha_str : pystr) (filtro : option pystr)
    (r : respuesta) :
  generar_resumen_diarios csv fecha_str filtro = Ok r ->
  r_fecha r = fecha_str
  /\ ((r_error r = None /\ r_resumen r <> [])
      \/ (exists e, r_error r = Some e /\ e <> [] /\ r_resumen r = [])).
Proof.
  intros Hgen. unfold generar_resumen_diarios in Hgen.
  destruct (cargar_diarios_por_fecha csv fecha_str) as [df|e] eqn:Hc;
    [|discriminate Hgen].
  unfold mbind at 1, res_bind in Hgen.
  assert (forall msg : pystr, truthy msg = true ->
            Ok (mkRespuesta fecha_str [] (Some msg)) = Ok r ->
            r_fecha r = fecha_str
            /\ ((r_error r = None /\ r_resumen r <> [])
                \/ (exists e, r_error r = Some e /\ e <> [] /\ r_resumen r = [])))
    as Herr.
  { intros msg Hmsg [= <-]. split; [reflexivity|]. right. exists msg.
    split; [reflexivity|]. split; [by apply truthy_true | reflexivity]. }
  destruct df as [|row rows]; [eapply Herr; [|exact Hgen]; reflexivity|].
  destruct (construir_contexto_diarios_por_jurisdiccion (row :: rows))
    as [ctx|e] eqn:Hctx; [|discriminate Hgen].
  unfold mbind at 1, res_bind in Hgen.
  destruct ctx as [|kv ctx']; [eapply Herr; [|exact Hgen]; reflexivity|].
  cbv zeta in Hgen.
  match type of Hgen with
  | match ?sel with inl _ => _ | inr _ => _ end = _ => destruct sel as [f|js]
  end.
  { eapply Herr; [|exact Hgen]; reflexivity. }
  destruct (resumir_jurisdicciones (kv :: ctx') fecha_str js) as [lineas|e];
    [|discriminate Hgen].
  unfold mbind at 1, res_bind in Hgen.
  destruct (truthy (strip (join [10] lineas))) eqn:Ht; cbn [negb] in Hgen.
  - injection Hgen as <-. split; [reflexivity|]. left.
    split; [reflexivity|]. by apply truthy_true.
  - eapply Herr; [|exact Hgen]; reflexivity.
Qed.

(** The shape of the answer of the daily summary: whenever the generator
    returns, the answer carries the query date and either a non-empty summary
    and no error, or an empty summary and a non-empty error message. *)
Theorem generar_resumen_diarios_resultado
    (csv : option DataFrame) (fecha_str : pystr) (filtro : option pystr)
    (r : respuesta) :
  generar_resumen_diarios csv fecha_str filtro = Ok r ->
  r_fecha r = fecha_str
  /\ ((r_error r = None /\ r_resumen r <> [])
      \/ (exists e, r_error r = Some e /\ e <> [] /\ r_resumen r = [])).
Proof. apply generar_resumen_diarios_forma. Qed.


End GenerarTeoremas.

Section GenerarEjemplos.
Import Ejemplos EjemplosExtra.

Lemma generar_resumen_diarios_sin_mayusculas_witness :
  generar_resumen_diarios (FS := fs_resumenes_cortos) (LLM := llm)
    (CFG := config_por_defecto) (CAL := Fechas.calendario_pandas)
    (Some indice_minusculas) (u "2026-01-30") None
  = Ok (mkRespuesta (u "2026-01-30") []
          (Some (u "No se generó contenido normativo relevante para esa fecha"))).
Proof.
  apply (generar_resumen_diarios_sin_mayusculas
           (FS := fs_resumenes_cortos) (LLM := llm)
           (CFG := config_por_defecto) (CAL := Fechas.calendario_pandas)
           (Some indice_minusculas) (u "2026-01-30")
           (filas indice_minusculas)
           [(u "dof", u "- Se reforma X"); (u "veracruz", u "- Se reforma X")]);
    compute_done.
Defined.

Lemma generar_resumen_diarios_resultado_witness :
  generar_resumen_diarios (FS := fs_resumenes_cortos) (LLM := llm)
    (CFG := config_por_defecto) (CAL := Fechas.calendario_pandas)
    (Some indice_3_procesado) (u "2026-01-30") None
  = Ok (mkRespuesta (u "2026-01-30") resumen_de_indice_3 None)
  /\ resumen_de_indice_3 <> [].
Proof.
  assert (generar_resumen_diarios (FS := fs_resumenes_cortos) (LLM := llm)
            (CFG := config_por_defecto) (CAL := Fechas.calendario_pandas)
            (Some indice_3_procesado) (u "2026-01-30") None
          = Ok (mkRespuesta (u "2026-01-30") resumen_de_indice_3 None)) as Hrun
    by compute_done.
  split; [exact Hrun|].
  destruct (generar_resumen_diarios_resultado _ _ _ _ Hrun)
    as [_ [[_ Hne]|(e & He & _)]]; [exact Hne | discriminate He].
Defined.


End GenerarEjemplos.

(** ** Orders *)

Section OrdenesLemmas.

Lemma fecha_leb_total (a b : fecha) : fecha_leb a b = true \/ fecha_leb b a = true.
Proof.
  unfold fecha_leb. destruct a as [y1 m1 d1], b as [y2 m2 d2]; simpl.
  rewrite !orb_true_iff, !andb_true_iff, !orb_true_iff, !andb_true_iff,
    !N.ltb_lt, !N.eqb_eq, !N.leb_le.
  lia.
Qed.

Lemma fecha_leb_trans (a b c : fecha) :
  fecha_leb a b = true -> fecha_leb b c = true -> fecha_leb a c = true.
Proof.
  unfold fecha_leb.
  destruct a as [y1 m1 d1], b as [y2 m2 d2], c as [y3 m3 d3]; simpl.
  rewrite !orb_true_iff, !andb_true_iff, !orb_true_iff, !andb_true_iff,
    !N.ltb_lt, !N.eqb_eq, !N.leb_le.
  lia.
Qed.

Lemma fecha_leb_antisym (a b : fecha) :
  fecha_leb a b = true -> fecha_leb b a = true -> a = b.
Proof.
  unfold fecha_leb. destruct a as [y1 m1 d1], b as [y2 m2 d2]; simpl.
  rewrite !orb_true_iff, !andb_true_iff, !orb_true_iff, !andb_true_iff,
    !N.ltb_lt, !N.eqb_eq, !N.leb_le.
  intros H1 H2. assert (y1 = y2 /\ m1 = m2 /\ d1 = d2) as (-> & -> & ->) by lia.
  reflexivity.
Qed.

Lemma ltb_irrefl (a : pystr) : ltb a a = false.
Proof.
  induction a as [|x a IH]; simpl; [done|].
  by rewrite N.ltb_irrefl, N.eqb_refl, IH.
Qed.

Lemma ltb_asym (a b : pystr) : ltb a b = true -> ltb b a = false.
Proof.
  revert b. induction a as [|x a IH]; intros [|y b]; simpl; try done.
  rewrite orb_true_iff, andb_true_iff, N.ltb_lt, N.eqb_eq.
  intros [Hlt|[-> Hab]].
  - rewrite (proj2 (N.ltb_ge y x)) by lia.
    rewrite (proj2 (N.eqb_neq y x)) by lia. done.
  - by rewrite N.ltb_irrefl, N.eqb_refl, (IH _ Hab).
Qed.

Lemma ltb_trans (a b c : pystr) :
  ltb a b = true -> ltb b c = true -> ltb a c = true.
Proof.
  revert b c. induction a as [|x a IH]; intros [|y b] [|z c]; simpl; try done.
  rewrite !orb_true_iff, !andb_true_iff, !N.ltb_lt, !N.eqb_eq.
  intros [Hxy|[-> Hab]] [Hyz|[-> Hbc]].
  - left. lia.
  - by left.
  - by left.
  - right. split; [done|]. by eapply IH.
Qed.

Lemma ltb_total (a b : pystr) : ltb a b = true \/ a = b \/ ltb b a = true.
Proof.
  revert b. induction a as [|x a IH]; intros [|y b]; simpl; auto.
  destruct (N.lt_trichotomy x y) as [Hlt|[->|Hgt]].
  - left. by rewrite (proj2 (N.ltb_lt x y)).
  - rewrite N.ltb_irrefl, N.eqb_refl. simpl.
    destruct (IH b) as [?|[->|?]]; auto.
  - right. right. by rewrite (proj2 (N.ltb_lt y x)).
Qed.

Lemma leb_total (a b : pystr) : leb a b = true \/ leb b a = true.
Proof.
  unfold leb. destruct (ltb_total a b) as [H|[->|H]].
  - left. by rewrite (ltb_asym _ _ H).
  - left. by rewrite ltb_irrefl.
  - right. by rewrite (ltb_asym _ _ H).
Qed.

Lemma leb_trans (a b c : pystr) :
  leb a b = true -> leb b c = true -> leb a c = true.
Proof.
  unfold leb. rewrite !negb_true_iff. intros Hba Hcb.
  destruct (ltb c a) eqn:Hca; [|done].
  destruct (ltb_total a b) as [H|[->|H]]; [| congruence | congruence].
  pose proof (ltb_trans _ _ _ Hca H). congruence.
Qed.

Lemma leb_antisym (a b : pystr) : leb a b = true -> leb b a = true -> a = b.
Proof.
  unfold leb. rewrite !negb_true_iff. intros Hba Hab.
  destruct (ltb_total a b) as [H|[->|H]]; congruence.
Qed.

Lemma sorted_StronglySorted {A} (le : A -> A -> bool) (l : list A) :
  (forall a b, le a b = true \/ le b a = true) ->
  (forall a b c, le a b = true -> le b c = true -> le a c = true) ->
  StronglySorted (fun a b => le a b = true) (sorted le l).
Proof.
  intros Htot Htrans. unfold sorted.
  apply (@StronglySorted_merge_sort A (fun a b => le a b = true)
           (fun a b => decide (le a b = true)) Htrans Htot).
Qed.

Lemma StronglySorted_reverse_flip {A} (R : relation A) (l : list A) :
  StronglySorted R l -> StronglySorted (flip R) (reverse l).
Proof.
  induction 1 as [|x l Hl IH Hx]; [constructor|].
  rewrite reverse_cons. apply StronglySorted_app. split; [|split].
  - intros a b Ha Hb. apply list_elem_of_singleton in Hb as ->.
    rewrite elem_of_reverse in Ha. rewrite Forall_forall in Hx.
    unfold flip. apply Hx. exact Ha.
  - exact IH.
  - repeat constructor.
Qed.

Lemma max_fecha_spec (primera : fecha) (resto : list fecha) :
  max_fecha primera resto ∈ primera :: resto
  /\ forall d, d ∈ primera :: resto -> fecha_leb d (max_fecha primera resto) = true.
Proof.
  unfold max_fecha. revert primera.
  induction resto as [|x resto IH]; intros primera; simpl.
  - split; [left|]. intros d Hd. apply list_elem_of_singleton in Hd as ->.
    destruct (fecha_leb_total primera primera); done.
  - destruct (fecha_leb x primera) eqn:Hx.
    + destruct (IH primera) as [Hin Hmax]. split.
      * apply elem_of_cons in Hin as [Hin|Hin]; [rewrite Hin; left|].
        right. by right.
      * intros d Hd. apply elem_of_cons in Hd as [->|Hd]; [apply Hmax; left|].
        apply elem_of_cons in Hd as [->|Hd].
        -- eapply fecha_leb_trans; [exact Hx|]. apply Hmax. left.
        -- apply Hmax. by right.
    + destruct (IH x) as [Hin Hmax]. split.
      * by right.
      * intros d Hd. apply elem_of_cons in Hd as [->|Hd].
        -- eapply fecha_leb_trans; [|apply Hmax; left].
           destruct (fecha_leb_total primera x); congruence.
        -- by apply Hmax.
Qed.

End OrdenesLemmas.

(** ** The dates of the news, continued *)

Section FechasTeoremas.
Context {CAL : Calendario}.

(** The listing of the news dates. Without the news file the endpoint
    answers 500. For a file that [pd.read_csv] reads into the frame [df] (a
    file that cannot be read is answered 500 by the handler of the source and
    is no part of this statement), the endpoint answers 500 when the column
    [fecha] is missing, and otherwise lists the dates that some stored value
    gives when read day first, each once, from the latest to the earliest. *)
Theorem fechas_noticias_ordenadas (df : DataFrame) :
  fechas_noticias None = ErrorHTTP 500
  /\ (("fecha"%string ∉ columns df) -> fechas_noticias (Some df) = ErrorHTTP 500)
  /\ ("fecha"%string ∈ columns df ->
      exists ds,
        fechas_noticias (Some df) = Fechas (map strftime_ymd ds)
        /\ NoDup ds
        /\ StronglySorted (fun a b => fecha_leb b a = true) ds
        /\ forall d, d ∈ ds <->
                     exists row, row ∈ filas df
                       /\ to_datetime true (row_item row "fecha") = Some d).
Proof.
  split; [reflexivity|]. split.
  { intros Hcol. unfold fechas_noticias.
    by rewrite bool_decide_eq_false_2. }
  intros Hcol. unfold fechas_noticias.
  rewrite bool_decide_eq_true_2 by exact Hcol. cbn [negb].
  set (fs := unique (omap (fun row => to_datetime true (row_item row "fecha"))
                          (filas df))).
  assert (NoDup fs) as Hnd by apply unique_NoDup.
  assert (forall d, d ∈ fs <->
            exists row, row ∈ filas df
              /\ to_datetime true (row_item row "fecha") = Some d) as Hin.
  { intros d. unfold fs. by rewrite elem_of_unique, list_elem_of_omap. }
  destruct fs as [|f0 fs'] eqn:Hfs.
  - exists []. split; [reflexivity|]. split; [constructor|].
    split; [constructor | exact Hin].
  - rewrite <- Hfs in *. clear Hfs.
    exists (reverse (sorted fecha_leb fs)).
    split; [reflexivity|]. split; [|split].
    + by rewrite reverse_Permutation, (sorted_Permutation fecha_leb).
    + apply (StronglySorted_reverse_flip (fun a b => fecha_leb a b = true)).
      apply sorted_StronglySorted; [apply fecha_leb_total | apply fecha_leb_trans].
    + intros d. by rewrite elem_of_reverse, elem_of_sorted.
Qed.

(** The rows of the latest date: what [obtener_ultima_fecha_noticias]
    returns is the greatest stored date, and the loader has rows for it. *)
Lemma ultima_fecha_noticias_filas (df : DataFrame) (f : pystr) :
  (forall col, col ∈ columnas_noticias -> col ∈ columns df) ->
  Forall (fun row => forall d,
            to_datetime false (row_item row "fecha") = Some d ->
            strptime_ymd (strftime_ymd d) = Some d) (filas df) ->
  obtener_ultima_fecha_noticias (Some df) = Some f ->
  exists d rows,
    f = strftime_ymd d
    /\ (forall row d', row ∈ filas df ->
          to_datetime false (row_item row "fecha") = Some d' ->
          fecha_leb d' d = true)
    /\ cargar_noticias_dap_por_fecha (Some df) f = Ok rows
    /\ rows <> []
    /\ Forall (fun row => to_datetime false (row_item row "fecha") = Some d) rows.
Proof.
  intros Hcols Hround Hult. unfold obtener_ultima_fecha_noticias in Hult.
  rewrite bool_decide_eq_true_2 in Hult
    by (apply Hcols; unfold columnas_noticias; left).
  cbn [negb] in Hult.
  set (fs := unique (omap (fun row => to_datetime false (row_item row "fecha"))
                          (filas df))) in *.
  assert (forall d, d ∈ fs <->
            exists row, row ∈ filas df
              /\ to_datetime false (row_item row "fecha") = Some d) as Hin.
  { intros d. unfold fs. by rewrite elem_of_unique, list_elem_of_omap. }
  destruct fs as [|primera resto] eqn:Hfs; [discriminate Hult|].
  injection Hult as <-.
  destruct (max_fecha_spec primera resto) as [Hmem Hmax].
  set (d := max_fecha primera resto) in *.
  apply Hin in Hmem as (row0 & Hrow0 & Hd0).
  assert (strptime_ymd (strftime_ymd d) = Some d) as Hrt.
  { rewrite Forall_forall in Hround. by apply (Hround row0). }
  exists d. eexists. split; [reflexivity|]. split.
  { intros row d' Hrow Hd'. apply Hmax, Hin. by exists row. }
  unfold cargar_noticias_dap_por_fecha.
  rewrite (proj2 (columna_faltante_None _ _) Hcols), Hrt.
  split; [reflexivity|]. split.
  - intros Hnil.
    assert (row0 ∈ List.filter
              (fun row => bool_decide
                            (to_datetime false (row_item row "fecha") = Some d))
              (filas df)) as Hin0.
    { apply list_elem_of_In, List.filter_In. split; [by apply list_elem_of_In|].
      by apply bool_decide_eq_true. }
    rewrite Hnil in Hin0. by apply elem_of_nil in Hin0.
  - apply Forall_forall. intros row Hrow.
    apply list_elem_of_In, List.filter_In in Hrow as [_ Hrow].
    by apply bool_decide_eq_true in Hrow.
Qed.

(** The latest date of the news can be loaded: when the news file has its
    five columns and the formatted form of each stored date parses back to
    it, the date that [obtener_ultima_fecha_noticias] returns is the greatest
    date that a stored value gives when read month first, and the loader
    returns at least one row for it, all of that date. *)
Theorem obtener_ultima_fecha_noticias_cargable (df : DataFrame) (f : pystr) :
  (forall col, col ∈ columnas_noticias -> col ∈ columns df) ->
  Forall (fun row => forall d,
            to_datetime false (row_item row "fecha") = Some d ->
            strptime_ymd (strftime_ymd d) = Some d) (filas df) ->
  obtener_ultima_fecha_noticias (Some df) = Some f ->
  exists d rows,
    f = strftime_ymd d
    /\ (forall row d', row ∈ filas df ->
          to_datetime false (row_item row "fecha") = Some d' ->
          fecha_leb d' d = true)
    /\ cargar_noticias_dap_por_fecha (Some df) f = Ok rows
    /\ rows <> []
    /\ Forall (fun row => to_datetime false (row_item row "fecha") = Some d) rows.
Proof. exact (ultima_fecha_noticias_filas df f). Qed.

End FechasTeoremas.

Section FechasEjemplos.
Import EjemplosExtra.

Lemma obtener_ultima_fecha_noticias_cargable_witness :
  obtener_ultima_fecha_noticias (CAL := Fechas.calendario_pandas)
    (Some noticias_dos_fechas) = Some (u "2026-02-01")
  /\ exists rows,
       cargar_noticias_dap_por_fecha (CAL := Fechas.calendario_pandas)
         (Some noticias_dos_fechas) (u "2026-02-01") = Ok rows
       /\ rows <> [].
Proof.
  assert (obtener_ultima_fecha_noticias (CAL := Fechas.calendario_pandas)
            (Some noticias_dos_fechas) = Some (u "2026-02-01")) as Hult
    by compute_done.
  split; [exact Hult|].
  destruct (obtener_ultima_fecha_noticias_cargable
              (CAL := Fechas.calendario_pandas) noticias_dos_fechas
              (u "2026-02-01")) as (d & rows & _ & _ & Hrows & Hne & _).
  - intros col Hcol. vm_compute in Hcol. vm_compute.
    repeat (apply elem_of_cons in Hcol as [->|Hcol]; [set_solver|]).
    by apply elem_of_nil in Hcol.
  - repeat constructor; intros d Hd; vm_compute in Hd;
      injection Hd as <-; vm_compute; reflexivity.
  - exact Hult.
  - by exists rows.
Defined.

End FechasEjemplos.

(** ** Endpoints over the index *)

Section EndpointsTeoremas.
Context {FS : SistemaArchivos} {LLM : ModeloLenguaje} {CFG : Config}
        {CAL : Calendario}.

(** The jurisdictions of a date: when the endpoint lists jurisdictions, the
    list holds the upper-case form of the jurisdiction of each loaded record,
    each once and in increasing order; the status is 404 for a date without
    records and 200 otherwise; every other answer has status 400 or 500. *)
Theorem jurisdicciones_disponibles_ordenadas
    (csv : option DataFrame) (fecha : option pystr) :
  match jurisdicciones_disponibles csv fecha with
  | (CuerpoJurisdicciones f js, codigo) =>
    exists df_dia,
      fecha = Some f
      /\ cargar_diarios_por_fecha csv f = Ok df_dia
      /\ ((codigo = 404 /\ df_dia = [] /\ js = [])
          \/ (codigo = 200 /\ df_dia <> [] /\ js <> []))
      /\ NoDup js
      /\ StronglySorted (fun a b => leb a b = true) js
      /\ Forall (fun j => upper j = j) js
      /\ forall j, j ∈ js <->
                   exists row, row ∈ df_dia
                     /\ upper (py_str (row_item row "jurisdiccion")) = j
  | (_, codigo) => codigo = 400 \/ codigo = 500
  end.
Proof.
  unfold jurisdicciones_disponibles.
  destruct fecha as [fecha_str|]; [|by left].
  destruct (truthy fecha_str); cbn [negb]; [|by left].
  destruct (cargar_diarios_por_fecha csv fecha_str) as [df_dia|e] eqn:Hc.
  - destruct df_dia as [|row rows] eqn:Hdf.
    + exists []. split; [done|]. split; [done|].
      split; [left; by repeat split|].
      split; [constructor|]. split; [constructor|]. split; [constructor|].
      intros j. split.
      * by intros ?%elem_of_nil.
      * intros (row & Hrow & _). by apply elem_of_nil in Hrow.
    + rewrite <- Hdf in *.
      set (js := sorted leb
                   (unique (map (fun row => upper (py_str (row_item row "jurisdiccion")))
                                df_dia))).
      assert (forall j, j ∈ js <->
                exists row, row ∈ df_dia
                  /\ upper (py_str (row_item row "jurisdiccion")) = j) as Hin.
      { intros j. unfold js. rewrite elem_of_sorted, elem_of_unique.
        change (map ?g df_dia) with (g <$> df_dia). rewrite list_elem_of_fmap.
        split; intros (r & Ha & Hb); exists r; by split. }
      exists df_dia. split; [done|]. split; [done|]. split.
      { right. split; [done|]. split; [by rewrite Hdf|].
        intros Hjs.
        assert (upper (py_str (row_item row "jurisdiccion")) ∈ js) as Hrow.
        { apply Hin. exists row. split; [rewrite Hdf; left | done]. }
        rewrite Hjs in Hrow. by apply elem_of_nil in Hrow. }
      split; [|split; [|split; [|exact Hin]]].
      * unfold js. rewrite (sorted_Permutation leb). apply unique_NoDup.
      * apply sorted_StronglySorted; [apply leb_total | apply leb_trans].
      * apply Forall_forall. intros j Hj. apply Hin in Hj as (r & _ & <-).
        apply upper_idem.
  - destruct e; by auto.
Qed.

(** The status of the daily-summary endpoint: 400 without a date, 500
    without the index file, 400 for a missing column and for a malformed
    date; a status 200 carries a non-empty summary and no error, and a status
    404 carries an empty summary and a non-empty error message. *)
Theorem resumen_diarios_codigos
    (csv : option DataFrame) (fecha jurisdiccion : option pystr) :
  (fecha = None \/ fecha = Some [] ->
   resumen_diarios csv fecha jurisdiccion = (CuerpoFaltaFecha, 400))
  /\ (forall f, fecha = Some f -> f <> [] ->
        (csv = None ->
         resumen_diarios csv fecha jurisdiccion
         = (CuerpoExcepcion FileNotFoundError, 500))
        /\ (forall df col, csv = Some df ->
              columna_faltante columnas_esperadas df = Some col ->
              resumen_diarios csv fecha jurisdiccion
              = (CuerpoExcepcion (ValueError (FaltaColumna col)), 400))
        /\ (forall df, csv = Some df ->
              columna_faltante columnas_esperadas df = None ->
              strptime_ymd f = None ->
              resumen_diarios csv fecha jurisdiccion
              = (CuerpoExcepcion (ValueError FechaMalFormada), 400))
        /\ (forall cuerpo, resumen_diarios csv fecha jurisdiccion = (cuerpo, 200) ->
              exists resumen, cuerpo = CuerpoResumen f resumen None /\ resumen <> [])
        /\ (forall cuerpo, resumen_diarios csv fecha jurisdiccion = (cuerpo, 404) ->
              exists e, cuerpo = CuerpoResumen f [] (Some e) /\ e <> [])).
Proof.
  split.
  { intros [->| ->]; reflexivity. }
  intros f -> Hf. unfold resumen_diarios.
  destruct f as [|c f']; [done|]. cbn [truthy negb].
  set (f := c :: f') in *.
  set (j := match jurisdiccion with
            | Some j => if truthy j then Some (upper (strip j)) else Some j
            | None => None
            end).
  assert (forall e, cargar_diarios_por_fecha csv f = Raise e ->
            generar_resumen_diarios csv f j = Raise e) as Hraise.
  { intros e He. unfold generar_resumen_diarios. by rewrite He. }
  split; [|split; [|split; [|split]]].
  - intros ->. by rewrite (Hraise FileNotFoundError).
  - intros df col -> Hcol.
    rewrite (Hraise (ValueError (FaltaColumna col))); [done|].
    unfold cargar_diarios_por_fecha. by rewrite Hcol.
  - intros df -> Hcol Hdate.
    rewrite (Hraise (ValueError FechaMalFormada)); [done|].
    unfold cargar_diarios_por_fecha. by rewrite Hcol, Hdate.
  - intros cuerpo.
    destruct (generar_resumen_diarios csv f j) as [r|e] eqn:Hgen.
    + destruct (generar_resumen_diarios_forma _ _ _ _ Hgen)
        as [Hfecha [[Herr Hres]|(e & Herr & He & Hres)]].
      * rewrite Herr. change (truthy (default [] None)) with false.
        intros [= <-]. exists (r_resumen r). by rewrite Hfecha.
      * rewrite Herr. change (default [] (Some e)) with e.
        apply truthy_true in He. rewrite He. intros [= _ ?].
    + destruct e as [|m| |]; intros [= _ ?].
  - intros cuerpo.
    destruct (generar_resumen_diarios csv f j) as [r|e] eqn:Hgen.
    + destruct (generar_resumen_diarios_forma _ _ _ _ Hgen)
        as [Hfecha [[Herr Hres]|(e & Herr & He & Hres)]].
      * rewrite Herr. change (truthy (default [] None)) with false.
        intros [= _ ?].
      * rewrite Herr. change (default [] (Some e)) with e.
        rewrite (proj2 (truthy_true e)) by done.
        intros [= <-]. exists e. rewrite Hfecha, Hres.
        split; [reflexivity | exact He].
    + destruct e as [|m| |]; intros [= _ ?].
Qed.

End EndpointsTeoremas.

(** ** Normalisation of texts *)

Section CadenasLemmas.

Lemma lstrip_idem (s : pystr) : lstrip (lstrip s) = lstrip s.
Proof.
  induction s as [|c r IH]; [reflexivity|]. simpl.
  destruct (isspace c) eqn:Hc; [exact IH|]. simpl. by rewrite Hc.
Qed.

Lemma lstrip_snoc (s : pystr) (c : N) :
  lstrip (s ++ [c]) =
  match lstrip s with
  | [] => if isspace c then [] else [c]
  | l => l ++ [c]
  end.
Proof.
  induction s as [|a s IH]; simpl.
  - by destruct (isspace c).
  - destruct (isspace a); [exact IH | reflexivity].
Qed.

Lemma rstrip_cons (c : N) (s : pystr) :
  rstrip (c :: s) =
  match rstrip s with
  | [] => if isspace c then [] else [c]
  | _ => c :: rstrip s
  end.
Proof.
  unfold rstrip. rewrite reverse_cons, lstrip_snoc.
  destruct (lstrip (reverse s)) as [|a l] eqn:Hl.
  - by destruct (isspace c).
  - rewrite reverse_app. change (reverse [c]) with [c]. simpl.
    destruct (reverse (a :: l)) eqn:Hr; [|reflexivity].
    apply (f_equal reverse) in Hr. rewrite reverse_involutive in Hr. done.
Qed.

Lemma rstrip_idem (s : pystr) : rstrip (rstrip s) = rstrip s.
Proof. unfold rstrip. by rewrite reverse_involutive, lstrip_idem. Qed.

Lemma lstrip_rstrip (s : pystr) : lstrip (rstrip s) = rstrip (lstrip s).
Proof.
  induction s as [|c r IH]; [reflexivity|].
  rewrite rstrip_cons. simpl.
  destruct (isspace c) eqn:Hc.
  - destruct (rstrip r) as [|a l] eqn:Hr.
    + rewrite <- IH. reflexivity.
    + simpl. rewrite Hc. exact IH.
  - rewrite rstrip_cons.
    destruct (rstrip r) as [|a l]; simpl; by rewrite Hc.
Qed.

(** [s.strip().strip()] is [s.strip()]. *)
Lemma strip_idem (s : pystr) : strip (strip s) = strip s.
Proof.
  unfold strip. by rewrite lstrip_rstrip, lstrip_idem, rstrip_idem.
Qed.

Lemma isspace_upper_char (c : N) : isspace (upper_char c) = isspace c.
Proof.
  unfold upper_char.
  destruct (_ || _) eqn:Hc; [|reflexivity].
  rewrite orb_true_iff, !andb_true_iff, !N.leb_le, negb_true_iff, N.eqb_neq in Hc.
  assert (forall x, (65 <= x <= 122 \/ 192 <= x <= 254) -> isspace x = false) as Hno.
  { intros x Hx. apply not_true_is_false. unfold isspace.
    rewrite !orb_true_iff, !andb_true_iff, !N.leb_le, !N.eqb_eq. lia. }
  rewrite !Hno by lia. reflexivity.
Qed.

Lemma lstrip_upper (s : pystr) : lstrip (upper s) = upper (lstrip s).
Proof.
  induction s as [|c r IH]; [reflexivity|]. simpl.
  rewrite isspace_upper_char. destruct (isspace c); [exact IH | reflexivity].
Qed.

Lemma reverse_upper (s : pystr) : reverse (upper s) = upper (reverse s).
Proof.
  unfold upper. change (map upper_char ?l) with (upper_char <$> l).
  by rewrite fmap_reverse.
Qed.

Lemma strip_upper (s : pystr) : strip (upper s) = upper (strip s).
Proof.
  unfold strip, rstrip.
  by rewrite lstrip_upper, !reverse_upper, lstrip_upper, reverse_upper.
Qed.

(** The form that the endpoints give to a jurisdiction is left as it is by
    the generator: [j.strip().upper()] is a fixed point of the same steps. *)
Lemma normalizar_idem (j : pystr) :
  upper (strip (upper (strip j))) = upper (strip j).
Proof. by rewrite strip_upper, strip_idem, upper_idem. Qed.

Lemma join_blancos (sep : pystr) (parts : list pystr) :
  Forall (fun c => isspace c = true) sep ->
  Forall (Forall (fun c => isspace c = true)) parts ->
  Forall (fun c => isspace c = true) (join sep parts).
Proof.
  intros Hsep. induction 1 as [|p ps Hp Hps IH]; [constructor|].
  destruct ps as [|q qs]; [exact Hp|].
  change (join sep (p :: q :: qs)) with (p ++ sep ++ join sep (q :: qs)).
  rewrite !Forall_app. by repeat split.
Qed.

End CadenasLemmas.

(** ** The ingestion pipeline: scanned documents *)

Section PreprocesarExtras.
Context {FS : SistemaArchivos} {LLM : ModeloLenguaje} {CFG : Config}.

(** A document without a text layer is never marked as processed: when
    every page of the PDF of a record fails to extract, has no text or holds
    white space only (and also when the PDF cannot be opened), the iteration
    of the record leaves the row as it was. *)
Theorem procesar_fila_sin_texto (row : Fila) :
  (forall pages,
     PdfReader_pages
       (os_path_normpath
          (os_path_normpath
             (os_path_join (py_str (row_item row "pdf_path"))
                           (py_str (row_item row "id"))))) = Ok pages ->
     Forall (fun page => forall t, page = Ok (Some t) ->
                                   Forall (fun c => isspace c = true) t) pages) ->
  procesar_fila row = Ok row.
Proof.
  intros Hpages. unfold procesar_fila.
  destruct (ya_procesado row); [reflexivity|].
  destruct (extraer_texto_pdf _) as [texto|e] eqn:Hx; [|reflexivity].
  unfold extraer_texto_pdf in Hx.
  destruct (os_path_exists _); cbn [negb] in Hx; [|done].
  destruct (PdfReader_pages _) as [pages|e] eqn:Hpg; [|done].
  specialize (Hpages pages eq_refl).
  unfold mbind, res_bind, mret, res_ret in Hx. injection Hx as <-.
  replace (truthy (strip _)) with false; [reflexivity|].
  symmetry. apply truthy_false, strip_nil.
  apply join_blancos; [by repeat constructor|].
  clear Hpg. induction Hpages as [|page pages Hpage _ IH]; [constructor|].
  rewrite omap_cons. destruct page as [[t|]|e]; [| |exact IH].
  - constructor; [|exact IH]. by apply Hpage.
  - constructor; [constructor | exact IH].
Qed.

End PreprocesarExtras.

Section PreprocesarExtrasEjemplos.
Import Ejemplos EjemplosExtra.

Lemma procesar_fila_sin_texto_witness :
  procesar_fila (FS := fs_pdf_escaneado) (LLM := llm) (CFG := config_por_defecto)
    (fila_raw "a.pdf" "2026-01-30" "DOF")
  = Ok (fila_raw "a.pdf" "2026-01-30" "DOF").
Proof.
  apply (procesar_fila_sin_texto (FS := fs_pdf_escaneado)).
  intros pages Hp. injection Hp as <-.
  repeat constructor; intros t Ht; try discriminate Ht.
  injection Ht as <-. by repeat constructor.
Defined.

End PreprocesarExtrasEjemplos.

(** ** The context and the sources of a question *)

Section PreguntaTeoremas.
Context {FS : SistemaArchivos} {LLM : ModeloLenguaje} {CFG : Config}
        {CAL : Calendario} {CFGP : ConfigPregunta}.

Lemma elem_of_df_head {A} (l : list A) (n : Z) (x : A) :
  x ∈ df_head l n -> x ∈ l.
Proof. intros Hx. eapply elem_of_sublist; [exact Hx | apply df_head_sublist]. Qed.

Lemma termino_es_true (t : pystr) (row : Fila) :
  termino_es t row = true -> py_str (row_item row "termino") = t.
Proof.
  unfold termino_es. destruct (row_item row "termino") as [|s]; [done|].
  unfold eqb. by intros ->%bool_decide_eq_true.
Qed.

Lemma cargar_diarios_por_fecha_con_resumen
    (csv : option DataFrame) (fecha_str : pystr) (rows : list Fila) :
  cargar_diarios_por_fecha csv fecha_str = Ok rows ->
  Forall (fun row => tiene_resumen row = true) rows.
Proof.
  unfold cargar_diarios_por_fecha.
  destruct csv as [df|]; [|done].
  destruct (columna_faltante _ _); [done|].
  destruct (strptime_ymd fecha_str) as [D|]; [|done].
  destruct (List.filter _ (filas df)) as [|r rs]; intros [= <-]; [constructor|].
  apply Forall_forall. intros row Hin.
  apply list_elem_of_In in Hin.
  apply (List.filter_In tiene_resumen row (r :: rs)) in Hin. tauto.
Qed.

(** The sources of a question about the news. For a non-negative
    [MAX_NOTICIAS_PREGUNTA] there are at most that many sources; the context
    is one line per source, in the same order, built from the topic, the
    headline and the outlet of the source; every source carries the query
    date and comes from a row that the loader returns for that date; and with
    a non-empty topic filter every source has that topic. When the loader
    raises, the context and the sources are empty. *)
Theorem preparar_contexto_y_fuentes_noticias_fuentes
    (csv : option DataFrame) (fecha_str : pystr) (termino_filtro : option pystr) :
  (0 <= MAX_NOTICIAS_PREGUNTA)%Z ->
  let r := preparar_contexto_y_fuentes_noticias csv fecha_str termino_filtro in
  (length r.2 <= Z.to_nat MAX_NOTICIAS_PREGUNTA)%nat
  /\ r.1 = join [10]
             (map (fun f => u "[" ++ fn_termino f ++ u "] " ++ fn_titular f
                            ++ u " (medio: " ++ fn_medio f ++ u ")") r.2)
  /\ Forall (fun f => fn_fecha f = fecha_str) r.2
  /\ (forall f, f ∈ r.2 ->
        exists rows row,
          cargar_noticias_dap_por_fecha csv fecha_str = Ok rows
          /\ row ∈ rows
          /\ fn_termino f = py_str (row_item row "termino")
          /\ fn_titular f = py_str (row_item row "titular"))
  /\ (forall t, termino_filtro = Some t -> t <> [] ->
        Forall (fun f => fn_termino f = t) r.2)
  /\ (forall e, cargar_noticias_dap_por_fecha csv fecha_str = Raise e ->
        r = ([], [])).
Proof.
  intros Hmax r. subst r. unfold preparar_contexto_y_fuentes_noticias.
  destruct (cargar_noticias_dap_por_fecha csv fecha_str) as [rows|e] eqn:Hc.
  2: { simpl. split; [lia|]. split; [reflexivity|]. split; [constructor|].
       split; [intros f Hf; by apply elem_of_nil in Hf|].
       split; [intros; constructor | done]. }
  set (sel := match termino_filtro with
              | Some t => if truthy t then List.filter (termino_es t) rows else rows
              | None => rows
              end).
  assert (forall row, row ∈ sel -> row ∈ rows) as Hsub.
  { intros row. unfold sel. destruct termino_filtro as [t|]; [|done].
    destruct (truthy t); [|done].
    intros Hin. apply list_elem_of_In, List.filter_In in Hin.
    apply list_elem_of_In. tauto. }
  assert (forall t, termino_filtro = Some t -> t <> [] ->
            forall row, row ∈ sel -> py_str (row_item row "termino") = t) as Hfil.
  { intros t -> Ht row. unfold sel.
    rewrite (proj2 (truthy_true t) Ht).
    intros Hin. apply list_elem_of_In, List.filter_In in Hin.
    apply termino_es_true, Hin. }
  clearbody sel.
  destruct sel as [|r0 rs] eqn:Hsel.
  { simpl. split; [lia|]. split; [reflexivity|]. split; [constructor|].
    split; [intros f Hf; by apply elem_of_nil in Hf|].
    split; [intros; constructor | done]. }
  rewrite <- Hsel in *. clear Hsel r0 rs.
  cbn [fst snd].
  split; [rewrite length_map; by apply length_df_head|].
  split; [by rewrite map_map|].
  split; [apply Forall_forall; intros f Hf;
          change (map ?g ?l) with (g <$> l) in Hf;
          apply list_elem_of_fmap in Hf as (row & -> & _); reflexivity|].
  split; [|split; [|done]].
  - intros f Hf. change (map ?g ?l) with (g <$> l) in Hf.
    apply list_elem_of_fmap in Hf as (row & -> & Hrow).
    exists rows, row. split; [done|]. split; [|by split].
    by apply Hsub, (elem_of_df_head _ MAX_NOTICIAS_PREGUNTA).
  - intros t Hf Ht. apply Forall_forall. intros f Hin.
    change (map ?g ?l) with (g <$> l) in Hin.
    apply list_elem_of_fmap in Hin as (row & -> & Hrow). simpl.
    apply (Hfil t Hf Ht), (elem_of_df_head _ MAX_NOTICIAS_PREGUNTA), Hrow.
Qed.

(** The sources of a question about the official journals. The helper
    never raises. For a non-negative [MAX_DIARIOS_PREGUNTA] there are at most
    that many sources; each source is a record that the loader returns for
    the date, so a record with a summary, and carries its id, PDF directory
    and jurisdiction; with a non-empty jurisdiction filter, each source is of
    that jurisdiction, compared in upper case. When the loader raises, the
    context and the sources are empty. *)
Theorem preparar_contexto_y_fuentes_diarios_fuentes
    (csv : option DataFrame) (fecha_str : pystr) (jurisdiccion : option pystr) :
  (0 <= MAX_DIARIOS_PREGUNTA)%Z ->
  exists contexto fuentes,
    preparar_contexto_y_fuentes_diarios csv fecha_str jurisdiccion
    = Ok (contexto, fuentes)
    /\ (length fuentes <= Z.to_nat MAX_DIARIOS_PREGUNTA)%nat
    /\ (forall f, f ∈ fuentes ->
          exists rows row,
            cargar_diarios_por_fecha csv fecha_str = Ok rows
            /\ row ∈ rows
            /\ tiene_resumen row = true
            /\ fd_id f = py_str (row_get row "id" (Str []))
            /\ fd_pdf_path f = py_str (row_get row "pdf_path" (Str []))
            /\ fd_jurisdiccion f = py_str (row_get row "jurisdiccion" (Str []))
            /\ (forall j, jurisdiccion = Some j -> j <> [] ->
                  upper (py_str (row_item row "jurisdiccion")) = upper j))
    /\ (forall e, cargar_diarios_por_fecha csv fecha_str = Raise e ->
          contexto = [] /\ fuentes = []).
Proof.
  intros Hmax. unfold preparar_contexto_y_fuentes_diarios.
  destruct (cargar_diarios_por_fecha csv fecha_str) as [rows|e] eqn:Hc.
  2: { exists [], []. split; [reflexivity|]. split; [simpl; lia|].
       split; [intros f Hf; by apply elem_of_nil in Hf | done]. }
  pose proof (cargar_diarios_por_fecha_con_resumen _ _ _ Hc) as Hres.
  rewrite Forall_forall in Hres.
  destruct rows as [|r0 rs] eqn:Hrows.
  { exists [], []. split; [reflexivity|]. split; [simpl; lia|].
    split; [intros f Hf; by apply elem_of_nil in Hf | done]. }
  rewrite <- Hrows in *. clear Hrows r0 rs.
  set (filtro := match jurisdiccion with
                 | Some j => if truthy j then Some j else None
                 | None => None
                 end).
  set (sel := match filtro with
              | Some j => List.filter (jurisdiccion_es j) rows
              | None => rows
              end).
  assert (forall row, row ∈ sel -> row ∈ rows) as Hsub.
  { intros row. unfold sel. destruct filtro as [j|]; [|done].
    intros Hin. apply list_elem_of_In, List.filter_In in Hin.
    apply list_elem_of_In. tauto. }
  assert (forall j, jurisdiccion = Some j -> j <> [] ->
            forall row, row ∈ sel ->
              upper (py_str (row_item row "jurisdiccion")) = upper j) as Hfil.
  { intros j Hj Hne row. unfold sel, filtro. rewrite Hj.
    rewrite (proj2 (truthy_true j) Hne).
    intros Hin. apply list_elem_of_In, List.filter_In in Hin as [_ Hin].
    unfold jurisdiccion_es, eqb in Hin. by apply bool_decide_eq_true in Hin. }
  clearbody sel.
  destruct sel as [|s0 ss] eqn:Hsel.
  { exists [], []. split; [reflexivity|]. split; [simpl; lia|].
    split; [intros f Hf; by apply elem_of_nil in Hf | done]. }
  rewrite <- Hsel in *. clear Hsel s0 ss.
  rewrite construir_contexto_Ok. unfold mbind at 1, res_bind.
  match goal with
  | |- context [match ?p with pair _ _ => _ end] => set (par := p)
  end.
  assert (forall row, row ∈ par.2 -> row ∈ sel) as Hrel.
  { intros row. unfold par. destruct filtro as [j|]; [|done].
    destruct (dict_get _ j); [|done]. cbn [snd].
    intros Hin. apply list_elem_of_In, List.filter_In in Hin.
    apply list_elem_of_In. tauto. }
  clearbody par. destruct par as [textos df_relevante]. cbn [snd] in Hrel.
  eexists _, _. split; [reflexivity|].
  split; [rewrite length_map; by apply length_df_head|].
  split; [|done].
  intros f Hf. change (map ?g ?l) with (g <$> l) in Hf.
  apply list_elem_of_fmap in Hf as (row & -> & Hrow).
  apply (elem_of_df_head _ MAX_DIARIOS_PREGUNTA), Hrel in Hrow.
  exists rows, row. split; [done|]. split; [by apply Hsub|].
  split; [by apply Hres, Hsub|]. do 3 (split; [reflexivity|]).
  intros j Hj Hne. by apply (Hfil j Hj Hne).
Qed.

End PreguntaTeoremas.

Section PreguntaEjemplos.
Import Ejemplos EjemplosExtra.

Lemma preparar_contexto_y_fuentes_noticias_fuentes_witness :
  preparar_contexto_y_fuentes_noticias (CAL := Fechas.calendario_pandas)
    (CFGP := config_pregunta_por_defecto)
    (Some noticias_dos_fechas) (u "2026-02-01") (Some (u "gas"))
  = (u "[gas] Baja el precio del gas (medio: El Diario)",
     [mkFuenteNoticia (u "2026-02-01") (u "gas") (u "Baja el precio del gas")
                      (u "El Diario") (u "https://ejemplo.mx/nota")])
  /\ Forall (fun f => fn_termino f = u "gas")
       (preparar_contexto_y_fuentes_noticias (CAL := Fechas.calendario_pandas)
          (CFGP := config_pregunta_por_defecto)
          (Some noticias_dos_fechas) (u "2026-02-01") (Some (u "gas"))).2.
Proof.
  split; [vm_compute; reflexivity|].
  refine (proj1 (proj2 (proj2 (proj2 (proj2
            (preparar_contexto_y_fuentes_noticias_fuentes
               (CAL := Fechas.calendario_pandas)
               (CFGP := config_pregunta_por_defecto)
               (Some noticias_dos_fechas) (u "2026-02-01") (Some (u "gas")) _)))))
            (u "gas") eq_refl _).
  - simpl. lia.
  - discriminate.
Defined.

Lemma preparar_contexto_y_fuentes_diarios_fuentes_witness :
  exists contexto fuentes,
    preparar_contexto_y_fuentes_diarios (FS := fs_resumenes_cortos)
      (CFG := config_por_defecto) (CAL := Fechas.calendario_pandas)
      (CFGP := config_pregunta_por_defecto)
      (Some indice_3_procesado) (u "2026-01-30") (Some (u "dof"))
    = Ok (contexto, fuentes)
    /\ (length fuentes <= 10)%nat.
Proof.
  destruct (preparar_contexto_y_fuentes_diarios_fuentes
              (FS := fs_resumenes_cortos) (CFG := config_por_defecto)
              (CAL := Fechas.calendario_pandas)
              (CFGP := config_pregunta_por_defecto)
              (Some indice_3_procesado) (u "2026-01-30") (Some (u "dof")))
    as (contexto & fuentes & Hrun & Hlen & _).
  - simpl. lia.
  - exists contexto, fuentes. split; [exact Hrun | exact Hlen].
Defined.

End PreguntaEjemplos.

(** ** Endpoints: normalised filters, documents and the summary of the news *)

Section EndpointsExtras.
Context {FS : SistemaArchivos} {LLM : ModeloLenguaje} {CFG : Config}
        {CAL : Calendario} {CFGP : ConfigPregunta} {LLMN : ModeloNoticias}.

Lemma truthy_upper (s : pystr) : truthy (upper s) = truthy s.
Proof. by destruct s. Qed.

(** The jurisdiction filter is normalised once: [/resumen_diarios] and
    [/resumen_do] strip the jurisdiction and put it in upper case before they
    call the generator, which does the same again; the second normalisation
    changes nothing, so the generator answers the normalised filter as it
    answers the raw one, and so does [/resumen_diarios]; [/resumen_do] does
    for every jurisdiction that is not blank. *)
Theorem generar_resumen_diarios_filtro_idempotente
    (csv : option DataFrame) (fecha_str j : pystr) :
  generar_resumen_diarios csv fecha_str (Some (upper (strip j)))
  = generar_resumen_diarios csv fecha_str (Some j)
  /\ resumen_diarios csv (Some fecha_str) (Some (upper (strip j)))
     = resumen_diarios csv (Some fecha_str) (Some j)
  /\ (strip j <> [] ->
      resumen_do csv (Some fecha_str) (Some (upper (strip j)))
      = resumen_do csv (Some fecha_str) (Some j)).
Proof.
  destruct j as [|c j']; [by repeat split|].
  split; [|split].
  - unfold generar_resumen_diarios. cbv beta iota zeta.
    rewrite normalizar_idem. change (truthy (c :: j')) with true.
    cbv beta iota zeta.
    destruct (truthy (upper (strip (c :: j')))) eqn:Hn;
      cbv beta iota zeta; rewrite ?Hn; reflexivity.
  - unfold resumen_diarios. cbv beta iota zeta.
    rewrite normalizar_idem. change (truthy (c :: j')) with true.
    cbv beta iota zeta.
    destruct (truthy (upper (strip (c :: j')))) eqn:Hn; reflexivity.
  - intros Hne. unfold resumen_do. cbv beta iota zeta.
    rewrite normalizar_idem. change (truthy (c :: j')) with true.
    rewrite truthy_upper, (proj2 (truthy_true _) Hne). reflexivity.
Qed.

Lemma do_pdfs_Ok (csv : option DataFrame) (fecha_str j : pystr) (df_dia : list Fila) :
  cargar_diarios_por_fecha csv fecha_str = Ok df_dia ->
  fecha_str <> [] -> j <> [] ->
  do_pdfs csv (Some fecha_str) (Some j)
  = (DoDocumentos fecha_str (upper (strip j))
       (omap (documento_de_fila (upper (strip j)))
             (List.filter
                (fun row => eqb (upper (py_str (row_item row "jurisdiccion")))
                                (upper (strip j))) df_dia)), 200).
Proof.
  intros Hc Hf Hj. unfold do_pdfs.
  rewrite (proj2 (truthy_true _) Hf), (proj2 (truthy_true _) Hj), Hc.
  cbn [negb]. destruct df_dia as [|r rs]; [reflexivity|].
  cbv zeta. by destruct (List.filter _ (r :: rs)).
Qed.

Lemma elem_of_documentos (jurisdiccion : pystr) (rows : list Fila) (d : documento) :
  d ∈ omap (documento_de_fila jurisdiccion) rows <->
  exists row, row ∈ rows
    /\ strip (py_str (row_get row "id" (Str []))) <> []
    /\ d = mkDocumento (strip (py_str (row_get row "id" (Str []))))
                       (strip (py_str (row_get row "id" (Str []))))
                       jurisdiccion
                       (u "/descargar_pdf?id="
                        ++ strip (py_str (row_get row "id" (Str [])))).
Proof.
  rewrite list_elem_of_omap. unfold documento_de_fila.
  split; intros (row & Hrow & Hd); exists row; (split; [exact Hrow|]).
  - destruct (truthy _) eqn:Ht; cbn [negb] in Hd; [|done].
    injection Hd as <-. split; [by apply truthy_true | reflexivity].
  - destruct Hd as [Hne ->]. by rewrite (proj2 (truthy_true _) Hne).
Qed.

(** The documents of a date and a jurisdiction. When the index loads,
    [/do_pdfs] answers 200 with the normalised jurisdiction. The id of a
    document is the stripped text of [str] of the id field of a record. The
    ids listed are exactly those texts that are not empty, over the loaded
    records of that jurisdiction, compared in upper case; each entry has that
    text as id and as name, the normalised jurisdiction and the download
    address of the id, and there is at most one entry per loaded record. An
    empty id field does not give a blank text: it reads as the text [nan],
    and a record with an empty id field is listed as the document [nan]. *)
Theorem do_pdfs_documentos
    (csv : option DataFrame) (fecha_str j : pystr) (df_dia : list Fila) :
  cargar_diarios_por_fecha csv fecha_str = Ok df_dia ->
  fecha_str <> [] -> j <> [] ->
  exists docs,
    do_pdfs csv (Some fecha_str) (Some j)
    = (DoDocumentos fecha_str (upper (strip j)) docs, 200)
    /\ (length docs <= length df_dia)%nat
    /\ Forall (fun d => d_id d <> [] /\ strip (d_id d) = d_id d
                        /\ d_nombre d = d_id d
                        /\ d_jurisdiccion d = upper (strip j)
                        /\ d_url d = u "/descargar_pdf?id=" ++ d_id d) docs
    /\ (forall id, id ∈ map d_id docs <->
         id <> []
         /\ exists row, row ∈ df_dia
              /\ upper (py_str (row_item row "jurisdiccion")) = upper (strip j)
              /\ strip (py_str (row_get row "id" (Str []))) = id)
    /\ (forall row, row ∈ df_dia ->
          upper (py_str (row_item row "jurisdiccion")) = upper (strip j) ->
          row !! "id"%string = Some NaN ->
          u "nan" ∈ map d_id docs).
Proof.
  intros Hc Hf Hj. eexists. split; [by apply do_pdfs_Ok|].
  split; [|split; [|split]].
  4: { intros row Hrow Hjur Hid.
       change (map ?g ?l) with (g <$> l). apply list_elem_of_fmap.
       assert (strip (py_str (row_get row "id" (Str []))) = u "nan") as Hnan.
       { unfold row_get. rewrite Hid. vm_compute. reflexivity. }
       eexists. split; [|apply elem_of_documentos; exists row;
                         split; [|split; [|reflexivity]]].
       - cbn [d_id]. symmetry. exact Hnan.
       - apply list_elem_of_In, List.filter_In. split; [by apply list_elem_of_In|].
         unfold eqb. apply bool_decide_eq_true. exact Hjur.
       - rewrite Hnan. discriminate. }
  - etransitivity; [apply length_omap_le | apply List.filter_length_le].
  - apply Forall_forall. intros d Hd.
    apply elem_of_documentos in Hd as (row & _ & Hne & ->).
    cbn [d_id d_nombre d_jurisdiccion d_url].
    split; [exact Hne|]. split; [apply strip_idem|].
    split; [reflexivity|]. split; reflexivity.
  - intros id. change (map ?g ?l) with (g <$> l). rewrite list_elem_of_fmap. split.
    + intros (d & -> & Hd).
      apply elem_of_documentos in Hd as (row & Hrow & Hne & ->).
      cbn [d_id].
      split; [exact Hne|]. exists row.
      apply list_elem_of_In, List.filter_In in Hrow as [Hrow Hjur].
      unfold eqb in Hjur. apply bool_decide_eq_true in Hjur.
      split; [by apply list_elem_of_In|]. split; [exact Hjur | reflexivity].
    + intros (Hne & row & Hrow & Hjur & <-).
      eexists. split; [|apply elem_of_documentos; exists row;
                        split; [|split; [exact Hne | reflexivity]]].
      * reflexivity.
      * apply list_elem_of_In, List.filter_In. split; [by apply list_elem_of_In|].
        unfold eqb. apply bool_decide_eq_true. exact Hjur.
Qed.

(** The two endpoints of the documents agree: a jurisdiction that
    [/jurisdicciones_disponibles] lists for a date, when it has no white
    space around it, is one that [/do_pdfs] answers with status 200 under
    the same name; some loaded record is of that jurisdiction, and the
    answer lists every loaded record of the jurisdiction whose id is not
    blank. *)
Theorem do_pdfs_de_jurisdiccion_listada
    (csv : option DataFrame) (fecha_str j : pystr) (js : list pystr) :
  jurisdicciones_disponibles csv (Some fecha_str)
  = (CuerpoJurisdicciones fecha_str js, 200) ->
  j ∈ js -> j <> [] -> strip j = j ->
  exists rows docs,
    cargar_diarios_por_fecha csv fecha_str = Ok rows
    /\ do_pdfs csv (Some fecha_str) (Some j) = (DoDocumentos fecha_str j docs, 200)
    /\ (exists row, row ∈ rows
          /\ upper (py_str (row_item row "jurisdiccion")) = j)
    /\ (forall row, row ∈ rows ->
          upper (py_str (row_item row "jurisdiccion")) = j ->
          strip (py_str (row_get row "id" (Str []))) <> [] ->
          strip (py_str (row_get row "id" (Str []))) ∈ map d_id docs).
Proof.
  intros Hjs Hj Hne Hstrip. unfold jurisdicciones_disponibles in Hjs.
  destruct (truthy fecha_str) eqn:Hf; cbn [negb] in Hjs; [|discriminate Hjs].
  apply truthy_true in Hf.
  destruct (cargar_diarios_por_fecha csv fecha_str) as [rows|e] eqn:Hc.
  2: { destruct e; discriminate Hjs. }
  destruct rows as [|r rs] eqn:Hrows; [discriminate Hjs|].
  rewrite <- Hrows in *. clear Hrows r rs.
  injection Hjs as <-.
  rewrite elem_of_sorted, elem_of_unique in Hj.
  change (map ?g ?l) with (g <$> l) in Hj.
  apply list_elem_of_fmap in Hj as (row & Hrow & Hin).
  assert (upper (strip j) = j) as Hnorm.
  { rewrite Hstrip, Hrow. apply upper_idem. }
  exists rows. eexists. split; [reflexivity|].
  split; [rewrite (do_pdfs_Ok csv fecha_str j rows Hc Hf Hne), Hnorm; reflexivity|].
  split; [exists row; by split|].
  intros row' Hin' Hjur Hid.
  change (map ?g ?l) with (g <$> l). apply list_elem_of_fmap.
  eexists. split; [|apply elem_of_documentos; exists row';
                    split; [|split; [exact Hid | reflexivity]]].
  - reflexivity.
  - apply list_elem_of_In, List.filter_In. split; [by apply list_elem_of_In|].
    unfold eqb. apply bool_decide_eq_true. exact Hjur.
Qed.

(** The answers of the summary of the news. Without a date the status is
    400. A body with a summary carries the query date and is one of two: the
    status 404, when the loader returns no row for the date, with an empty
    summary and the error "No hay noticias para esa fecha"; or the status
    200 without error, when the loader returns rows and the language model
    answers: the summary is its stripped answer to the context of those
    rows. A [FileNotFoundError] gives 500, a [ValueError] gives 400, any other
    exception gives 500. *)
Theorem resumen_noticias_codigos (csv : option DataFrame) (fecha : option pystr) :
  match resumen_noticias csv fecha with
  | (CuerpoFaltaFecha, codigo) =>
    codigo = 400 /\ (fecha = None \/ fecha = Some [])
  | (CuerpoResumen f resumen error, codigo) =>
    fecha = Some f /\ f <> []
    /\ ((codigo = 404
         /\ cargar_noticias_dap_por_fecha csv f = Ok []
         /\ resumen = []
         /\ error = Some (u "No hay noticias para esa fecha"))
        \/ (codigo = 200 /\ error = None
            /\ exists rows content,
                 cargar_noticias_dap_por_fecha csv f = Ok rows
                 /\ rows <> []
                 /\ chat_resumen_noticias f (construir_contexto_por_tema rows)
                    = Ok content
                 /\ resumen = strip content))
  | (CuerpoExcepcion e, codigo) =>
    (e = FileNotFoundError /\ codigo = 500)
    \/ (exists m, e = ValueError m /\ codigo = 400)
  | (CuerpoErrorInterno, codigo) => codigo = 500
  | (CuerpoJurisdicciones _ _, _) => False
  end.
Proof.
  unfold resumen_noticias.
  destruct fecha as [f|]; [|split; [reflexivity | by left]].
  destruct (truthy f) eqn:Hf; cbn [negb].
  2: { apply truthy_false in Hf. subst f. split; [reflexivity | by right]. }
  apply truthy_true in Hf.
  assert (forall e : exn,
            match (match e with
                   | FileNotFoundError => (CuerpoExcepcion FileNotFoundError, 500)
                   | ValueError m => (CuerpoExcepcion (ValueError m), 400)
                   | _ => (CuerpoErrorInterno, 500)
                   end : cuerpo_http * N) with
            | (CuerpoExcepcion e', codigo) =>
              (e' = FileNotFoundError /\ codigo = 500)
              \/ (exists m, e' = ValueError m /\ codigo = 400)
            | (CuerpoErrorInterno, codigo) => codigo = 500
            | _ => False
            end) as Hexn.
  { intros [|m| |]; [by left | right; by exists m | reflexivity | reflexivity]. }
  unfold generar_resumen_noticias_dap.
  destruct (cargar_noticias_dap_por_fecha csv f) as [rows|e] eqn:Hc.
  2: { unfold mbind, res_bind. specialize (Hexn e). by destruct e. }
  unfold mbind at 1, res_bind.
  destruct rows as [|r rs] eqn:Hrows.
  - unfold mret, res_ret. cbn [r_error r_fecha r_resumen].
    rewrite bool_decide_eq_true_2 by reflexivity.
    split; [reflexivity|]. split; [exact Hf|]. left.
    split; [reflexivity|]. split; [exact Hc|]. split; reflexivity.
  - rewrite <- Hrows in *.
    destruct (chat_resumen_noticias f (construir_contexto_por_tema rows))
      as [content|e] eqn:Hchat.
    2: { unfold mbind, res_bind. specialize (Hexn e). by destruct e. }
    unfold mbind, res_bind, mret, res_ret. cbn [r_error r_fecha r_resumen].
    rewrite bool_decide_eq_false_2 by discriminate.
    split; [reflexivity|]. split; [exact Hf|]. right.
    split; [reflexivity|]. split; [reflexivity|].
    exists rows, content. split; [exact Hc|].
    split; [by rewrite Hrows|]. split; [exact Hchat | reflexivity].
Qed.

Lemma df_head_cons {A} (x : A) (l : list A) (n : Z) :
  (1 <= n)%Z -> df_head (x :: l) n = x :: take (Z.to_nat n - 1)%nat l.
Proof.
  intros Hn. unfold df_head. destruct (Z.leb_spec 0 n); [|lia].
  destruct (Z.to_nat n) as [|k] eqn:Hk; [lia|].
  simpl. by rewrite Nat.sub_0_r.
Qed.

(** A question about the news without a date and without a topic has a
    context: when the news file has its five columns, the formatted form of
    each stored date parses back to it and [MAX_NOTICIAS_PREGUNTA] is at
    least one, the helper that [/pregunta] calls with the date returned by
    [obtener_ultima_fecha_noticias] gives a non-empty context and at least one
    source. *)
Theorem preparar_contexto_ultima_fecha_noticias (df : DataFrame) (f : pystr) :
  (forall col, col ∈ columnas_noticias -> col ∈ columns df) ->
  Forall (fun row => forall d,
            to_datetime false (row_item row "fecha") = Some d ->
            strptime_ymd (strftime_ymd d) = Some d) (filas df) ->
  (1 <= MAX_NOTICIAS_PREGUNTA)%Z ->
  obtener_ultima_fecha_noticias (Some df) = Some f ->
  (preparar_contexto_y_fuentes_noticias (Some df) f None).1 <> []
  /\ (preparar_contexto_y_fuentes_noticias (Some df) f None).2 <> [].
Proof.
  intros Hcols Hround Hmax Hult.
  destruct (ultima_fecha_noticias_filas df f Hcols Hround Hult)
    as (d & rows & _ & _ & Hc & Hne & _).
  unfold preparar_contexto_y_fuentes_noticias. rewrite Hc.
  destruct rows as [|r rs]; [done|].
  cbv zeta. rewrite (df_head_cons r rs _ Hmax).
  cbn [map fst snd]. split; [|discriminate].
  destruct (map _ (take _ rs)); discriminate.
Qed.

End EndpointsExtras.

Section EndpointsExtrasEjemplos.
Import Ejemplos EjemplosExtra.

Lemma do_pdfs_documentos_witness :
  exists docs,
    do_pdfs (CAL := Fechas.calendario_pandas)
      (Some indice_3_procesado) (Some (u "2026-01-30")) (Some (u " dof "))
    = (DoDocumentos (u "2026-01-30") (u "DOF") docs, 200)
    /\ (length docs <= 2)%nat.
Proof.
  destruct (do_pdfs_documentos (CAL := Fechas.calendario_pandas)
              (Some indice_3_procesado) (u "2026-01-30") (u " dof ")
              [fila "a.pdf" "2026-01-30" "DOF" "pdfs"
                    (Str (u "do_textos/DOF/a.txt"))
                    (Str (u "do_resumenes/DOF/a_resumen.txt"))
                    (Str (u "summary_ready"));
               fila "c.pdf" "2026-01-30" "CDMX" "pdfs"
                    (Str (u "do_textos/CDMX/c.txt"))
                    (Str (u "do_resumenes/CDMX/c_resumen.txt"))
                    (Str (u "summary_ready"))])
    as (docs & Hrun & Hlen & _).
  - compute_done.
  - discriminate.
  - discriminate.
  - exists docs. split; [exact Hrun | exact Hlen].
Defined.

Lemma do_pdfs_de_jurisdiccion_listada_witness :
  exists docs,
    do_pdfs (CAL := Fechas.calendario_pandas)
      (Some indice_3_procesado) (Some (u "2026-01-30")) (Some (u "DOF"))
    = (DoDocumentos (u "2026-01-30") (u "DOF") docs, 200).
Proof.
  destruct (do_pdfs_de_jurisdiccion_listada (CAL := Fechas.calendario_pandas)
              (Some indice_3_procesado) (u "2026-01-30") (u "DOF")
              [u "CDMX"; u "DOF"])
    as (rows & docs & _ & Hrun & _).
  - compute_done.
  - apply elem_of_cons. right. apply elem_of_cons. left. reflexivity.
  - discriminate.
  - vm_compute. reflexivity.
  - exists docs. exact Hrun.
Defined.

Lemma preparar_contexto_ultima_fecha_noticias_witness :
  (preparar_contexto_y_fuentes_noticias (CAL := Fechas.calendario_pandas)
     (CFGP := config_pregunta_por_defecto)
     (Some noticias_dos_fechas) (u "2026-02-01") None).2 <> [].
Proof.
  refine (proj2 (preparar_contexto_ultima_fecha_noticias
                   (CAL := Fechas.calendario_pandas)
                   (CFGP := config_pregunta_por_defecto)
                   noticias_dos_fechas (u "2026-02-01") _ _ _ _)).
  - intros col Hcol. vm_compute in Hcol. vm_compute.
    repeat (apply elem_of_cons in Hcol as [->|Hcol]; [set_solver|]).
    by apply elem_of_nil in Hcol.
  - repeat constructor; intros d Hd; vm_compute in Hd;
      injection Hd as <-; vm_compute; reflexivity.
  - simpl. lia.
  - compute_done.
Defined.

End EndpointsExtrasEjemplos.

(** ** The loaders: the rows of a date *)

Section CargarExtras.
Context {CAL : Calendario}.

Lemma List_filter_sublist {A} (f : A -> bool) (l : list A) :
  List.filter f l `sublist_of` l.
Proof.
  induction l as [|a l IH]; [constructor|]. simpl.
  destruct (f a); by constructor.
Qed.

Lemma elem_of_List_filter {A} (f : A -> bool) (l : list A) (x : A) :
  x ∈ List.filter f l <-> x ∈ l /\ f x = true.
Proof. by rewrite !list_elem_of_In, List.filter_In. Qed.

(** The rows of a date of the index: when the loader returns, it returns,
    in the order of the index, exactly the rows whose stored date is the
    query date and that pass the test of the summary; none of them is [raw],
    and a returned row whose summary path field holds a text has one that is
    not blank. A row whose summary path field is empty is not excluded by
    this: the field reads as the text [nan], which passes the test. *)
Theorem cargar_diarios_por_fecha_filas
    (csv : option DataFrame) (fecha_str : pystr) (rows : list Fila) :
  cargar_diarios_por_fecha csv fecha_str = Ok rows ->
  exists df D,
    csv = Some df
    /\ strptime_ymd fecha_str = Some D
    /\ rows `sublist_of` filas df
    /\ (forall row, row ∈ rows <->
          row ∈ filas df
          /\ to_datetime false (row_item row "fecha") = Some D
          /\ tiene_resumen row = true)
    /\ Forall (fun row =>
                 estado row <> u "raw"
                 /\ forall s, row !! "summary_path"%string = Some (Str s) ->
                              strip s <> [])
              rows.
Proof.
  intros Hc.
  destruct csv as [df|]; [|discriminate Hc].
  destruct (columna_faltante columnas_esperadas df) as [col|] eqn:Hcol.
  { unfold cargar_diarios_por_fecha in Hc. rewrite Hcol in Hc. discriminate Hc. }
  destruct (strptime_ymd fecha_str) as [D|] eqn:HD.
  2: { unfold cargar_diarios_por_fecha in Hc. rewrite Hcol, HD in Hc.
       discriminate Hc. }
  pose proof (proj1 (columna_faltante_None _ _) Hcol) as Hcols.
  clear Hcol. rename Hcols into Hcol.
  rewrite (cargar_diarios_por_fecha_Ok df fecha_str D Hcol HD) in Hc.
  injection Hc as <-.
  exists df, D. split; [reflexivity|]. split; [reflexivity|].
  split; [apply List_filter_sublist|]. split.
  - intros row.
    rewrite elem_of_List_filter, andb_true_iff, bool_decide_eq_true. reflexivity.
  - apply Forall_forall. intros row Hrow.
    apply elem_of_List_filter in Hrow as [_ Hrow].
    apply andb_true_iff in Hrow as [_ Ht]. split.
    + intros Hraw. apply tiene_resumen_raw in Hraw. congruence.
    + intros s Hs. unfold tiene_resumen, row_get in Ht. rewrite Hs in Ht.
      apply andb_true_iff in Ht as [Ht _].
      apply truthy_true in Ht. exact Ht.
Qed.

End CargarExtras.

Section CargarExtrasEjemplos.
Import Ejemplos.

Lemma cargar_diarios_por_fecha_filas_witness :
  cargar_diarios_por_fecha (CAL := Fechas.calendario_pandas)
    (Some indice_3_procesado) (u "2026-01-30")
  = Ok [fila "a.pdf" "2026-01-30" "DOF" "pdfs"
             (Str (u "do_textos/DOF/a.txt"))
             (Str (u "do_resumenes/DOF/a_resumen.txt"))
             (Str (u "summary_ready"));
        fila "c.pdf" "2026-01-30" "CDMX" "pdfs"
             (Str (u "do_textos/CDMX/c.txt"))
             (Str (u "do_resumenes/CDMX/c_resumen.txt"))
             (Str (u "summary_ready"))]
  /\ exists D, strptime_ymd (Calendario := Fechas.calendario_pandas) (u "2026-01-30")
               = Some D.
Proof.
  assert (cargar_diarios_por_fecha (CAL := Fechas.calendario_pandas)
            (Some indice_3_procesado) (u "2026-01-30")
          = Ok [fila "a.pdf" "2026-01-30" "DOF" "pdfs"
                     (Str (u "do_textos/DOF/a.txt"))
                     (Str (u "do_resumenes/DOF/a_resumen.txt"))
                     (Str (u "summary_ready"));
                fila "c.pdf" "2026-01-30" "CDMX" "pdfs"
                     (Str (u "do_textos/CDMX/c.txt"))
                     (Str (u "do_resumenes/CDMX/c_resumen.txt"))
                     (Str (u "summary_ready"))]) as Hrun by compute_done.
  split; [exact Hrun|].
  destruct (cargar_diarios_por_fecha_filas (CAL := Fechas.calendario_pandas)
              _ _ _ Hrun) as (df & D & _ & HD & _).
  by exists D.
Defined.

End CargarExtrasEjemplos.
